(** * Nirvaha backend: marketplace workflow, dual-mode persistence and
      analytics aggregation.

    A shallow embedding of the Express application (the file that carries the
    marketplace, analytics, catalogue, content and authentication routes)
    together with the properties its specification states about it, and
    further properties read off the code: round trips, invariants kept over
    sequences of calls, and the isolation of the two stores.

    Conventions of the embedding.
    - A JavaScript value is a [JSValue]; a number is an exact rational or one
      of NaN, +Infinity, -Infinity (rounding of in-range values to binary64 is
      not modelled, overflow to an infinity is).
    - A [Date] and a [Date.now()] stamp are both the time value: an integer
      count of milliseconds since the epoch.  The host time zone is a [Zone]:
      its offset from UTC in milliseconds as a function of the UTC time and
      as a function of the local time, so that daylight-saving transitions
      are covered; [fixed tza] is the zone whose offset is always [tza], and
      an integer offset is read as that zone.
    - The process state is a [Server]: the flag [mongoConnected], the
      in-memory [localDB] and the collections behind the Mongoose models.
      Every route handler is a function from its request and the clock
      readings it takes to a [Response] and the next [Server].
    - A Mongoose model call made while [mongoConnected] is false has no
      connection to run on and throws (buffering time-out); a handler without
      [try]/[catch] then sends no response at all ([Rejected]).  Schema
      validation of a document or of an update runs before the operation is
      handed to the connection, so a document the schema refuses fails with
      a validation error in either mode.
    - A document saved through a model is stored as Mongoose writes it:
      with the schema option [minimize] at its default, a [Mixed] field loses
      its empty objects ([minimize]).  The collections a handler is given
      hold documents as the application stored them.
    - [find().sort({createdAt: -1})] leaves the order of documents with equal
      stamps to the database; a route that sorts this way takes that order
      as its parameter [tie].
    - The CompanionApplication collection is used by its own routes only and
      is threaded beside the [Server] as a list of [App.t].
    - Socket.IO emissions are fire-and-forget and carry no state; they are
      left out.
    - What a route draws (an identifier, a salted password hash, a clock
      reading) is an input of its handler; [String.prototype.toLowerCase] and
      [bcrypt.compare] are the fields of a [Host], so that what is proved of
      the authentication routes holds for any implementation of them. *)

From Stdlib Require Import ZArith QArith Qabs List Bool Ascii String Sorted Permutation Lia.
From stdpp Require Import base gmap strings list.

Set Warnings "-register-all".

Local Open Scope string_scope.
Local Open Scope Z_scope.

(** ** JavaScript values *)

Inductive JSNumber : Type :=
| NFinite (q : Q)
| NNaN
| NPosInf
| NNegInf.

Inductive JSValue : Type :=
| JUndefined
| JNull
| JBool (b : bool)
| JNum (n : JSNumber)
| JStr (s : string)
| JArr (elems : list JSValue)
| JObj (fields : list (string * JSValue)).

Definition numZ (z : Z) : JSNumber := NFinite (inject_Z z).

(** [Number.isFinite]. *)
Definition isFinite (n : JSNumber) : bool :=
  match n with NFinite _ => true | _ => false end.

(** ToBoolean: [undefined], [null], [false], [0], [NaN] and the empty string
    are falsy; everything else (objects and arrays included) is truthy. *)
Definition truthy (v : JSValue) : bool :=
  match v with
  | JUndefined | JNull => false
  | JBool b => b
  | JNum (NFinite q) => negb (Z.eqb (Qnum q) 0)
  | JNum NNaN => false
  | JNum _ => true
  | JStr s => negb (String.eqb s "")
  | JArr _ | JObj _ => true
  end.

(** [a || b]. *)
Definition jsOr (a b : JSValue) : JSValue := if truthy a then a else b.

Fixpoint assoc (k : string) (fs : list (string * JSValue)) : JSValue :=
  match fs with
  | [] => JUndefined
  | (k', v) :: rest => if String.eqb k k' then v else assoc k rest
  end.

(** Property read [v.k] for the own data properties this program reads
    ([price], [approvedBy], ...): a plain object yields the field or
    [undefined], any other truthy value yields [undefined].  Callers never
    apply it to [undefined] or [null]. *)
Definition jsGet (v : JSValue) (k : string) : JSValue :=
  match v with
  | JObj fs => assoc k fs
  | _ => JUndefined
  end.

(** ** [Number.parseFloat] *)

(** The white space and line terminators among the ASCII characters. *)
Definition isWhite (c : ascii) : bool :=
  let n := nat_of_ascii c in
  (Nat.eqb n 9 || Nat.eqb n 10 || Nat.eqb n 11 || Nat.eqb n 12
   || Nat.eqb n 13 || Nat.eqb n 32)%bool.

Fixpoint skipWhite (s : string) : string :=
  match s with
  | String c rest => if isWhite c then skipWhite rest else s
  | EmptyString => s
  end.

Definition digitOf (c : ascii) : option Z :=
  let n := nat_of_ascii c in
  if (Nat.leb 48 n && Nat.leb n 57)%bool then Some (Z.of_nat n - 48) else None.

(** Longest run of decimal digits at the head of [s], and what follows. *)
Fixpoint takeDigits (s : string) : list Z * string :=
  match s with
  | String c rest =>
      match digitOf c with
      | Some d => let '(ds, tl) := takeDigits rest in (d :: ds, tl)
      | None => ([], s)
      end
  | EmptyString => ([], s)
  end.

Definition digitsValue (ds : list Z) : Z :=
  fold_left (fun acc d => 10 * acc + d) ds 0.

(** Sign at the head of [s]: [true] for a minus. *)
Definition takeSign (s : string) : bool * string :=
  match s with
  | String "-" rest => (true, rest)
  | String "+" rest => (false, rest)
  | _ => (false, s)
  end.

(** ExponentPart, taken only when at least one digit follows the [e]. *)
Definition takeExponent (s : string) : Z :=
  match s with
  | String c rest =>
      if (Ascii.eqb c "e" || Ascii.eqb c "E")%bool then
        let '(neg, rest') := takeSign rest in
        let '(ds, _) := takeDigits rest' in
        match ds with
        | [] => 0
        | _ => if neg then - digitsValue ds else digitsValue ds
        end
      else 0
  | EmptyString => 0
  end.

(** The mathematical value [m * 10^e]. *)
Definition scale10 (m e : Z) : Q :=
  if 0 <=? e then inject_Z (m * 10 ^ e)
  else Qred (Qmake m (Z.to_pos (10 ^ (- e)))).

(** Magnitudes from [2^1024 - 2^970] on round to an infinity. *)
Definition overflows (q : Q) : bool :=
  Qle_bool (inject_Z (2 ^ 1024 - 2 ^ 970)) (Qabs q).

Definition toNumber (neg : bool) (q : Q) : JSNumber :=
  if overflows q then (if neg then NNegInf else NPosInf)
  else NFinite (if neg then Qred (Qopp q) else q).

Definition parseFloat (input : string) : JSNumber :=
  let s := skipWhite input in
  let '(neg, s1) := takeSign s in
  if String.prefix "Infinity" s1 then (if neg then NNegInf else NPosInf)
  else
    let '(ip, s2) := takeDigits s1 in
    match s2 with
    | String "." s3 =>
        let '(fp, s4) := takeDigits s3 in
        match ip, fp with
        | [], [] => NNaN
        | _, _ =>
            toNumber neg
              (scale10 (digitsValue (ip ++ fp))
                       (takeExponent s4 - Z.of_nat (length fp)))
        end
    | _ =>
        match ip with
        | [] => NNaN
        | _ => toNumber neg (scale10 (digitsValue ip) (takeExponent s2))
        end
    end.

(** ** Revenue extraction *)

(** One iteration of the [for] loop of [getItemAmount]: [Some] is a
    [return], [None] falls through to the next candidate. *)
Definition candidateAmount (value : JSValue) : option JSNumber :=
  match value with
  | JNum n => if isFinite n then Some n else None
  | JStr s => let parsed := parseFloat s in
              if isFinite parsed then Some parsed else None
  | _ => None
  end.

(** The loop over the candidates, and the [return 0] after it. *)
Fixpoint firstAmount (candidates : list JSValue) : JSNumber :=
  match candidates with
  | [] => numZ 0
  | value :: rest =>
      match candidateAmount value with
      | Some n => n
      | None => firstAmount rest
      end
  end.

(** ** Dates: the time-value arithmetic behind [Date] *)

Definition msPerDay : Z := 86400000.

Definition Day (t : Z) : Z := t / msPerDay.
Definition TimeWithinDay (t : Z) : Z := t mod msPerDay.

Definition DaysInYear (y : Z) : Z :=
  if negb (Z.eqb (y mod 4) 0) then 365
  else if negb (Z.eqb (y mod 100) 0) then 366
  else if negb (Z.eqb (y mod 400) 0) then 365
  else 366.

Definition DayFromYear (y : Z) : Z :=
  365 * (y - 1970) + (y - 1969) / 4 - (y - 1901) / 100 + (y - 1601) / 400.

(** The largest year whose first day is not after day [d], searched upwards
    from an under-estimate. *)
Fixpoint yearScan (fuel : nat) (d y : Z) : Z :=
  match fuel with
  | O => y
  | S f => if DayFromYear (y + 1) <=? d then yearScan f d (y + 1) else y
  end.

Definition YearFromTime (t : Z) : Z :=
  let d := Day t in
  let y0 := if 0 <=? d then 1970 + d / 366 else 1970 + d / 365 - 1 in
  yearScan (Z.to_nat (Z.abs d / 100000 + 3)) d y0.

Definition leapOf (y : Z) : Z := if Z.eqb (DaysInYear y) 366 then 1 else 0.
Definition InLeapYear (t : Z) : Z := leapOf (YearFromTime t).
Definition DayWithinYear (t : Z) : Z := Day t - DayFromYear (YearFromTime t).

Definition MonthFromTime (t : Z) : Z :=
  let d := DayWithinYear t in
  let l := InLeapYear t in
  if d <? 31 then 0
  else if d <? 59 + l then 1
  else if d <? 90 + l then 2
  else if d <? 120 + l then 3
  else if d <? 151 + l then 4
  else if d <? 181 + l then 5
  else if d <? 212 + l then 6
  else if d <? 243 + l then 7
  else if d <? 273 + l then 8
  else if d <? 304 + l then 9
  else if d <? 334 + l then 10
  else 11.

Definition DateFromTime (t : Z) : Z :=
  let d := DayWithinYear t in
  let l := InLeapYear t in
  match MonthFromTime t with
  | 0 => d + 1
  | 1 => d - 30
  | 2 => d - 58 - l
  | 3 => d - 89 - l
  | 4 => d - 119 - l
  | 5 => d - 150 - l
  | 6 => d - 180 - l
  | 7 => d - 211 - l
  | 8 => d - 242 - l
  | 9 => d - 272 - l
  | 10 => d - 303 - l
  | _ => d - 333 - l
  end.

(** Day within the year on which month [m] (0..11) starts. *)
Definition monthStart (m l : Z) : Z :=
  match m with
  | 0 => 0
  | 1 => 31
  | 2 => 59 + l
  | 3 => 90 + l
  | 4 => 120 + l
  | 5 => 151 + l
  | 6 => 181 + l
  | 7 => 212 + l
  | 8 => 243 + l
  | 9 => 273 + l
  | 10 => 304 + l
  | _ => 334 + l
  end.

(** MakeDay: the day number of the first of month [(year, month)], moved by
    [date - 1] days; [date] may lie outside the month. *)
Definition MakeDay (year month date : Z) : Z :=
  let ym := year + month / 12 in
  let mn := month mod 12 in
  DayFromYear ym + monthStart mn (leapOf ym) + date - 1.

Definition MakeTime (h m s ms : Z) : Z := h * 3600000 + m * 60000 + s * 1000 + ms.
Definition MakeDate (day time : Z) : Z := day * msPerDay + time.

(** The time zone of the host: the offset of local time from UTC, in
    milliseconds, in force at a UTC time value ([LocalTZA(t, true)]) and the
    one by which a local time value is read ([LocalTZA(t, false)]).  The
    two are functions of the time value: around a daylight-saving transition
    the offset changes. *)
Record Zone : Type := mkZone {
  offsetAtUTC : Z -> Z;
  offsetAtLocal : Z -> Z
}.

(** A host whose offset never changes (no daylight saving) is given by that
    offset. *)
Definition fixed (tza : Z) : Zone := mkZone (fun _ => tza) (fun _ => tza).
Coercion fixed : Z >-> Zone.

(** Throughout, [tza] is the offset of such a host. *)
Implicit Types tza : Z.

Definition LocalTime (zone : Zone) (t : Z) : Z := t + offsetAtUTC zone t.
Definition UTC (zone : Zone) (t : Z) : Z := t - offsetAtLocal zone t.

(** [d.getDate()], [d.getMonth()], [d.getFullYear()]. *)
Definition getDate (zone : Zone) (d : Z) : Z := DateFromTime (LocalTime zone d).
Definition getMonth (zone : Zone) (d : Z) : Z := MonthFromTime (LocalTime zone d).
Definition getFullYear (zone : Zone) (d : Z) : Z := YearFromTime (LocalTime zone d).

(** [d.setDate(dt)]: the new time value of [d]. *)
Definition setDate (zone : Zone) (d dt : Z) : Z :=
  let t := LocalTime zone d in
  UTC zone (MakeDate (MakeDay (YearFromTime t) (MonthFromTime t) dt) (TimeWithinDay t)).

(** [d.setHours(h, m, s, ms)]. *)
Definition setHours (zone : Zone) (d h m s ms : Z) : Z :=
  let t := LocalTime zone d in
  UTC zone (MakeDate (Day t) (MakeTime h m s ms)).

(** [new Date(year, month, 1)]. *)
Definition newDateYM1 (zone : Zone) (year month : Z) : Z :=
  UTC zone (MakeDate (MakeDay year month 1) (MakeTime 0 0 0 0)).

Definition digitChar (d : Z) : ascii := ascii_of_nat (48 + Z.to_nat d).

(** [n] in decimal on exactly [w] digits. *)
Fixpoint padDigits (w : nat) (n : Z) : string :=
  match w with
  | O => ""
  | S w' => String.append (padDigits w' (n / 10)) (String (digitChar (n mod 10)) "")
  end.

Definition isoYear (y : Z) : string :=
  if (0 <=? y) && (y <=? 9999) then padDigits 4 y
  else if y <? 0 then String.append "-" (padDigits 6 (- y))
  else String.append "+" (padDigits 6 y).

(** [toDateKey]: the part of [date.toISOString()] before the [T], the UTC
    calendar date of the time value. *)
Definition toDateKey (date : Z) : string :=
  String.append (isoYear (YearFromTime date))
    (String.append "-"
       (String.append (padDigits 2 (MonthFromTime date + 1))
          (String.append "-" (padDigits 2 (DateFromTime date))))).

(** ** Analytics: range and day buckets *)

Definition parseRangeDays (range : string) : Z :=
  if String.eqb range "30d" then 30
  else if String.eqb range "90d" then 90
  else if String.eqb range "1y" then 365
  else 7.

(** The [while (cursor <= endDate)] loop of [buildDateBuckets]; [None] when
    [fuel] iterations did not reach the end of the loop. *)
Fixpoint bucketLoop (zone : Zone) (fuel : nat) (cursor endDate : Z) : option (list Z) :=
  match fuel with
  | O => None
  | S f =>
      if cursor <=? endDate then
        match bucketLoop zone f (setDate zone cursor (getDate zone cursor + 1)) endDate with
        | Some buckets => Some (cursor :: buckets)
        | None => None
        end
      else Some []
  end.

Definition buildDateBuckets (zone : Zone) (fuel : nat) (start end_ : Z)
  : option (list Z) :=
  let cursor := setHours zone start 0 0 0 0 in
  let endDate := setHours zone end_ 0 0 0 0 in
  bucketLoop zone fuel cursor endDate.

(** ** Records of the data model *)

Module Req.
(** A marketplace request, as stored in [localDB.marketplaceRequests] and in
    the [MarketplaceRequest] collection.  [approvedAt] and [approvedBy] are
    [None] while missing or [null].  [userId] and [approvedBy] hold the
    value supplied (the cast Mongoose applies to a non-string value on a
    String path is not modelled). *)
Record t : Type := mk {
  id : string;
  type : JSValue;
  status : string;
  userId : JSValue;
  data : JSValue;
  approvedAt : option Z;
  approvedBy : option JSValue;
  createdAt : Z;
  updatedAt : Z
}.

(** [{ ...r, status: "approved", approvedAt, approvedBy, updatedAt }]. *)
Definition approved (r : t) (at_ : Z) (by_ : JSValue) (upd : Z) : t :=
  mk (id r) (type r) "approved" (userId r) (data r) (Some at_) (Some by_)
     (createdAt r) upd.
End Req.

Module Item.
(** A marketplace item, as stored in [localDB.marketplaceItems] and in the
    [MarketplaceItem] collection; the optional fields are [None] while
    missing or [null]. *)
Record t : Type := mk {
  id : string;
  requestId : string;
  type : JSValue;
  status : string;
  data : JSValue;
  approvedAt : option Z;
  approvedBy : option JSValue;
  completedAt : option Z;
  completedBy : option JSValue;
  createdAt : Z;
  updatedAt : Z
}.

(** [{ ...i, status: "completed", completedAt, completedBy, updatedAt }]. *)
Definition completed (i : t) (at_ : Z) (by_ : JSValue) (upd : Z) : t :=
  mk (id i) (requestId i) (type i) "completed" (data i) (approvedAt i)
     (approvedBy i) (Some at_) (Some by_) (createdAt i) upd.
End Item.

Module Usr.
Record profile : Type := mkProfile {
  mobile : string;
  age : string;
  gender : string;
  address : string;
  education : string;
  healthCondition : string
}.

(** A user; the objects pushed to [localDB.users] carry no [createdAt]. *)
Record t : Type := mk {
  id : string;
  name : string;
  email : string;
  password : string;
  role : string;
  prof : profile;
  createdAt : option Z
}.
End Usr.

Module Med.
Record t : Type := mk {
  id : string;
  title : string;
  duration : JSNumber;
  level : string;
  category : string;
  description : string;
  status : string;
  thumbnailUrl : string;
  bannerUrl : string;
  audioUrl : string;
  createdAt : Z;
  updatedAt : Z
}.

(** The fields of the request body the update route reads, each absent
    ([None], [undefined]) or of the type its schema path has; [duration] is
    [Some] exactly when [typeof duration] is ["number"]. *)
Record patch : Type := mkPatch {
  p_title : option string;
  p_duration : option JSNumber;
  p_level : option string;
  p_category : option string;
  p_description : option string;
  p_status : option string;
  p_thumbnailUrl : option string;
  p_audioUrl : option string;
  p_bannerUrl : option string
}.

Definition orKeep {A} (o : option A) (old : A) : A :=
  match o with Some v => v | None => old end.

(** The partial update built with the conditional spreads, applied to a
    document; Mongoose stamps [updatedAt]. *)
Definition apply (p : patch) (now : Z) (m : t) : t :=
  mk (id m) (orKeep (p_title p) (title m)) (orKeep (p_duration p) (duration m))
     (orKeep (p_level p) (level m)) (orKeep (p_category p) (category m))
     (orKeep (p_description p) (description m)) (orKeep (p_status p) (status m))
     (orKeep (p_thumbnailUrl p) (thumbnailUrl m)) (orKeep (p_bannerUrl p) (bannerUrl m))
     (orKeep (p_audioUrl p) (audioUrl m)) (createdAt m) now.

(** The update validators that [runValidators: true] runs on the supplied
    paths: [title] is required (a non-empty string), [duration] is a
    required number (not NaN). *)
Definition valid (p : patch) : bool :=
  match p_title p with Some s => negb (String.eqb s "") | None => true end
  && match p_duration p with Some NNaN => false | _ => true end.
End Med.

Module Snd.
Record t : Type := mk {
  id : string;
  title : string;
  artist : string;
  frequency : string;
  duration : JSNumber;
  category : string;
  description : string;
  status : string;
  thumbnailUrl : string;
  bannerUrl : string;
  audioUrl : string;
  mood : JSValue;
  createdAt : Z;
  updatedAt : Z
}.

(** The fields of the request body the update route reads; [mood] is any
    supplied value. *)
Record patch : Type := mkPatch {
  p_title : option string;
  p_artist : option string;
  p_frequency : option string;
  p_duration : option JSNumber;
  p_category : option string;
  p_description : option string;
  p_status : option string;
  p_thumbnailUrl : option string;
  p_audioUrl : option string;
  p_bannerUrl : option string;
  p_mood : option JSValue
}.

(** [Array.isArray(mood) ? mood : []]. *)
Definition moodArray (v : JSValue) : JSValue :=
  match v with JArr l => JArr l | _ => JArr [] end.

Definition apply (p : patch) (now : Z) (m : t) : t :=
  mk (id m) (Med.orKeep (p_title p) (title m)) (Med.orKeep (p_artist p) (artist m))
     (Med.orKeep (p_frequency p) (frequency m)) (Med.orKeep (p_duration p) (duration m))
     (Med.orKeep (p_category p) (category m)) (Med.orKeep (p_description p) (description m))
     (Med.orKeep (p_status p) (status m)) (Med.orKeep (p_thumbnailUrl p) (thumbnailUrl m))
     (Med.orKeep (p_bannerUrl p) (bannerUrl m)) (Med.orKeep (p_audioUrl p) (audioUrl m))
     (match p_mood p with Some v => moodArray v | None => mood m end)
     (createdAt m) now.

Definition valid (p : patch) : bool :=
  match p_title p with Some s => negb (String.eqb s "") | None => true end
  && match p_duration p with Some NNaN => false | _ => true end.
End Snd.

Module Cont.
(** A content entry, keyed by [key]. *)
Record t : Type := mk {
  key : string;
  type : string;
  value : JSValue;
  section : string;
  description : JSValue;
  createdAt : Z;
  updatedAt : Z
}.
End Cont.

(** ** The process state *)

(** The in-memory database [localDB]. *)
Record LocalDB : Type := mkLocalDB {
  users : list Usr.t;
  meditations : list Med.t;
  sounds : list Snd.t;
  marketplaceRequests : list Req.t;
  marketplaceItems : list Item.t
}.

(** The collections behind the Mongoose models, each in natural order. *)
Record Collections : Type := mkCollections {
  Meditation : list Med.t;
  Sound : list Snd.t;
  Content : list Cont.t;
  MarketplaceRequest : list Req.t;
  MarketplaceItem : list Item.t;
  User : list Usr.t
}.

Record Server : Type := mkServer {
  mongoConnected : bool;
  localDB : LocalDB;
  mongo : Collections
}.

Definition withRequests (db : LocalDB) (rs : list Req.t) : LocalDB :=
  mkLocalDB (users db) (meditations db) (sounds db) rs (marketplaceItems db).
Definition withItems (db : LocalDB) (its : list Item.t) : LocalDB :=
  mkLocalDB (users db) (meditations db) (sounds db) (marketplaceRequests db) its.
Definition withLocalDB (srv : Server) (db : LocalDB) : Server :=
  mkServer (mongoConnected srv) db (mongo srv).

Definition withMeditation (c : Collections) (l : list Med.t) : Collections :=
  mkCollections l (Sound c) (Content c) (MarketplaceRequest c) (MarketplaceItem c) (User c).
Definition withSound (c : Collections) (l : list Snd.t) : Collections :=
  mkCollections (Meditation c) l (Content c) (MarketplaceRequest c) (MarketplaceItem c)
                (User c).
Definition withContent (c : Collections) (l : list Cont.t) : Collections :=
  mkCollections (Meditation c) (Sound c) l (MarketplaceRequest c) (MarketplaceItem c)
                (User c).
Definition withMarketplaceRequest (c : Collections) (l : list Req.t) : Collections :=
  mkCollections (Meditation c) (Sound c) (Content c) l (MarketplaceItem c) (User c).
Definition withMarketplaceItem (c : Collections) (l : list Item.t) : Collections :=
  mkCollections (Meditation c) (Sound c) (Content c) (MarketplaceRequest c) l (User c).
Definition withMongo (srv : Server) (c : Collections) : Server :=
  mkServer (mongoConnected srv) (localDB srv) c.

(** What a Mongoose call can throw. *)
Inductive Thrown : Type :=
| BufferTimeout
| ValidationError
| DuplicateKey.

Inductive Body : Type :=
| BError (error : string)
| BThrown (e : Thrown)
| BMessage (message : string)
| BOk
| BNothing
| BRequest (r : Req.t)
| BItem (i : Item.t)
| BItems (l : list Item.t)
| BMeditation (m : Med.t)
| BSound (s : Snd.t)
| BContent (c : Cont.t).

(** The outcome of a handler: a JSON response with its status code, or no
    response because the handler's promise rejected outside any
    [try]/[catch]. *)
Inductive Response : Type :=
| Json (code : Z) (body : Body)
| Rejected (e : Thrown).

(** ** Array and collection primitives *)

(** [Array.prototype.findIndex] together with the read of the element at
    the index found; [None] stands for [-1]. *)
Fixpoint findIndex {A} (p : A -> bool) (l : list A) : option (nat * A) :=
  match l with
  | [] => None
  | x :: rest =>
      if p x then Some (O, x)
      else match findIndex p rest with
           | Some (i, y) => Some (S i, y)
           | None => None
           end
  end.

(** [Model.findOneAndUpdate(filter, update, { new: true })] on a collection:
    the first matching document is replaced; the updated document and the
    collection are returned, or [None] when nothing matches. *)
Fixpoint findOneAndUpdate {A} (p : A -> bool) (f : A -> A) (l : list A)
  : option (A * list A) :=
  match l with
  | [] => None
  | x :: rest =>
      if p x then Some (f x, f x :: rest)
      else match findOneAndUpdate p f rest with
           | Some (y, rest') => Some (y, x :: rest')
           | None => None
           end
  end.

(** [Model.deleteOne(filter)] / [Model.findOneAndDelete(filter)]: the first
    matching document is removed. *)
Fixpoint deleteFirst {A} (p : A -> bool) (l : list A) : option (A * list A) :=
  match l with
  | [] => None
  | x :: rest =>
      if p x then Some (x, rest)
      else match deleteFirst p rest with
           | Some (y, rest') => Some (y, x :: rest')
           | None => None
           end
  end.

(** [array.splice(index, 1)]. *)
Definition splice1 {A} (index : nat) (l : list A) : list A :=
  take index l ++ drop (S index) l.

(** The [enum] of the [type] path shared by both marketplace schemas. *)
Definition typeInEnum (type : JSValue) : bool :=
  match type with
  | JStr s => String.eqb s "session" || String.eqb s "retreat" || String.eqb s "product"
  | _ => false
  end.

(** [required: true] on a Mixed path. *)
Definition present (v : JSValue) : bool :=
  match v with JUndefined | JNull => false | _ => true end.

(** The [minimize] option of the schemas (on by default), as Mongoose
    applies it when it clones a document to write it or to serialise it: a
    property whose value is [undefined] or an object left without
    properties is removed, at any depth; an array stays, and so does an
    object that is an element of an array, with its own properties
    minimized.  [JUndefined] stands for a value that is removed.  (The
    property names the clone skips as special, [__proto__], [constructor]
    and [prototype], are not modelled.) *)
Fixpoint minimizeIn (arrayChild : bool) (v : JSValue) : JSValue :=
  match v with
  | JObj fields =>
      let fix prune (fs : list (string * JSValue)) : list (string * JSValue) :=
        match fs with
        | [] => []
        | (k, x) :: rest =>
            match minimizeIn false x with
            | JUndefined => prune rest
            | y => (k, y) :: prune rest
            end
        end in
      match prune fields, arrayChild with
      | [], false => JUndefined
      | kept, _ => JObj kept
      end
  | JArr elems => JArr (map (minimizeIn true) elems)
  | _ => v
  end.

Definition minimize (v : JSValue) : JSValue := minimizeIn false v.

(** A request and an item as written to their collections and as serialised
    from the document just saved: the Mixed path [data] minimized. *)
Definition minimizedRequest (r : Req.t) : Req.t :=
  Req.mk (Req.id r) (Req.type r) (Req.status r) (Req.userId r) (minimize (Req.data r))
         (Req.approvedAt r) (Req.approvedBy r) (Req.createdAt r) (Req.updatedAt r).

Definition minimizedItem (i : Item.t) : Item.t :=
  Item.mk (Item.id i) (Item.requestId i) (Item.type i) (Item.status i)
          (minimize (Item.data i)) (Item.approvedAt i) (Item.approvedBy i)
          (Item.completedAt i) (Item.completedBy i) (Item.createdAt i) (Item.updatedAt i).

(** [doc.save()] of a new [MarketplaceRequest]: schema validation, then the
    unique index on [id]; the document is written minimized. *)
Definition saveRequest (r : Req.t) (l : list Req.t) : Thrown + list Req.t :=
  if negb (typeInEnum (Req.type r) && present (Req.data r)) then inl ValidationError
  else if existsb (fun x => String.eqb (Req.id x) (Req.id r)) l then inl DuplicateKey
  else inr (app l [minimizedRequest r]).

(** [doc.save()] of a new [MarketplaceItem]. *)
Definition saveItem (i : Item.t) (l : list Item.t) : Thrown + list Item.t :=
  if negb (typeInEnum (Item.type i) && present (Item.data i)) then inl ValidationError
  else if existsb (fun x => String.eqb (Item.id x) (Item.id i)) l then inl DuplicateKey
  else inr (app l [minimizedItem i]).

(** [.sort({ createdAt: -1 })], a sort by the database, newest first,
    where nothing fixes the order of two documents with the same stamp:
    [tie x y] says whether the database happens to return [x] before [y]. *)
Fixpoint dbInsertDescBy {A} (tie : A -> A -> bool) (stamp : A -> Z) (x : A) (l : list A)
  : list A :=
  match l with
  | [] => [x]
  | y :: rest =>
      if (stamp y <? stamp x) || ((stamp y =? stamp x) && tie x y) then x :: l
      else y :: dbInsertDescBy tie stamp x rest
  end.

Definition dbSortDescBy {A} (tie : A -> A -> bool) (stamp : A -> Z) (l : list A) : list A :=
  foldr (dbInsertDescBy tie stamp) [] l.

(** ** Marketplace routes *)

(** [POST /api/marketplace/requests].  [uuid] is the identifier drawn by
    [uuidv4()]; [now1], [now2] are the two [Date.now()] readings of the
    local branch (Mongoose stamps both fields with one reading). *)
Definition postRequest (body : JSValue) (uuid : string) (now1 now2 : Z)
    (srv : Server) : Response * Server :=
  let type := jsGet body "type" in
  let data := jsGet body "data" in
  if negb (truthy type) || negb (truthy data) then
    (Json 400 (BError "Type and data are required"), srv)
  else if negb (mongoConnected srv) then
    let request :=
      Req.mk uuid type "pending" (jsOr (jsGet body "userId") (JStr "")) data
             None None now1 now2 in
    let db := localDB srv in
    (Json 201 (BRequest request),
     withLocalDB srv (withRequests db (request :: marketplaceRequests db)))
  else
    let request :=
      Req.mk uuid type "pending" (jsOr (jsGet body "userId") (JStr "")) data
             None None now1 now1 in
    match saveRequest request (MarketplaceRequest (mongo srv)) with
    | inl e => (Json 500 (BThrown e), srv)
    | inr l => (Json 201 (BRequest (minimizedRequest request)),
                withMongo srv (withMarketplaceRequest (mongo srv) l))
    end.

(** [GET /api/marketplace/requests/:id]. *)
Definition getRequest (id : string) (srv : Server) : Response * Server :=
  let byId := fun item => String.eqb (Req.id item) id in
  if negb (mongoConnected srv) then
    match find byId (marketplaceRequests (localDB srv)) with
    | None => (Json 404 (BError "Request not found"), srv)
    | Some request => (Json 200 (BRequest request), srv)
    end
  else
    match find byId (MarketplaceRequest (mongo srv)) with
    | None => (Json 404 (BError "Request not found"), srv)
    | Some request => (Json 200 (BRequest request), srv)
    end.

(** The clock readings of one approval, in the order they are taken. *)
Record ApproveClock : Type := mkApproveClock {
  atApproved : Z;
  atRequestUpdated : Z;
  atItemCreated : Z;
  atItemUpdated : Z
}.

(** [PUT /api/marketplace/requests/:id/approve]. *)
Definition approveRequest (id : string) (body : JSValue) (uuid : string)
    (clk : ApproveClock) (srv : Server) : Response * Server :=
  if negb (mongoConnected srv) then
    let db := localDB srv in
    match findIndex (fun item => String.eqb (Req.id item) id) (marketplaceRequests db) with
    | None => (Json 404 (BError "Request not found"), srv)
    | Some (requestIndex, old) =>
        let approvedAt := atApproved clk in
        let approvedBy := jsOr (jsGet body "approvedBy") (JStr "admin") in
        let request := Req.approved old approvedAt approvedBy (atRequestUpdated clk) in
        let requests := <[requestIndex := request]> (marketplaceRequests db) in
        let existingItem :=
          find (fun item => String.eqb (Item.requestId item) id) (marketplaceItems db) in
        let items :=
          match existingItem with
          | Some _ => marketplaceItems db
          | None =>
              Item.mk uuid id (Req.type request) "active" (Req.data request)
                      (Some approvedAt) (Some approvedBy) None None
                      (atItemCreated clk) (atItemUpdated clk)
              :: marketplaceItems db
          end in
        (Json 200 (BRequest request),
         withLocalDB srv (withItems (withRequests db requests) items))
    end
  else
    let db := mongo srv in
    let approvedBy := jsOr (jsGet body "approvedBy") (JStr "admin") in
    match findOneAndUpdate (fun r => String.eqb (Req.id r) id)
            (fun r => Req.approved r (atApproved clk) approvedBy (atRequestUpdated clk))
            (MarketplaceRequest db) with
    | None => (Json 404 (BError "Request not found"), srv)
    | Some (request, requests) =>
        let db1 := withMarketplaceRequest db requests in
        let existingItem :=
          find (fun item => String.eqb (Item.requestId item) (Req.id request))
               (MarketplaceItem db1) in
        match existingItem with
        | Some _ => (Json 200 (BRequest request), withMongo srv db1)
        | None =>
            let item :=
              Item.mk uuid (Req.id request) (Req.type request) "active" (Req.data request)
                (Some (match Req.approvedAt request with
                       | Some a => a
                       | None => atItemCreated clk
                       end))
                (Some (match Req.approvedBy request with
                       | Some v => jsOr v (JStr "admin")
                       | None => JStr "admin"
                       end))
                None None (atItemCreated clk) (atItemCreated clk) in
            match saveItem item (MarketplaceItem db1) with
            | inl e => (Json 500 (BThrown e), withMongo srv db1)
            | inr items =>
                (Json 200 (BRequest request),
                 withMongo srv (withMarketplaceItem db1 items))
            end
        end
    end.

(** [DELETE /api/marketplace/requests/:id]. *)
Definition deleteRequest (id : string) (srv : Server) : Response * Server :=
  let byId := fun item => String.eqb (Req.id item) id in
  if negb (mongoConnected srv) then
    let db := localDB srv in
    match findIndex byId (marketplaceRequests db) with
    | None => (Json 404 (BError "Request not found"), srv)
    | Some (requestIndex, _) =>
        (Json 200 (BMessage "Request deleted successfully"),
         withLocalDB srv (withRequests db (splice1 requestIndex (marketplaceRequests db))))
    end
  else
    match deleteFirst byId (MarketplaceRequest (mongo srv)) with
    | None => (Json 404 (BError "Request not found"), srv)
    | Some (_, l) =>
        (Json 200 (BMessage "Request deleted successfully"),
         withMongo srv (withMarketplaceRequest (mongo srv) l))
    end.

(** [req.query.status || "active"]; the query parameter is absent or a
    string. *)
Definition statusOrActive (query : option string) : string :=
  match query with
  | Some s => if String.eqb s "" then "active" else s
  | None => "active"
  end.

(** [GET /api/marketplace/items]; [query] is [req.query.status], [tie] the
    order the database gives to items with equal stamps. *)
Definition listItems (tie : Item.t -> Item.t -> bool) (query : option string)
    (srv : Server) : Response * Server :=
  let status := statusOrActive query in
  let hasStatus := fun item => String.eqb (Item.status item) status in
  if negb (mongoConnected srv) then
    (Json 200 (BItems (List.filter hasStatus (marketplaceItems (localDB srv)))), srv)
  else
    (Json 200 (BItems (dbSortDescBy tie Item.createdAt
                         (List.filter hasStatus (MarketplaceItem (mongo srv))))),
     srv).

(** [PUT /api/marketplace/items/:id/complete]; [atCompleted] is the
    [new Date()] reading, [atUpdated] the one stamped on [updatedAt]. *)
Definition completeItem (id : string) (body : JSValue) (atCompleted atUpdated : Z)
    (srv : Server) : Response * Server :=
  let byId := fun item => String.eqb (Item.id item) id in
  let completedBy := jsOr (jsGet body "completedBy") (JStr "admin") in
  if negb (mongoConnected srv) then
    let db := localDB srv in
    match findIndex byId (marketplaceItems db) with
    | None => (Json 404 (BError "Item not found"), srv)
    | Some (itemIndex, old) =>
        let item := Item.completed old atCompleted completedBy atUpdated in
        (Json 200 (BItem item),
         withLocalDB srv (withItems db (<[itemIndex := item]> (marketplaceItems db))))
    end
  else
    match findOneAndUpdate byId
            (fun i => Item.completed i atCompleted completedBy atUpdated)
            (MarketplaceItem (mongo srv)) with
    | None => (Json 404 (BError "Item not found"), srv)
    | Some (item, items) =>
        (Json 200 (BItem item), withMongo srv (withMarketplaceItem (mongo srv) items))
    end.

(** ** Catalogue and content routes (Mongoose only) *)

(** A call on a Mongoose model: it runs on the collections when the
    connection is up and throws otherwise. *)
Definition mongoose {A} (srv : Server) (op : Collections -> Thrown + A) : Thrown + A :=
  if mongoConnected srv then op (mongo srv) else inl BufferTimeout.

(** The response projection of a meditation ([status || "Draft"]; the other
    [|| ""] defaults are the identity on strings). *)
Definition medView (m : Med.t) : Med.t :=
  Med.mk (Med.id m) (Med.title m) (Med.duration m) (Med.level m) (Med.category m)
    (Med.description m) (if String.eqb (Med.status m) "" then "Draft" else Med.status m)
    (Med.thumbnailUrl m) (Med.bannerUrl m) (Med.audioUrl m)
    (Med.createdAt m) (Med.updatedAt m).

(** [PUT /api/meditations/:id] (no [try]/[catch]).  The update validators
    run before the query is sent, so an invalid patch is rejected whatever
    the state of the connection. *)
Definition putMeditation (id : string) (p : Med.patch) (now : Z) (srv : Server)
  : Response * Server :=
  let call :=
    if negb (Med.valid p) then inl ValidationError
    else mongoose srv (fun db =>
           inr (findOneAndUpdate (fun m => String.eqb (Med.id m) id)
                                 (Med.apply p now) (Meditation db))) in
  match call with
  | inl e => (Rejected e, srv)
  | inr None => (Json 404 (BError "meditation not found"), srv)
  | inr (Some (updated, l)) =>
      (Json 200 (BMeditation (medView updated)),
       withMongo srv (withMeditation (mongo srv) l))
  end.

(** [DELETE /api/meditations/:id] (no [try]/[catch]); [deletedCount === 0]
    is the [None] of [deleteFirst]. *)
Definition deleteMeditation (id : string) (srv : Server) : Response * Server :=
  let call :=
    mongoose srv (fun db =>
      inr (deleteFirst (fun m => String.eqb (Med.id m) id) (Meditation db))) in
  match call with
  | inl e => (Rejected e, srv)
  | inr None => (Json 404 (BError "meditation not found"), srv)
  | inr (Some (_, l)) => (Json 200 BOk, withMongo srv (withMeditation (mongo srv) l))
  end.

(** The response projection of a sound ([status || "Draft"],
    [Array.isArray(mood) ? mood : []]). *)
Definition soundView (m : Snd.t) : Snd.t :=
  Snd.mk (Snd.id m) (Snd.title m) (Snd.artist m) (Snd.frequency m) (Snd.duration m)
    (Snd.category m) (Snd.description m)
    (if String.eqb (Snd.status m) "" then "Draft" else Snd.status m)
    (Snd.thumbnailUrl m) (Snd.bannerUrl m) (Snd.audioUrl m) (Snd.moodArray (Snd.mood m))
    (Snd.createdAt m) (Snd.updatedAt m).

(** [PUT /api/sounds/:id] (no [try]/[catch]); the validators run before
    the query is sent. *)
Definition putSound (id : string) (p : Snd.patch) (now : Z) (srv : Server)
  : Response * Server :=
  let call :=
    if negb (Snd.valid p) then inl ValidationError
    else mongoose srv (fun db =>
           inr (findOneAndUpdate (fun m => String.eqb (Snd.id m) id)
                                 (Snd.apply p now) (Sound db))) in
  match call with
  | inl e => (Rejected e, srv)
  | inr None => (Json 404 (BError "sound not found"), srv)
  | inr (Some (updated, l)) =>
      (Json 200 (BSound (soundView updated)), withMongo srv (withSound (mongo srv) l))
  end.

(** [DELETE /api/sounds/:id] (no [try]/[catch]). *)
Definition deleteSound (id : string) (srv : Server) : Response * Server :=
  let call :=
    mongoose srv (fun db =>
      inr (deleteFirst (fun m => String.eqb (Snd.id m) id) (Sound db))) in
  match call with
  | inl e => (Rejected e, srv)
  | inr None => (Json 404 (BError "sound not found"), srv)
  | inr (Some (_, l)) => (Json 200 BOk, withMongo srv (withSound (mongo srv) l))
  end.

(** [GET /api/content/:key]. *)
Definition getContent (key : string) (srv : Server) : Response * Server :=
  let call :=
    mongoose srv (fun db =>
      inr (find (fun c => String.eqb (Cont.key c) key) (Content db))) in
  match call with
  | inl e => (Json 500 (BThrown e), srv)
  | inr None => (Json 404 (BError "Content not found"), srv)
  | inr (Some content) => (Json 200 (BContent content), srv)
  end.

Definition orDefault (o : option string) (d : string) : string :=
  match o with
  | Some s => if String.eqb s "" then d else s
  | None => d
  end.

(** The update document of the content upsert applied to an entry; an
    [undefined] description sets nothing. *)
Definition contentSet (value : JSValue) (type section : option string)
    (description : JSValue) (now : Z) (c : Cont.t) : Cont.t :=
  Cont.mk (Cont.key c) (orDefault type "text") value (orDefault section "general")
    (match description with JUndefined => Cont.description c | d => d end)
    (Cont.createdAt c) now.

(** [PUT /api/content/:key]: [findOneAndUpdate] with [upsert: true]; when no
    entry has the key, one is inserted from the filter and the update. *)
Definition putContent (key : string) (value : JSValue) (type section : option string)
    (description : JSValue) (now : Z) (srv : Server) : Response * Server :=
  let call :=
    mongoose srv (fun db =>
      match findOneAndUpdate (fun c => String.eqb (Cont.key c) key)
              (contentSet value type section description now) (Content db) with
      | Some (content, l) => inr (content, l)
      | None =>
          let content :=
            Cont.mk key (orDefault type "text") value (orDefault section "general")
                    description now now in
          inr (content, app (Content db) [content])
      end) in
  match call with
  | inl e => (Json 500 (BThrown e), srv)
  | inr (content, l) =>
      (Json 200 (BContent content), withMongo srv (withContent (mongo srv) l))
  end.

(** [DELETE /api/content/:key]. *)
Definition deleteContent (key : string) (srv : Server) : Response * Server :=
  let call :=
    mongoose srv (fun db =>
      inr (deleteFirst (fun c => String.eqb (Cont.key c) key) (Content db))) in
  match call with
  | inl e => (Json 500 (BThrown e), srv)
  | inr None => (Json 404 (BError "Content not found"), srv)
  | inr (Some (_, l)) =>
      (Json 200 (BMessage "Content deleted successfully"),
       withMongo srv (withContent (mongo srv) l))
  end.

(** ** Analytics route *)

(** [getItemAmount]; a stored item is never [null], so [item?.data] is
    [item.data]. *)
Definition getItemAmount (item : Item.t) : JSNumber :=
  let data := jsOr (Item.data item) (JObj []) in
  let candidates :=
    [jsGet data "price"; jsGet data "amount"; jsGet data "total"; jsGet data "cost"] in
  firstAmount candidates.

(** The clock readings of one analytics request: [end = new Date()],
    [start = new Date()], and the later readings that stand in for a missing
    stamp, indexed by the position of the record they are taken for. *)
Record AnalyticsClock : Type := mkAnalyticsClock {
  nowEnd : Z;
  nowStart : Z;
  nowLater : nat -> Z
}.

(** [typeof req.query.range === "string" ? req.query.range : "7d"]. *)
Definition queryRange (query : JSValue) : string :=
  match query with JStr s => s | _ => "7d" end.

(** [start] after [start.setDate(end.getDate() - (days - 1))]. *)
Definition rangeStart (zone : Zone) (days : Z) (clk : AnalyticsClock) : Z :=
  setDate zone (nowStart clk) (getDate zone (nowEnd clk) - (days - 1)).

Definition within (lo hi d : Z) : bool := (lo <=? d) && (d <=? hi).

(** [stamp || fallback] for a numeric stamp that may be missing. *)
Definition stampOr (stamp : option Z) (fallback : Z) : Z :=
  match stamp with
  | Some c => if Z.eqb c 0 then fallback else c
  | None => fallback
  end.

(** [baseUserCount] and the [createdAt] of [usersInRange]. *)
Definition userStamps (clk : AnalyticsClock) (start end_ : Z) (srv : Server)
  : Z * list Z :=
  if negb (mongoConnected srv) then
    let users :=
      imap (fun i user => stampOr (Usr.createdAt user) (nowLater clk i))
           (users (localDB srv)) in
    (Z.of_nat (length (List.filter (fun c => c <? start) users)),
     List.filter (within start end_) users)
  else
    let stamps := omap Usr.createdAt (User (mongo srv)) in
    (Z.of_nat (length (List.filter (fun c => c <? start) stamps)),
     List.filter (within start end_) stamps).

(** [totalBookings] and the [createdAt] of [requestsInRange]. *)
Definition requestStamps (clk : AnalyticsClock) (start end_ : Z) (srv : Server)
  : Z * list Z :=
  if negb (mongoConnected srv) then
    let requests := marketplaceRequests (localDB srv) in
    (Z.of_nat (length requests),
     List.filter (within start end_)
       (imap (fun i r => stampOr (Some (Req.createdAt r)) (nowLater clk i)) requests))
  else
    let requests := MarketplaceRequest (mongo srv) in
    (Z.of_nat (length requests),
     List.filter (within start end_) (map Req.createdAt requests)).

(** The [reduce] that counts records per date key:
    [acc[key] = (acc[key] || 0) + 1]. *)
Definition countByDay (stamps : list Z) : gmap string Z :=
  fold_left (fun acc c =>
               let key := toDateKey c in
               <[key := default 0 (acc !! key) + 1]> acc)
            stamps ∅.

(** [bucketKeys.map] with the running [cumulative] threaded through. *)
Fixpoint growth (userCounts : gmap string Z) (cumulative : Z) (bucketKeys : list string)
  : list (string * Z) :=
  match bucketKeys with
  | [] => []
  | key :: rest =>
      let cumulative' := cumulative + default 0 (userCounts !! key) in
      (key, cumulative') :: growth userCounts cumulative' rest
  end.

Definition perDay (bookingCounts : gmap string Z) (bucketKeys : list string)
  : list (string * Z) :=
  map (fun key => (key, default 0 (bookingCounts !! key))) bucketKeys.

(** [new Date(item.approvedAt || item.createdAt || Date.now())] in the local
    branch: [approvedAt] is a [Date] when present, [createdAt] a number. *)
Definition itemDate (later : Z) (item : Item.t) : Z :=
  match Item.approvedAt item with
  | Some a => a
  | None => stampOr (Some (Item.createdAt item)) later
  end.

(** The items selected for the window [[lo, hi]]: the [filter] of the local
    branch, the [$or] query of the connected one. *)
Definition itemsIn (clk : AnalyticsClock) (lo hi : Z) (srv : Server) : list Item.t :=
  if negb (mongoConnected srv) then
    map snd
      (List.filter (fun '(i, item) => within lo hi (itemDate (nowLater clk i) item))
                   (imap pair (marketplaceItems (localDB srv))))
  else
    List.filter
      (fun item =>
         match Item.approvedAt item with
         | Some a => within lo hi a
         | None => false
         end
         || within lo hi (Item.createdAt item))
      (MarketplaceItem (mongo srv)).

Record Analytics : Type := mkAnalytics {
  range : string;
  buckets : list Z;
  userGrowth : list (string * Z);
  bookings : list (string * Z);
  totalBookings : Z;
  itemsForRange : list Item.t;
  itemsForMonth : list Item.t
}.

(** [GET /api/analytics], up to the selection of the items whose amounts are
    summed; [None] when the bucket loop ran out of [fuel]. *)
Definition getAnalytics (zone : Zone) (fuel : nat) (query : JSValue)
    (clk : AnalyticsClock) (srv : Server) : option Analytics :=
  let range := queryRange query in
  let days := parseRangeDays range in
  let end_ := nowEnd clk in
  let start := rangeStart zone days clk in
  match buildDateBuckets zone fuel start end_ with
  | None => None
  | Some buckets =>
      let bucketKeys := map toDateKey buckets in
      let '(baseUserCount, usersInRange) := userStamps clk start end_ srv in
      let userCounts := countByDay usersInRange in
      let '(totalBookings, requestsInRange) := requestStamps clk start end_ srv in
      let bookingCounts := countByDay requestsInRange in
      let monthStart := newDateYM1 zone (getFullYear zone end_) (getMonth zone end_) in
      Some (mkAnalytics range buckets
              (growth userCounts baseUserCount bucketKeys)
              (perDay bookingCounts bucketKeys)
              totalBookings
              (itemsIn clk start end_ srv)
              (itemsIn clk monthStart end_ srv))
  end.

(** ** Start-up and sequences of marketplace calls *)

(** [initLocalAdminUser]; [uuid] and [hashed] are the identifier and the
    password hash it draws. *)
Definition initLocalAdminUser (uuid hashed : string) (db : LocalDB) : LocalDB :=
  let adminEmail := "admin@nirvaha.com" in
  match find (fun u => String.eqb (Usr.email u) adminEmail) (users db) with
  | Some _ => db
  | None =>
      mkLocalDB
        (app (users db)
             [Usr.mk uuid "Nirvaha Administrator" adminEmail hashed "admin"
                (Usr.mkProfile "+1-ADMIN-001" "" "Not Specified" "Nirvaha Headquarters"
                   "Administrator" "Not Applicable")
                None])
        (meditations db) (sounds db) (marketplaceRequests db) (marketplaceItems db)
  end.

(** The state after start-up: the mode decided by [connectMongo], the empty
    [localDB] with its administrator, and whatever the database holds. *)
Definition boot (connected : bool) (uuid hashed : string) (db0 : Collections) : Server :=
  mkServer connected (initLocalAdminUser uuid hashed (mkLocalDB [] [] [] [] [])) db0.

(** One call of a state-changing marketplace route. *)
Inductive Call : Type :=
| Submit (body : JSValue) (uuid : string) (now1 now2 : Z)
| Approve (id : string) (body : JSValue) (uuid : string) (clk : ApproveClock)
| Delete (id : string)
| Complete (id : string) (body : JSValue) (atCompleted atUpdated : Z).

Definition handle (c : Call) (srv : Server) : Response * Server :=
  match c with
  | Submit body uuid now1 now2 => postRequest body uuid now1 now2 srv
  | Approve id body uuid clk => approveRequest id body uuid clk srv
  | Delete id => deleteRequest id srv
  | Complete id body a u => completeItem id body a u srv
  end.

(** Calls served one after the other, each to completion. *)
Definition run (calls : list Call) (srv : Server) : Server :=
  fold_left (fun s c => snd (handle c s)) calls srv.

(** The clock readings a call takes, in order. *)
Definition readings (c : Call) : list Z :=
  match c with
  | Submit _ _ now1 now2 => [now1; now2]
  | Approve _ _ _ clk =>
      [atApproved clk; atRequestUpdated clk; atItemCreated clk; atItemUpdated clk]
  | Delete _ => []
  | Complete _ _ a u => [a; u]
  end.

(** The readings never go back: each is at least the one before. *)
Fixpoint nondecreasing (l : list Z) : bool :=
  match l with
  | x :: ((y :: _) as rest) => (x <=? y) && nondecreasing rest
  | _ => true
  end.

Definition chronological (calls : list Call) : bool :=
  nondecreasing (concat (map readings calls)).

(** The items and requests of the store that answers in the current mode. *)
Definition storedItems (srv : Server) : list Item.t :=
  if mongoConnected srv then MarketplaceItem (mongo srv)
  else marketplaceItems (localDB srv).

Definition storedRequests (srv : Server) : list Req.t :=
  if mongoConnected srv then MarketplaceRequest (mongo srv)
  else marketplaceRequests (localDB srv).

(** The items that reference request [rid]. *)
Definition referencing (rid : string) (srv : Server) : list Item.t :=
  List.filter (fun item => String.eqb (Item.requestId item) rid) (storedItems srv).

(** ** Notions used to state the properties *)

(** A candidate field qualifies with value [n] when it is a finite number
    [n], or a string from which [parseFloat] reads the finite number [n]. *)
Inductive Qualifies : JSValue -> JSNumber -> Prop :=
| QualifiesNumber q : Qualifies (JNum (NFinite q)) (NFinite q)
| QualifiesString s q : parseFloat s = NFinite q -> Qualifies (JStr s) (NFinite q).

(** The payload [getItemAmount] probes: [item.data], or [{}] when falsy. *)
Definition payload (item : Item.t) : JSValue := jsOr (Item.data item) (JObj []).

(** The time value of local midnight of local day number [d], on a host of
    constant offset [tza]. *)
Definition localMidnight (tza d : Z) : Z := d * msPerDay - tza.

(** The local day number of a time value. *)
Definition localDay (zone : Zone) (t : Z) : Z := Day (LocalTime zone t).

(** The two clock readings of an analytics request fall in the same local
    month. *)
Definition sameMonth (zone : Zone) (clk : AnalyticsClock) : Prop :=
  getFullYear zone (nowStart clk) = getFullYear zone (nowEnd clk)
  /\ getMonth zone (nowStart clk) = getMonth zone (nowEnd clk).

Definition sumZ (l : list Z) : Z := fold_right Z.add 0 l.

(** How many of the stamps fall on the day with date key [key]. *)
Definition onDay (stamps : list Z) (key : string) : Z :=
  Z.of_nat (length (List.filter (fun c => String.eqb (toDateKey c) key) stamps)).

(** The [createdAt] the analytics route sees for every user of the answering
    store. *)
Definition userCreated (clk : AnalyticsClock) (srv : Server) : list Z :=
  if mongoConnected srv then omap Usr.createdAt (User (mongo srv))
  else imap (fun i user => stampOr (Usr.createdAt user) (nowLater clk i))
            (users (localDB srv)).

(** Newest first by creation time. *)
Definition newestFirst (l : list Item.t) : Prop :=
  forall i j a b, (i < j)%nat -> l !! i = Some a -> l !! j = Some b ->
                  Item.createdAt b <= Item.createdAt a.

(** The server with the requests and items of the answering store
    replaced. *)
Definition putStored (srv : Server) (requests : list Req.t) (items : list Item.t)
  : Server :=
  if mongoConnected srv then
    withMongo srv (withMarketplaceItem (withMarketplaceRequest (mongo srv) requests) items)
  else
    withLocalDB srv (withItems (withRequests (localDB srv) requests) items).

(** The filters [item.id === id] and [request.id === id]. *)
Definition itemById (id : string) (item : Item.t) : bool := String.eqb (Item.id item) id.
Definition requestById (id : string) (r : Req.t) : bool := String.eqb (Req.id r) id.

(** [req.body.completedBy || "admin"] and [req.body.approvedBy || "admin"]. *)
Definition completedByOf (body : JSValue) : JSValue :=
  jsOr (jsGet body "completedBy") (JStr "admin").
Definition approvedByOf (body : JSValue) : JSValue :=
  jsOr (jsGet body "approvedBy") (JStr "admin").

(** The filter [item.requestId === id]. *)
Definition refersTo (id : string) (item : Item.t) : bool :=
  String.eqb (Item.requestId item) id.

(** Creation stamps in descending order. *)
Definition descending (l : list Item.t) : Prop :=
  StronglySorted Z.ge (map Item.createdAt l).

(** The items are in descending order of creation and none was created
    after [T]. *)
Definition settled (T : Z) (srv : Server) : Prop :=
  descending (storedItems srv)
  /\ Forall (fun c => c <= T) (map Item.createdAt (storedItems srv)).

(** ** Further routes and notions *)

(** [item.status === "completed"]. *)
Definition isCompleted (item : Item.t) : bool := String.eqb (Item.status item) "completed".

(** [metrics.totalUsers] of the analytics response: [User.countDocuments()]
    or [localDB.users.length]. *)
Definition totalUsers (srv : Server) : Z :=
  if mongoConnected srv then Z.of_nat (length (User (mongo srv)))
  else Z.of_nat (length (users (localDB srv))).

(** The creation stamps the analytics route sees for the requests of the
    answering store. *)
Definition requestCreated (clk : AnalyticsClock) (srv : Server) : list Z :=
  if mongoConnected srv then map Req.createdAt (MarketplaceRequest (mongo srv))
  else imap (fun i r => stampOr (Some (Req.createdAt r)) (nowLater clk i))
            (marketplaceRequests (localDB srv)).

(** The last time value a [Date] holds. *)
Definition maxTime : Z := 8640000000000000.

(** The zone of a host in London through 2024: summer time, one hour ahead
    of UTC, from 2024-03-31T01:00Z to 2024-10-27T01:00Z.  A local time that
    the change skips or repeats is read with the offset in force before the
    change. *)
Definition london2024 : Zone :=
  let summerStart := 1711846800000 in
  let summerEnd := 1729990800000 in
  mkZone (fun t => if (summerStart <=? t) && (t <? summerEnd) then 3600000 else 0)
         (fun t => if (summerStart + 3600000 <=? t) && (t <? summerEnd + 3600000)
                   then 3600000 else 0).

(** A stable sort, newest first, on any record with a creation stamp:
    [.sort({ createdAt: -1 })] and
    [.sort((a, b) => (b.createdAt || 0) - (a.createdAt || 0))]. *)
Fixpoint insertDescBy {A} (stamp : A -> Z) (x : A) (l : list A) : list A :=
  match l with
  | [] => [x]
  | y :: rest =>
      if stamp y <=? stamp x then x :: l
      else y :: insertDescBy stamp x rest
  end.

Definition sortDescBy {A} (stamp : A -> Z) (l : list A) : list A :=
  foldr (insertDescBy stamp) [] l.

(** The outcome of a route that answers with an array: the array with
    status 200, or the [catch] with its status code. *)
Inductive Listing (A : Type) : Type :=
| Listed (records : list A)
| Failed (code : Z) (e : Thrown).
Arguments Listed {A} records.
Arguments Failed {A} code e.

(** [GET /api/marketplace/requests]: the copy of the local array under the
    stable [Array.prototype.sort], or [find().sort({ createdAt: -1 })] by
    the database, with [tie] the order it gives to equal stamps. *)
Definition listRequests (tie : Req.t -> Req.t -> bool) (srv : Server)
  : Listing Req.t * Server :=
  if negb (mongoConnected srv) then
    (Listed (sortDescBy Req.createdAt (marketplaceRequests (localDB srv))), srv)
  else
    match mongoose srv (fun db =>
            inr (dbSortDescBy tie Req.createdAt (MarketplaceRequest db))) with
    | inl e => (Failed 500 e, srv)
    | inr requests => (Listed requests, srv)
    end.

(** [GET /api/meditations]: the local array as it is, or the collection
    newest first (equal stamps as the database orders them, [tie]) through
    the response projection. *)
Definition getMeditations (tie : Med.t -> Med.t -> bool) (srv : Server)
  : Listing Med.t * Server :=
  if negb (mongoConnected srv) then (Listed (meditations (localDB srv)), srv)
  else
    match mongoose srv (fun db => inr (dbSortDescBy tie Med.createdAt (Meditation db))) with
    | inl e => (Failed 500 e, srv)
    | inr l => (Listed (map medView l), srv)
    end.

(** [GET /api/sounds]. *)
Definition getSounds (tie : Snd.t -> Snd.t -> bool) (srv : Server)
  : Listing Snd.t * Server :=
  if negb (mongoConnected srv) then (Listed (sounds (localDB srv)), srv)
  else
    match mongoose srv (fun db => inr (dbSortDescBy tie Snd.createdAt (Sound db))) with
    | inl e => (Failed 500 e, srv)
    | inr l => (Listed (map soundView l), srv)
    end.

(** [x || ""] and [x || "Draft"] on an optional string. *)
Definition orEmpty (o : option string) : string := orDefault o "".

(** [Meditation.create(...)]: the document built by the route is validated
    ([duration] must cast to a number) before anything is sent, then
    inserted under the unique index on [id]. *)
Definition createMeditation (m : Med.t) (srv : Server) : Thrown + list Med.t :=
  if negb (negb (String.eqb (Med.title m) "")
           && match Med.duration m with NNaN => false | _ => true end)
  then inl ValidationError
  else mongoose srv (fun db =>
         if existsb (fun x => String.eqb (Med.id x) (Med.id m)) (Meditation db)
         then inl DuplicateKey
         else inr (app (Meditation db) [m])).

(** [POST /api/meditations] (no [try]/[catch]); the body is read as the
    update route reads it, [uuid] is the default of the [id] path and [now]
    the reading behind both timestamps. *)
Definition postMeditation (p : Med.patch) (uuid : string) (now : Z) (srv : Server)
  : Response * Server :=
  match orEmpty (Med.p_title p), Med.p_duration p with
  | "", _ | _, None => (Json 400 (BError "title and duration are required"), srv)
  | title, Some duration =>
      let created :=
        Med.mk uuid title duration (orEmpty (Med.p_level p)) (orEmpty (Med.p_category p))
          (orEmpty (Med.p_description p)) (orDefault (Med.p_status p) "Draft")
          (orEmpty (Med.p_thumbnailUrl p)) (orEmpty (Med.p_bannerUrl p))
          (orEmpty (Med.p_audioUrl p)) now now in
      match createMeditation created srv with
      | inl e => (Rejected e, srv)
      | inr l =>
          (Json 201 (BMeditation (medView created)),
           withMongo srv (withMeditation (mongo srv) l))
      end
  end.

(** [Sound.create(...)]. *)
Definition createSound (m : Snd.t) (srv : Server) : Thrown + list Snd.t :=
  if negb (negb (String.eqb (Snd.title m) "")
           && match Snd.duration m with NNaN => false | _ => true end)
  then inl ValidationError
  else mongoose srv (fun db =>
         if existsb (fun x => String.eqb (Snd.id x) (Snd.id m)) (Sound db)
         then inl DuplicateKey
         else inr (app (Sound db) [m])).

(** [POST /api/sounds] (no [try]/[catch]); the cast of the elements of
    [mood] to strings is not modelled. *)
Definition postSound (p : Snd.patch) (uuid : string) (now : Z) (srv : Server)
  : Response * Server :=
  match orEmpty (Snd.p_title p), Snd.p_duration p with
  | "", _ | _, None => (Json 400 (BError "title and duration are required"), srv)
  | title, Some duration =>
      let created :=
        Snd.mk uuid title (orEmpty (Snd.p_artist p)) (orEmpty (Snd.p_frequency p)) duration
          (orEmpty (Snd.p_category p)) (orEmpty (Snd.p_description p))
          (orDefault (Snd.p_status p) "Draft") (orEmpty (Snd.p_thumbnailUrl p))
          (orEmpty (Snd.p_bannerUrl p)) (orEmpty (Snd.p_audioUrl p))
          (match Snd.p_mood p with Some v => Snd.moodArray v | None => JArr [] end)
          now now in
      match createSound created srv with
      | inl e => (Rejected e, srv)
      | inr l =>
          (Json 201 (BSound (soundView created)), withMongo srv (withSound (mongo srv) l))
      end
  end.

(** [POST /api/admin/clear-data]; the body also carries
    [dataCleared: true]. *)
Definition clearData (srv : Server) : Response * Server :=
  if negb (mongoConnected srv) then
    (Json 200 (BMessage "All data cleared successfully"),
     withLocalDB srv
       (mkLocalDB (users (localDB srv)) [] [] (marketplaceRequests (localDB srv))
                  (marketplaceItems (localDB srv))))
  else
    match mongoose srv (fun db => inr (withSound (withMeditation db []) [])) with
    | inl e => (Json 500 (BThrown e), srv)
    | inr db => (Json 200 (BMessage "All data cleared successfully"), withMongo srv db)
    end.

(** One call of a state-changing catalogue or content route. *)
Inductive CatalogueCall : Type :=
| PostMeditation (p : Med.patch) (uuid : string) (now : Z)
| PutMeditation (id : string) (p : Med.patch) (now : Z)
| DeleteMeditation (id : string)
| PostSound (p : Snd.patch) (uuid : string) (now : Z)
| PutSound (id : string) (p : Snd.patch) (now : Z)
| DeleteSound (id : string)
| ClearData
| PutContent (key : string) (value : JSValue) (type section : option string)
             (description : JSValue) (now : Z)
| DeleteContent (key : string).

Definition serve (c : CatalogueCall) (srv : Server) : Response * Server :=
  match c with
  | PostMeditation p uuid now => postMeditation p uuid now srv
  | PutMeditation id p now => putMeditation id p now srv
  | DeleteMeditation id => deleteMeditation id srv
  | PostSound p uuid now => postSound p uuid now srv
  | PutSound id p now => putSound id p now srv
  | DeleteSound id => deleteSound id srv
  | ClearData => clearData srv
  | PutContent key value type section description now =>
      putContent key value type section description now srv
  | DeleteContent key => deleteContent key srv
  end.

Definition serveAll (calls : list CatalogueCall) (srv : Server) : Server :=
  fold_left (fun s c => snd (serve c s)) calls srv.

(** The filter [{ key }] of the content routes. *)
Definition contentByKey (key : string) (c : Cont.t) : bool := String.eqb (Cont.key c) key.

(** Stamps in descending order, on any record. *)
Definition descendingBy {A} (stamp : A -> Z) (l : list A) : Prop :=
  StronglySorted Z.ge (map stamp l).

(** ** Authentication routes *)

(** The library functions the authentication routes call on strings:
    [String.prototype.toLowerCase] and [bcrypt.compare].  The salted hash
    that [bcrypt.hash] draws is an input of the route, like a [uuid]. *)
Record Host : Type := mkHost {
  toLowerCase : string -> string;
  bcryptCompare : string -> string -> bool
}.

(** The payload signed into the token: [{ id, email, role }]. *)
Record Claims : Type := mkClaims {
  k_id : string;
  k_email : string;
  k_role : string
}.

(** The [user] object of the responses, which leaves the password out. *)
Record UserView : Type := mkUserView {
  v_id : string;
  v_name : string;
  v_email : string;
  v_role : string;
  v_profile : Usr.profile
}.

Definition claimsOf (u : Usr.t) : Claims := mkClaims (Usr.id u) (Usr.email u) (Usr.role u).
Definition viewOf (u : Usr.t) : UserView :=
  mkUserView (Usr.id u) (Usr.name u) (Usr.email u) (Usr.role u) (Usr.prof u).

Inductive AuthReply : Type :=
| AuthOk (code : Z) (message : string) (token : Claims) (user : UserView)
| AuthError (code : Z) (error : string).

Definition withUser (c : Collections) (l : list Usr.t) : Collections :=
  mkCollections (Meditation c) (Sound c) (Content c) (MarketplaceRequest c)
                (MarketplaceItem c) l.

(** The filter [{ email }] and [u.email === email]. *)
Definition userByEmail (email : string) (u : Usr.t) : bool := String.eqb (Usr.email u) email.

(** [newUser.save()]: the required paths, the [enum] of [role], then the
    unique indexes on [id] and [email]. *)
Definition saveUser (u : Usr.t) (l : list Usr.t) : Thrown + list Usr.t :=
  if negb (negb (String.eqb (Usr.name u) "") && negb (String.eqb (Usr.email u) "")
           && negb (String.eqb (Usr.password u) "")
           && (String.eqb (Usr.role u) "user" || String.eqb (Usr.role u) "admin"))
  then inl ValidationError
  else if existsb (fun x => String.eqb (Usr.id x) (Usr.id u)) l
          || existsb (userByEmail (Usr.email u)) l
  then inl DuplicateKey
  else inr (app l [u]).

(** [POST /api/auth/register], for a body whose fields are absent or
    strings (a string being its sequence of code units); [uuid], [hashed]
    and [now] are the identifier, the password hash and the timestamp
    drawn. *)
Definition register (h : Host) (name email password role : option string)
    (uuid hashed : string) (now : Z) (srv : Server) : AuthReply * Server :=
  let name := orEmpty name in
  let email := orEmpty email in
  let password := orEmpty password in
  if String.eqb name "" || String.eqb email "" || String.eqb password "" then
    (AuthError 400 "Name, email, and password are required", srv)
  else if (String.length password <? 6)%nat then
    (AuthError 400 "Password must be at least 6 characters long", srv)
  else
    match mongoose srv (fun db =>
            inr (find (userByEmail (toLowerCase h email)) (User db))) with
    | inl _ => (AuthError 500 "Server error during registration", srv)
    | inr (Some _) => (AuthError 400 "User with this email already exists", srv)
    | inr None =>
        let newUser :=
          Usr.mk uuid name (toLowerCase h email) hashed (orDefault role "user")
                 (Usr.mkProfile "" "" "" "" "" "") (Some now) in
        match mongoose srv (fun db => saveUser newUser (User db)) with
        | inl _ => (AuthError 500 "Server error during registration", srv)
        | inr l =>
            (AuthOk 201 "User registered successfully" (claimsOf newUser) (viewOf newUser),
             withMongo srv (withUser (mongo srv) l))
        end
    end.

(** [POST /api/auth/login]. *)
Definition login (h : Host) (email password : option string) (srv : Server)
  : AuthReply * Server :=
  let email := orEmpty email in
  let password := orEmpty password in
  if String.eqb email "" || String.eqb password "" then
    (AuthError 400 "Email and password are required", srv)
  else
    let lookup :=
      if negb (mongoConnected srv) then
        inr (find (userByEmail (toLowerCase h email)) (users (localDB srv)))
      else
        mongoose srv (fun db => inr (find (userByEmail (toLowerCase h email)) (User db))) in
    match lookup with
    | inl _ => (AuthError 500 "Server error during login", srv)
    | inr None => (AuthError 401 "Invalid email or password", srv)
    | inr (Some user) =>
        if negb (bcryptCompare h password (Usr.password user)) then
          (AuthError 401 "Invalid email or password", srv)
        else (AuthOk 200 "Login successful" (claimsOf user) (viewOf user), srv)
    end.

(** The users of the store that answers in the current mode. *)
Definition storedUsers (srv : Server) : list Usr.t :=
  if mongoConnected srv then User (mongo srv) else users (localDB srv).

(** One registration with everything it draws. *)
Record Registration : Type := mkRegistration {
  r_name : option string;
  r_email : option string;
  r_password : option string;
  r_role : option string;
  r_uuid : string;
  r_hashed : string;
  r_now : Z
}.

Definition registerOne (h : Host) (r : Registration) (srv : Server) : AuthReply * Server :=
  register h (r_name r) (r_email r) (r_password r) (r_role r) (r_uuid r) (r_hashed r)
           (r_now r) srv.

Definition registerAll (h : Host) (rs : list Registration) (srv : Server) : Server :=
  fold_left (fun s r => snd (registerOne h r s)) rs srv.

(** ** Companion lists *)

(** [String.prototype.split(",")]. *)
Fixpoint splitComma (s : string) : list string :=
  match s with
  | EmptyString => [EmptyString]
  | String c rest =>
      if Ascii.eqb c "," then EmptyString :: splitComma rest
      else match splitComma rest with
           | piece :: pieces => String c piece :: pieces
           | [] => [String c EmptyString]
           end
  end.

(** [String.prototype.trim], on strings over the ASCII characters: the white
    space is dropped at the end, then at the start. *)
Fixpoint trimEnd (s : string) : string :=
  match s with
  | EmptyString => EmptyString
  | String c rest =>
      match trimEnd rest with
      | EmptyString => if isWhite c then EmptyString else String c EmptyString
      | kept => String c kept
      end
  end.

Definition trim (s : string) : string := skipWhite (trimEnd s).

(** [splitList(value)] for a String path of a stored application: the
    value is missing ([None]) or a string. *)
Definition splitList (value : option string) : list string :=
  match value with
  | None => []
  | Some s =>
      if String.eqb s "" then []
      else List.filter (fun item => negb (String.eqb item ""))
                       (map trim (splitComma s))
  end.

(** [Array.prototype.join(",")]. *)
Fixpoint joinComma (l : list string) : string :=
  match l with
  | [] => ""
  | [x] => x
  | x :: rest => String.append x (String "," (joinComma rest))
  end.

(** The string holds no comma. *)
Fixpoint commaFree (s : string) : bool :=
  match s with
  | EmptyString => true
  | String c rest => negb (Ascii.eqb c ",") && commaFree rest
  end.

(** ** Companion applications *)

Module App.
(** A companion application, as the [CompanionApplication] collection holds
    it. *)
Record t : Type := mk {
  id : string;
  fullName : string;
  email : string;
  phone : string;
  title : string;
  bio : string;
  experience : string;
  location : string;
  languages : string;
  specialties : string;
  certifications : string;
  hourlyRate : JSNumber;
  callRate : JSNumber;
  availability : string;
  profileImage : string;
  coverImage : string;
  website : string;
  socialLinks : string;
  whyJoin : string;
  status : string;
  submittedAt : Z;
  createdAt : Z;
  updatedAt : Z
}.

(** The fields of the request body the update route reads, each absent
    ([None], [undefined]) or of the type its schema path has: a string, or a
    number for the four rates. *)
Record patch : Type := mkPatch {
  p_fullName : option string;
  p_name : option string;
  p_email : option string;
  p_phone : option string;
  p_title : option string;
  p_expertise : option string;
  p_bio : option string;
  p_experience : option string;
  p_location : option string;
  p_languages : option string;
  p_specialties : option string;
  p_certifications : option string;
  p_hourlyRate : option JSNumber;
  p_callRate : option JSNumber;
  p_pricingChat : option JSNumber;
  p_pricingVideo : option JSNumber;
  p_availability : option string;
  p_profileImage : option string;
  p_coverImage : option string;
  p_website : option string;
  p_socialLinks : option string;
  p_whyJoin : option string;
  p_status : option string
}.

(** Of two spreads that set the same key the later one wins. *)
Definition later {A} (second first : option A) : option A :=
  match second with Some v => Some v | None => first end.

(** [Number(x) || 0] on a number. *)
Definition orZero (n : JSNumber) : JSNumber := if truthy (JNum n) then n else numZ 0.

(** The update document built with the conditional spreads. *)
Definition setFullName (p : patch) : option string := later (p_name p) (p_fullName p).
Definition setTitle (p : patch) : option string := later (p_expertise p) (p_title p).
Definition setHourlyRate (p : patch) : option JSNumber :=
  option_map orZero (later (p_pricingVideo p) (p_hourlyRate p)).
Definition setCallRate (p : patch) : option JSNumber :=
  option_map orZero (later (p_pricingChat p) (p_callRate p)).

(** The update applied to a document; Mongoose stamps [updatedAt]. *)
Definition apply (p : patch) (now : Z) (a : t) : t :=
  mk (id a) (Med.orKeep (setFullName p) (fullName a)) (Med.orKeep (p_email p) (email a))
     (Med.orKeep (p_phone p) (phone a)) (Med.orKeep (setTitle p) (title a))
     (Med.orKeep (p_bio p) (bio a)) (Med.orKeep (p_experience p) (experience a))
     (Med.orKeep (p_location p) (location a)) (Med.orKeep (p_languages p) (languages a))
     (Med.orKeep (p_specialties p) (specialties a))
     (Med.orKeep (p_certifications p) (certifications a))
     (Med.orKeep (setHourlyRate p) (hourlyRate a)) (Med.orKeep (setCallRate p) (callRate a))
     (Med.orKeep (p_availability p) (availability a))
     (Med.orKeep (p_profileImage p) (profileImage a))
     (Med.orKeep (p_coverImage p) (coverImage a)) (Med.orKeep (p_website p) (website a))
     (Med.orKeep (p_socialLinks p) (socialLinks a)) (Med.orKeep (p_whyJoin p) (whyJoin a))
     (Med.orKeep (p_status p) (status a)) (submittedAt a) (createdAt a) now.

(** [{ status }] applied to a document. *)
Definition withStatus (s : string) (now : Z) (a : t) : t :=
  mk (id a) (fullName a) (email a) (phone a) (title a) (bio a) (experience a) (location a)
     (languages a) (specialties a) (certifications a) (hourlyRate a) (callRate a)
     (availability a) (profileImage a) (coverImage a) (website a) (socialLinks a)
     (whyJoin a) s (submittedAt a) (createdAt a) now.

Definition nonEmpty (o : option string) : bool :=
  match o with Some s => negb (String.eqb s "") | None => true end.

(** The update validators that [runValidators: true] runs on the supplied
    paths: [fullName], [email], [title] and [bio] are required. *)
Definition valid (p : patch) : bool :=
  nonEmpty (setFullName p) && nonEmpty (p_email p) && nonEmpty (setTitle p)
  && nonEmpty (p_bio p).
End App.

(** What [toAdminCompanion] returns. *)
Record AdminCompanion : Type := mkAdminCompanion {
  ac_id : string;
  ac_name : string;
  ac_email : string;
  ac_expertise : string;
  ac_specialties : list string;
  ac_languages : list string;
  ac_rating : Z;
  ac_status : string;
  ac_appliedDate : string;
  ac_bio : string;
  ac_profileImage : string;
  ac_coverImage : string;
  ac_location : string;
  ac_pricingChat : JSNumber;
  ac_pricingVideo : JSNumber;
  ac_availability : list string
}.

(** [toAdminCompanion(app)] on a stored application: [submittedAt] is a
    [Date], so [appliedDate] is its date key; the [|| ""] defaults are the
    identity on strings. *)
Definition toAdminCompanion (a : App.t) : AdminCompanion :=
  mkAdminCompanion (App.id a) (App.fullName a) (App.email a) (App.title a)
    (splitList (Some (App.specialties a))) (splitList (Some (App.languages a))) 0
    (if String.eqb (App.status a) "" then "pending" else App.status a)
    (toDateKey (App.submittedAt a)) (App.bio a) (App.profileImage a) (App.coverImage a)
    (App.location a)
    (if isFinite (App.callRate a) then App.callRate a else numZ 0)
    (if isFinite (App.hourlyRate a) then App.hourlyRate a else numZ 0)
    (splitList (Some (App.availability a))).

(** The outcome of a route on one companion application; as for the
    catalogue routes there is no [try]/[catch]. *)
Inductive AppReply : Type :=
| AppFound (application : App.t)
| AppUpdated (companion : AdminCompanion)
| AppDeleted
| AppError (code : Z) (error : string)
| AppRejected (e : Thrown).

(** The filter [{ id }]. *)
Definition appById (id : string) (a : App.t) : bool := String.eqb (App.id a) id.

(** The routes below act on the [CompanionApplication] collection, which no
    other route touches; it is threaded on its own, beside the [Server]
    that tells whether the connection is up. *)

(** [GET /api/companion-applications/:id]. *)
Definition getApplication (id : string) (srv : Server) (apps : list App.t)
  : AppReply * list App.t :=
  match mongoose srv (fun _ => inr (find (appById id) apps)) with
  | inl e => (AppRejected e, apps)
  | inr None => (AppError 404 "application not found", apps)
  | inr (Some application) => (AppFound application, apps)
  end.

(** [PUT /api/companion-applications/:id]; the validators run before the
    query is sent. *)
Definition putApplication (id : string) (p : App.patch) (now : Z) (srv : Server)
    (apps : list App.t) : AppReply * list App.t :=
  let call :=
    if negb (App.valid p) then inl ValidationError
    else mongoose srv (fun _ => inr (findOneAndUpdate (appById id) (App.apply p now) apps)) in
  match call with
  | inl e => (AppRejected e, apps)
  | inr None => (AppError 404 "application not found", apps)
  | inr (Some (updated, l)) => (AppUpdated (toAdminCompanion updated), l)
  end.

(** [PATCH /api/companion-applications/:id/status]; [status] is absent or a
    string. *)
Definition patchApplicationStatus (id : string) (status : option string) (now : Z)
    (srv : Server) (apps : list App.t) : AppReply * list App.t :=
  match orEmpty status with
  | "" => (AppError 400 "status is required", apps)
  | s =>
      match mongoose srv (fun _ =>
              inr (findOneAndUpdate (appById id) (App.withStatus s now) apps)) with
      | inl e => (AppRejected e, apps)
      | inr None => (AppError 404 "application not found", apps)
      | inr (Some (updated, l)) => (AppUpdated (toAdminCompanion updated), l)
      end
  end.

(** [DELETE /api/companion-applications/:id]. *)
Definition deleteApplication (id : string) (srv : Server) (apps : list App.t)
  : AppReply * list App.t :=
  match mongoose srv (fun _ => inr (deleteFirst (appById id) apps)) with
  | inl e => (AppRejected e, apps)
  | inr None => (AppError 404 "application not found", apps)
  | inr (Some (_, l)) => (AppDeleted, l)
  end.

(** * Properties *)

(** On a host of constant offset the two offsets of the zone are that
    offset. *)
Ltac fixed_zone := cbn [offsetAtUTC offsetAtLocal fixed] in *.

(** ** Checks of the JavaScript primitives on concrete inputs *)

Example parseFloat_samples :
  parseFloat "7.5" = NFinite (15 # 2)
  /\ parseFloat "  -12.50e1abc" = NFinite (-125 # 1) /\ parseFloat "abc" = NNaN
  /\ parseFloat ".5" = NFinite (1 # 2) /\ parseFloat "." = NNaN
  /\ parseFloat "1e" = NFinite (1 # 1) /\ parseFloat "1e400" = NPosInf
  /\ parseFloat "-Infinity" = NNegInf /\ parseFloat "" = NNaN.
Proof. vm_compute. repeat split; reflexivity. Qed.

Example toDateKey_samples :
  toDateKey 1704861000000 = "2024-01-10" /\ toDateKey (19782 * 86400000) = "2024-02-29"
  /\ toDateKey (-1) = "1969-12-31" /\ toDateKey (11017 * 86400000 + 5) = "2000-03-01"
  /\ toDateKey 0 = "1970-01-01" /\ toDateKey (19722 * 86400000) = "2023-12-31".
Proof. vm_compute. repeat split; reflexivity. Qed.

(** A host five and a half hours ahead of UTC, 10 January 2024 10:00 local:
    seven buckets, local midnights of 4 to 10 January, keyed by the UTC
    dates 3 to 9 January. *)
Example buckets_sample :
  buildDateBuckets 19800000 10 (1704861000000 - 6 * 86400000) 1704861000000
  = Some (map (fun i => (19732 - 6 + i) * 86400000 - 19800000) [0;1;2;3;4;5;6])
  /\ option_map (map toDateKey)
       (buildDateBuckets 19800000 10 (1704861000000 - 6 * 86400000) 1704861000000)
     = Some ["2024-01-03"; "2024-01-04"; "2024-01-05"; "2024-01-06"; "2024-01-07";
             "2024-01-08"; "2024-01-09"].
Proof. split; vm_compute; reflexivity. Qed.

(** ** Revenue extraction *)

Lemma candidateAmount_Some v n : candidateAmount v = Some n <-> Qualifies v n.
Proof.
  split.
  - destruct v as [| |b|m|s|l|fs]; simpl; try discriminate.
    + destruct m; simpl; try discriminate. intros [= <-]. constructor.
    + destruct (parseFloat s) eqn:E; simpl; try discriminate.
      intros [= <-]. now constructor.
  - intros [q|s q E]; simpl; [reflexivity|]. now rewrite E.
Qed.

Lemma candidateAmount_None v : candidateAmount v = None <-> forall n, ~ Qualifies v n.
Proof.
  split.
  - intros E n Hq. apply candidateAmount_Some in Hq. congruence.
  - intros H. destruct (candidateAmount v) as [n|] eqn:E; [|reflexivity].
    apply candidateAmount_Some in E. now apply H in E.
Qed.

(** C4.  The amount extracted from an item follows the precedence [price],
    [amount], [total], [cost]: the first of them that is a finite number or a
    string [parseFloat] reads a finite number from gives the amount, and the
    amount is 0 when none does.  In particular the payload
    [{price: 5, amount: 10}] gives 5, [{amount: "7.5"}] gives 7.5 and [{}]
    gives 0. *)
Theorem getItemAmount_precedence :
  (forall item,
     let data := payload item in
     (forall n, Qualifies (jsGet data "price") n -> getItemAmount item = n)
     /\ (forall n, (forall m, ~ Qualifies (jsGet data "price") m) ->
                   Qualifies (jsGet data "amount") n -> getItemAmount item = n)
     /\ (forall n, (forall m, ~ Qualifies (jsGet data "price") m) ->
                   (forall m, ~ Qualifies (jsGet data "amount") m) ->
                   Qualifies (jsGet data "total") n -> getItemAmount item = n)
     /\ (forall n, (forall m, ~ Qualifies (jsGet data "price") m) ->
                   (forall m, ~ Qualifies (jsGet data "amount") m) ->
                   (forall m, ~ Qualifies (jsGet data "total") m) ->
                   Qualifies (jsGet data "cost") n -> getItemAmount item = n)
     /\ ((forall m, ~ Qualifies (jsGet data "price") m) ->
         (forall m, ~ Qualifies (jsGet data "amount") m) ->
         (forall m, ~ Qualifies (jsGet data "total") m) ->
         (forall m, ~ Qualifies (jsGet data "cost") m) ->
         getItemAmount item = numZ 0))
  /\ (forall item,
        Item.data item = JObj [("price", JNum (numZ 5)); ("amount", JNum (numZ 10))] ->
        getItemAmount item = numZ 5)
  /\ (forall item,
        Item.data item = JObj [("amount", JStr "7.5")] ->
        getItemAmount item = NFinite (15 # 2))
  /\ (forall item, Item.data item = JObj [] -> getItemAmount item = numZ 0).
Proof.
  split; [|repeat split; intros item E; unfold getItemAmount; rewrite E;
           vm_compute; reflexivity].
  intros item data. unfold getItemAmount. fold (payload item). fold data. cbv zeta.
  cbn [firstAmount].
  repeat split; intros;
    repeat match goal with
      | H : Qualifies _ _ |- _ => apply candidateAmount_Some in H; rewrite H
      | H : forall m, ~ Qualifies _ m |- _ => apply candidateAmount_None in H; rewrite H
      end; reflexivity.
Qed.

Lemma getItemAmount_precedence_witness :
  Qualifies (JStr "7.5") (NFinite (15 # 2))
  /\ getItemAmount (Item.mk "i1" "r1" (JStr "retreat") "active"
                      (JObj [("price", JStr "n/a"); ("amount", JStr "7.5")])
                      None None None None 0 0) = NFinite (15 # 2).
Proof.
  split.
  - constructor. vm_compute. reflexivity.
  - apply (proj1 (proj2 (proj1 getItemAmount_precedence _))).
    + intros m H. inversion H; subst. vm_compute in H1. discriminate.
    + constructor. vm_compute. reflexivity.
Defined.

(** ** Submission *)

(** C10.  A submission whose [data] is present but falsy is rejected: with
    [data] equal to [0], to the empty string or to [false], whatever [type]
    is, the route answers 400 and stores nothing, in either mode. *)
Theorem postRequest_falsy_data :
  forall body uuid now1 now2 srv,
    In (jsGet body "data") [JNum (numZ 0); JStr ""; JBool false] ->
    postRequest body uuid now1 now2 srv
    = (Json 400 (BError "Type and data are required"), srv).
Proof.
  intros body uuid now1 now2 srv H. unfold postRequest.
  assert (truthy (jsGet body "data") = false) as ->.
  { simpl in H. destruct H as [<-|[<-|[<-|[]]]]; reflexivity. }
  now rewrite orb_true_r.
Qed.

Lemma postRequest_falsy_data_witness :
  postRequest (JObj [("type", JStr "retreat"); ("data", JNum (numZ 0))]) "u1" 5 6
              (boot false "a0" "hash" (mkCollections [] [] [] [] [] []))
  = (Json 400 (BError "Type and data are required"),
     boot false "a0" "hash" (mkCollections [] [] [] [] [] [])).
Proof.
  apply postRequest_falsy_data. simpl. left. reflexivity.
Defined.

(** ** Day buckets *)

(** [YearFromTime] is the year the ECMAScript definition asks for: the
    largest year whose first day is not after the day of [t]. *)
Lemma yearScan_spec fuel : forall d y,
  DayFromYear y <= d -> d < DayFromYear (y + Z.of_nat fuel) ->
  DayFromYear (yearScan fuel d y) <= d < DayFromYear (yearScan fuel d y + 1).
Proof.
  induction fuel as [|f IH]; intros d y Hlo Hhi.
  - replace (y + Z.of_nat 0) with y in Hhi by lia. exfalso. lia.
  - cbn [yearScan]. destruct (Z.leb_spec (DayFromYear (y + 1)) d) as [H|H].
    + apply IH; [exact H|].
      replace (y + 1 + Z.of_nat f) with (y + Z.of_nat (S f)) by lia. exact Hhi.
    + split; [exact Hlo|exact H].
Qed.

Lemma YearFromTime_spec t :
  DayFromYear (YearFromTime t) <= Day t < DayFromYear (YearFromTime t + 1).
Proof.
  unfold YearFromTime. cbv zeta. apply yearScan_spec.
  - destruct (Z.leb_spec 0 (Day t)) as [H|H]; unfold DayFromYear;
      Z.to_euclidean_division_equations; lia.
  - rewrite Z2Nat.id by (apply Z.add_nonneg_nonneg; [apply Z.div_pos|]; lia).
    destruct (Z.leb_spec 0 (Day t)) as [H|H].
    + rewrite Z.abs_eq by lia. unfold DayFromYear.
      Z.to_euclidean_division_equations; lia.
    + rewrite Z.abs_neq by lia. unfold DayFromYear.
      Z.to_euclidean_division_equations; lia.
Qed.

Lemma DayFromYear_next y : DayFromYear (y + 1) = DayFromYear y + DaysInYear y.
Proof.
  unfold DayFromYear, DaysInYear.
  repeat match goal with |- context [Z.eqb ?a ?b] => destruct (Z.eqb_spec a b) end;
    cbn [negb]; Z.to_euclidean_division_equations; lia.
Qed.

Lemma DayWithinYear_range t : 0 <= DayWithinYear t < DaysInYear (YearFromTime t).
Proof.
  pose proof (YearFromTime_spec t) as H. rewrite DayFromYear_next in H.
  unfold DayWithinYear. lia.
Qed.

Section DateArithmetic.
Variable tza : Z.

Lemma MonthFromTime_range t : 0 <= MonthFromTime t <= 11.
Proof.
  unfold MonthFromTime.
  repeat match goal with |- context [if ?b then _ else _] => destruct b end; lia.
Qed.

(** Moving the day of the month by [k] moves the day number by [k], across
    month and year ends alike. *)
Lemma MakeDay_DateFromTime t k :
  MakeDay (YearFromTime t) (MonthFromTime t) (DateFromTime t + k) = Day t + k.
Proof.
  pose proof (MonthFromTime_range t) as Hm.
  unfold MakeDay, DateFromTime, DayWithinYear, InLeapYear.
  rewrite (Z.div_small (MonthFromTime t) 12), (Z.mod_small (MonthFromTime t) 12) by lia.
  rewrite Z.add_0_r.
  assert (MonthFromTime t = 0 \/ MonthFromTime t = 1 \/ MonthFromTime t = 2
          \/ MonthFromTime t = 3 \/ MonthFromTime t = 4 \/ MonthFromTime t = 5
          \/ MonthFromTime t = 6 \/ MonthFromTime t = 7 \/ MonthFromTime t = 8
          \/ MonthFromTime t = 9 \/ MonthFromTime t = 10 \/ MonthFromTime t = 11)
    as Hcase by lia.
  repeat destruct Hcase as [E|Hcase]; try rename Hcase into E;
    rewrite E; cbn [monthStart]; lia.
Qed.

Lemma Day_split t : t = Day t * msPerDay + TimeWithinDay t.
Proof.
  unfold Day, TimeWithinDay, msPerDay.
  pose proof (Z.div_mod t 86400000). lia.
Qed.

Lemma TimeWithinDay_range t : 0 <= TimeWithinDay t < msPerDay.
Proof. unfold TimeWithinDay, msPerDay. apply Z.mod_pos_bound. lia. Qed.

Lemma Day_unique d r : 0 <= r < msPerDay -> Day (d * msPerDay + r) = d.
Proof.
  intros H. unfold Day, msPerDay in *.
  symmetry. apply (Z.div_unique _ _ d r); lia.
Qed.

(** [d.setDate(d.getDate() + k)] moves [d] by [k] whole days. *)
Lemma setDate_shift d k : setDate tza d (getDate tza d + k) = d + k * msPerDay.
Proof.
  unfold setDate, getDate. rewrite MakeDay_DateFromTime.
  unfold MakeDate, UTC. pose proof (Day_split (LocalTime tza d)) as H.
  unfold LocalTime in *. fixed_zone. lia.
Qed.

(** [setHours(0, 0, 0, 0)] is the local midnight of the same local day. *)
Lemma setHours_midnight d :
  setHours tza d 0 0 0 0 = localMidnight tza (localDay tza d).
Proof. unfold setHours, MakeDate, MakeTime, UTC, localMidnight, localDay. fixed_zone. lia. Qed.

Lemma localDay_midnight d : localDay tza (localMidnight tza d) = d.
Proof.
  unfold localDay, localMidnight, LocalTime. fixed_zone.
  replace (d * msPerDay - tza + tza) with (d * msPerDay + 0) by lia.
  apply Day_unique. unfold msPerDay. lia.
Qed.

(** The loop of [buildDateBuckets] from one local midnight to another: with
    more fuel than days to visit it returns every local midnight between
    the two, in order. *)
Lemma bucketLoop_midnights fuel : forall dc de,
  Z.max 0 (de - dc + 1) < Z.of_nat fuel ->
  bucketLoop tza fuel (localMidnight tza dc) (localMidnight tza de)
  = Some (map (localMidnight tza) (seqZ dc (de - dc + 1))).
Proof.
  induction fuel as [|fuel IH]; intros dc de Hfuel; [lia|].
  cbn [bucketLoop].
  destruct (Z.leb_spec (localMidnight tza dc) (localMidnight tza de)) as [Hle|Hgt].
  - assert (dc <= de) as Hd by (unfold localMidnight, msPerDay in Hle; lia).
    rewrite setDate_shift.
    replace (localMidnight tza dc + 1 * msPerDay) with (localMidnight tza (dc + 1))
      by (unfold localMidnight; lia).
    rewrite IH by lia.
    rewrite (seqZ_cons dc) by lia.
    replace (Z.succ dc) with (dc + 1) by lia.
    replace (Z.pred (de - dc + 1)) with (de - (dc + 1) + 1) by lia.
    reflexivity.
  - assert (de < dc) as Hd by (unfold localMidnight, msPerDay in Hgt; lia).
    rewrite seqZ_nil by lia. reflexivity.
Qed.

Lemma buildDateBuckets_midnights fuel start end_ :
  Z.max 0 (localDay tza end_ - localDay tza start + 1) < Z.of_nat fuel ->
  buildDateBuckets tza fuel start end_
  = Some (map (localMidnight tza)
              (seqZ (localDay tza start) (localDay tza end_ - localDay tza start + 1))).
Proof.
  intros H. unfold buildDateBuckets. rewrite !setHours_midnight.
  now apply bucketLoop_midnights.
Qed.

(** With both clock readings in one local month, [start] lies [days - 1]
    local days before [end]. *)
Lemma rangeStart_day days clk :
  sameMonth tza clk ->
  localDay tza (rangeStart tza days clk) = localDay tza (nowEnd clk) - (days - 1).
Proof.
  intros [Hy Hm]. unfold rangeStart, setDate.
  unfold getFullYear, getMonth in Hy, Hm. rewrite Hy, Hm.
  unfold getDate.
  replace (DateFromTime (LocalTime tza (nowEnd clk)) - (days - 1))
    with (DateFromTime (LocalTime tza (nowEnd clk)) + (- (days - 1))) by lia.
  rewrite MakeDay_DateFromTime.
  unfold localDay at 1, UTC, MakeDate, LocalTime at 1. fixed_zone.
  match goal with |- Day (?a * msPerDay + ?r - tza + tza) = _ =>
    replace (a * msPerDay + r - tza + tza) with (a * msPerDay + r) by lia end.
  rewrite Day_unique by apply TimeWithinDay_range.
  unfold localDay. lia.
Qed.

(** The UTC days of consecutive local midnights are consecutive. *)
Lemma utc_days_consecutive d n :
  0 <= n ->
  map Day (map (localMidnight tza) (seqZ d n)) = seqZ (Day (localMidnight tza d)) n.
Proof.
  intros Hn. rewrite map_map.
  apply list_eq. intros i.
  change (map (fun x => Day (localMidnight tza x)))
    with (fmap (M := list) (fun x => Day (localMidnight tza x))).
  rewrite list_lookup_fmap.
  destruct (decide (Z.of_nat i < n)) as [Hi|Hi].
  - rewrite !lookup_seqZ_lt by lia. cbn. f_equal.
    unfold localMidnight, Day.
    replace ((d + Z.of_nat i) * msPerDay - tza)
      with (d * msPerDay - tza + Z.of_nat i * msPerDay) by lia.
    rewrite Z.div_add by (unfold msPerDay; lia). reflexivity.
  - rewrite !lookup_seqZ_ge by lia. reflexivity.
Qed.

Lemma parseRangeDays_cases r :
  (r = "7d" -> parseRangeDays r = 7) /\ (r = "30d" -> parseRangeDays r = 30)
  /\ (r = "90d" -> parseRangeDays r = 90) /\ (r = "1y" -> parseRangeDays r = 365)
  /\ (r <> "7d" -> r <> "30d" -> r <> "90d" -> r <> "1y" -> parseRangeDays r = 7).
Proof.
  repeat split; try (intros ->; reflexivity).
  intros _ H30 H90 H1y. unfold parseRangeDays.
  apply String.eqb_neq in H30, H90, H1y. now rewrite H30, H90, H1y.
Qed.

Lemma parseRangeDays_pos r : 0 < parseRangeDays r.
Proof.
  unfold parseRangeDays.
  repeat match goal with |- context [if ?b then _ else _] => destruct b end; lia.
Qed.

Lemma growth_keys uc : forall keys c, map fst (growth uc c keys) = keys.
Proof. induction keys as [|k keys IH]; intros c; simpl; [|rewrite IH]; reflexivity. Qed.

Lemma perDay_keys bc keys : map fst (perDay bc keys) = keys.
Proof. unfold perDay. rewrite map_map. simpl. apply map_id. Qed.

End DateArithmetic.

(** ** Date keys determine the day *)

Lemma string_app_length s1 s2 :
  String.length (String.append s1 s2) = (String.length s1 + String.length s2)%nat.
Proof.
  induction s1 as [|c s1 IH]; [reflexivity|].
  change (String.append (String c s1) s2) with (String c (String.append s1 s2)).
  cbn [String.length Nat.add]. f_equal. exact IH.
Qed.

Lemma string_app_inj s1 s2 t1 t2 :
  String.length s1 = String.length s2 ->
  String.append s1 t1 = String.append s2 t2 -> s1 = s2 /\ t1 = t2.
Proof.
  revert s2. induction s1 as [|c s1 IH]; intros [|d s2] Hlen H; try discriminate.
  - now split.
  - change (String c (String.append s1 t1) = String d (String.append s2 t2)) in H.
    injection H as -> H. injection Hlen as Hlen.
    destruct (IH _ Hlen H) as [-> ->]. now split.
Qed.

Lemma string_tail_inj c s1 s2 : String c s1 = String c s2 -> s1 = s2.
Proof. now intros [= ->]. Qed.

Lemma digitChar_inj a b :
  0 <= a < 10 -> 0 <= b < 10 -> digitChar a = digitChar b -> a = b.
Proof.
  intros Ha Hb H. unfold digitChar in H.
  apply (f_equal nat_of_ascii) in H.
  rewrite !nat_ascii_embedding in H by lia. lia.
Qed.

Lemma padDigits_length w : forall n, String.length (padDigits w n) = w.
Proof.
  induction w as [|w IH]; intros n; [reflexivity|].
  cbn [padDigits]. rewrite string_app_length, IH. cbn. lia.
Qed.

Lemma padDigits_inj w : forall n m,
  0 <= n < 10 ^ Z.of_nat w -> 0 <= m < 10 ^ Z.of_nat w ->
  padDigits w n = padDigits w m -> n = m.
Proof.
  induction w as [|w IH]; intros n m Hn Hm H.
  - cbn in Hn, Hm. lia.
  - cbn [padDigits] in H.
    apply string_app_inj in H as [H1 H2]; [|now rewrite !padDigits_length].
    injection H2 as H2.
    rewrite Nat2Z.inj_succ, Z.pow_succ_r in Hn, Hm by lia.
    apply digitChar_inj in H2; [|apply Z.mod_pos_bound; lia|apply Z.mod_pos_bound; lia].
    apply IH in H1; [|Z.to_euclidean_division_equations; lia
                     |Z.to_euclidean_division_equations; lia].
    Z.to_euclidean_division_equations; lia.
Qed.

Lemma DaysInYear_leap y : DaysInYear y = 365 + leapOf y /\ 0 <= leapOf y <= 1.
Proof.
  unfold leapOf, DaysInYear.
  destruct (Z.eqb (y mod 4) 0), (Z.eqb (y mod 100) 0), (Z.eqb (y mod 400) 0);
    cbn; lia.
Qed.

Lemma DateFromTime_range t : 1 <= DateFromTime t <= 31.
Proof.
  pose proof (DayWithinYear_range t) as Hd.
  destruct (DaysInYear_leap (YearFromTime t)) as [Hy Hl]. rewrite Hy in Hd.
  unfold DateFromTime, MonthFromTime, InLeapYear.
  repeat match goal with
    | |- context [Z.ltb ?a ?b] => destruct (Z.ltb_spec a b)
    end; cbv iota; lia.
Qed.

Lemma Day_from_date t :
  Day t = MakeDay (YearFromTime t) (MonthFromTime t) (DateFromTime t).
Proof.
  pose proof (MakeDay_DateFromTime t 0) as H.
  rewrite !Z.add_0_r in H. now rewrite H.
Qed.

Lemma isoYear_length y :
  0 <= y -> String.length (isoYear y) = if y <=? 9999 then 4%nat else 7%nat.
Proof.
  intros Hy. unfold isoYear.
  destruct (Z.leb_spec 0 y); [|lia]. destruct (Z.leb_spec y 9999); cbn [andb].
  - apply padDigits_length.
  - destruct (Z.ltb_spec y 0); [lia|].
    change (String.append "+" (padDigits 6 y)) with (String "+" (padDigits 6 y)).
    cbn [String.length]. now rewrite padDigits_length.
Qed.

Lemma isoYear_inj y1 y2 :
  0 <= y1 < 1000000 -> 0 <= y2 < 1000000 -> isoYear y1 = isoYear y2 -> y1 = y2.
Proof.
  intros H1 H2 H.
  pose proof (f_equal String.length H) as Hlen.
  rewrite !isoYear_length in Hlen by lia.
  unfold isoYear in H.
  destruct (Z.leb_spec 0 y1); [|lia]. destruct (Z.leb_spec 0 y2); [|lia].
  destruct (Z.leb_spec y1 9999), (Z.leb_spec y2 9999); cbn [andb] in H; try discriminate.
  - apply (padDigits_inj 4); [lia|lia|exact H].
  - destruct (Z.ltb_spec y1 0); [lia|]. destruct (Z.ltb_spec y2 0); [lia|].
    change (String "+" (padDigits 6 y1) = String "+" (padDigits 6 y2)) in H.
    apply string_tail_inj in H. apply (padDigits_inj 6); [lia|lia|exact H].
Qed.

(** Two time values with the same date key lie on the same day. *)
Lemma toDateKey_inj t1 t2 :
  0 <= YearFromTime t1 < 1000000 -> 0 <= YearFromTime t2 < 1000000 ->
  toDateKey t1 = toDateKey t2 -> Day t1 = Day t2.
Proof.
  intros Hy1 Hy2 H. unfold toDateKey in H.
  pose proof (MonthFromTime_range t1) as Hm1. pose proof (MonthFromTime_range t2) as Hm2.
  pose proof (DateFromTime_range t1) as Hd1. pose proof (DateFromTime_range t2) as Hd2.
  assert (String.length (isoYear (YearFromTime t1))
          = String.length (isoYear (YearFromTime t2))) as Hlen.
  { pose proof (f_equal String.length H) as Hl.
    rewrite !string_app_length in Hl. rewrite !padDigits_length in Hl.
    cbn [String.length] in Hl. lia. }
  apply string_app_inj in H as [Hy H]; [|exact Hlen].
  apply isoYear_inj in Hy; [|lia|lia].
  change (String "-" (String.append (padDigits 2 (MonthFromTime t1 + 1))
                        (String.append "-" (padDigits 2 (DateFromTime t1))))
          = String "-" (String.append (padDigits 2 (MonthFromTime t2 + 1))
                          (String.append "-" (padDigits 2 (DateFromTime t2))))) in H.
  apply string_tail_inj in H.
  apply string_app_inj in H as [Hm H]; [|now rewrite !padDigits_length].
  apply (padDigits_inj 2) in Hm; [|cbn; lia|cbn; lia].
  change (String "-" (padDigits 2 (DateFromTime t1))
          = String "-" (padDigits 2 (DateFromTime t2))) in H.
  apply string_tail_inj in H. apply (padDigits_inj 2) in H; [|cbn; lia|cbn; lia].
  rewrite (Day_from_date t1), (Day_from_date t2), Hy, H.
  now replace (MonthFromTime t1) with (MonthFromTime t2) by lia.
Qed.

(** Years of the time values a [Date] can hold from 1968 on. *)
Lemma YearFromTime_bounds t :
  -367 <= Day t <= 100000002 -> 0 <= YearFromTime t < 1000000.
Proof.
  intros H. pose proof (YearFromTime_spec t) as Hs. unfold DayFromYear in Hs.
  Z.to_euclidean_division_equations; lia.
Qed.

Lemma parseRangeDays_le r : parseRangeDays r <= 365.
Proof.
  unfold parseRangeDays.
  repeat match goal with |- context [if ?b then _ else _] => destruct b end; lia.
Qed.

(** The date keys of consecutive local midnights are pairwise distinct. *)
Lemma bucket_keys_distinct tza d0 n :
  (forall d, d0 <= d < d0 + n -> -367 <= Day (localMidnight tza d) <= 100000002) ->
  NoDup (map toDateKey (map (localMidnight tza) (seqZ d0 n))).
Proof.
  intros Hrange. rewrite map_map.
  apply (NoDup_fmap_2_strong (fun x => toDateKey (localMidnight tza x))); [|apply NoDup_seqZ].
  intros x y Hx Hy H. apply elem_of_seqZ in Hx, Hy.
  apply toDateKey_inj in H;
    [|apply YearFromTime_bounds, Hrange; lia|apply YearFromTime_bounds, Hrange; lia].
  unfold Day, localMidnight in H.
  replace (x * msPerDay - tza) with (y * msPerDay - tza + (x - y) * msPerDay) in H by lia.
  rewrite Z.div_add in H by (unfold msPerDay; lia). lia.
Qed.

(** C3, divergence.  The day buckets are not always the [days] consecutive
    calendar days ending today.  The route builds them as local midnights
    and labels them with their UTC dates, and it reads the clock twice.
    On a host ahead of UTC a request made on 10 January is answered with
    the seven days 3 to 9 January; when the two readings fall either side
    of the end of a month the series are empty; and on a host that changes
    its offset the days around the change come out twice or not at all:
    in London, 31 March twice after the clocks go forward, and no 27
    October after they go back. *)
Theorem analytics_day_buckets_diverge :
  let srv := boot false "a0" "hash" (mkCollections [] [] [] [] [] []) in
  let clock t := mkAnalyticsClock t t (fun _ => t) in
  (let now := 1704861000000 in
   toDateKey (LocalTime 19800000 now) = "2024-01-10"
   /\ exists a,
        getAnalytics 19800000 8 (JStr "7d") (clock now) srv = Some a
        /\ map fst (userGrowth a)
           = ["2024-01-03"; "2024-01-04"; "2024-01-05"; "2024-01-06"; "2024-01-07";
              "2024-01-08"; "2024-01-09"]
        /\ map fst (bookings a) = map fst (userGrowth a))
  /\ (let clk := mkAnalyticsClock 1706745599999 1706745600000 (fun _ => 1706745600000) in
      toDateKey (nowEnd clk) = "2024-01-31" /\ toDateKey (nowStart clk) = "2024-02-01"
      /\ exists a,
           getAnalytics 0 8 (JStr "7d") clk srv = Some a
           /\ userGrowth a = [] /\ bookings a = [])
  /\ (let now := 1712145600000 in
      toDateKey (LocalTime london2024 now) = "2024-04-03"
      /\ exists a,
           getAnalytics london2024 8 (JStr "7d") (clock now) srv = Some a
           /\ map fst (userGrowth a)
              = ["2024-03-28"; "2024-03-29"; "2024-03-30"; "2024-03-31"; "2024-03-31";
                 "2024-04-01"; "2024-04-02"])
  /\ (let now := 1730289600000 in
      toDateKey (LocalTime london2024 now) = "2024-10-30"
      /\ exists a,
           getAnalytics london2024 8 (JStr "7d") (clock now) srv = Some a
           /\ map fst (userGrowth a)
              = ["2024-10-23"; "2024-10-24"; "2024-10-25"; "2024-10-26"; "2024-10-28";
                 "2024-10-29"; "2024-10-30"]).
Proof.
  cbv zeta. repeat apply conj; try (vm_compute; reflexivity);
    eexists; (split; [vm_compute; reflexivity|]); repeat split; vm_compute; reflexivity.
Qed.

(** A date key depends on the day of the time value only. *)
Lemma toDateKey_Day t : toDateKey t = toDateKey (Day t * msPerDay).
Proof.
  assert (Day (Day t * msPerDay) = Day t) as E.
  { replace (Day t * msPerDay) with (Day t * msPerDay + 0) by lia.
    apply Day_unique. unfold msPerDay. lia. }
  unfold toDateKey, DateFromTime, MonthFromTime, InLeapYear, DayWithinYear, YearFromTime.
  now rewrite E.
Qed.

(** The date key of a bucket is the UTC date of a local midnight: the local
    date itself when the host is at or behind UTC, the date before when the
    host is ahead of UTC. *)
Lemma bucket_utc_day tza d :
  (- msPerDay < tza <= 0 -> Day (localMidnight tza d) = d)
  /\ (0 < tza <= msPerDay -> Day (localMidnight tza d) = d - 1).
Proof.
  unfold localMidnight. split; intros H.
  - replace (d * msPerDay - tza) with (d * msPerDay + (- tza)) by lia.
    apply Day_unique. lia.
  - replace (d * msPerDay - tza) with ((d - 1) * msPerDay + (msPerDay - tza)) by lia.
    apply Day_unique. lia.
Qed.

Lemma bucket_date_key tza d :
  (- msPerDay < tza <= 0 -> toDateKey (localMidnight tza d) = toDateKey (d * msPerDay))
  /\ (0 < tza <= msPerDay ->
      toDateKey (localMidnight tza d) = toDateKey ((d - 1) * msPerDay)).
Proof.
  split; intros H; rewrite toDateKey_Day.
  - now rewrite (proj1 (bucket_utc_day tza d) H).
  - now rewrite (proj2 (bucket_utc_day tza d) H).
Qed.

(** ** User growth *)

Lemma onDay_cons c stamps key :
  onDay (c :: stamps) key
  = (if String.eqb (toDateKey c) key then 1 else 0) + onDay stamps key.
Proof.
  unfold onDay. cbn [List.filter].
  destruct (String.eqb (toDateKey c) key); cbn [length]; lia.
Qed.

Lemma onDay_nonneg stamps key : 0 <= onDay stamps key.
Proof. unfold onDay. lia. Qed.

Lemma countByDay_from (stamps : list Z) : forall (acc : gmap string Z) (key : string),
  default 0 (fold_left (fun acc c =>
                          let key := toDateKey c in
                          <[key := default 0 (acc !! key) + 1]> acc) stamps acc !! key)
  = default 0 (acc !! key) + onDay stamps key.
Proof.
  induction stamps as [|c stamps IH]; intros acc key.
  - unfold onDay. simpl. lia.
  - cbn [fold_left]. rewrite IH, onDay_cons. cbv zeta.
    destruct (String.eqb_spec (toDateKey c) key) as [->|Hne].
    + rewrite lookup_insert_eq. simpl. lia.
    + rewrite lookup_insert_ne by exact Hne. lia.
Qed.

(** The counter built by the [reduce] holds, for every date key, the number
    of stamps that fall on that day. *)
Lemma countByDay_lookup stamps key :
  default 0 (countByDay stamps !! key) = onDay stamps key.
Proof.
  unfold countByDay. rewrite countByDay_from. rewrite lookup_empty. simpl. lia.
Qed.

Lemma growth_lookup uc : forall keys c i key v,
  growth uc c keys !! i = Some (key, v) ->
  keys !! i = Some key
  /\ v = c + sumZ (map (fun k => default 0 (uc !! k)) (take (S i) keys)).
Proof.
  induction keys as [|k keys IH]; intros c i key v H; [discriminate|].
  destruct i as [|i]; cbn [growth] in H.
  - injection H as <- <-. split; [reflexivity|].
    change (take 1 (k :: keys)) with [k]. cbn. lia.
  - apply IH in H as [Hk ->]. split; [exact Hk|].
    change (take (S (S i)) (k :: keys)) with (k :: take (S i) keys).
    cbn [map sumZ fold_right]. unfold sumZ. lia.
Qed.

Lemma growth_step uc : forall keys c i x y,
  (forall k, 0 <= default 0 (uc !! k)) ->
  growth uc c keys !! i = Some x -> growth uc c keys !! S i = Some y ->
  snd x <= snd y.
Proof.
  induction keys as [|k keys IH]; intros c i x y Hpos Hx Hy; [discriminate|].
  destruct i as [|i]; cbn [growth] in Hx, Hy.
  - injection Hx as <-. destruct keys as [|k' keys]; [discriminate|].
    cbn [growth] in Hy. injection Hy as <-. simpl. specialize (Hpos k'). lia.
  - exact (IH _ _ _ _ Hpos Hx Hy).
Qed.

(** The two branches of the user query compute the same two things from
    the users' creation stamps. *)
Lemma userStamps_spec clk start end_ srv :
  userStamps clk start end_ srv
  = (Z.of_nat (length (List.filter (fun c => c <? start) (userCreated clk srv))),
     List.filter (within start end_) (userCreated clk srv)).
Proof. unfold userStamps, userCreated. destruct (mongoConnected srv); reflexivity. Qed.



(** ** Arrays and collections *)

Section Lookup.
Context {A : Type} (p : A -> bool).

Lemma findIndex_find l : find p l = option_map snd (findIndex p l).
Proof.
  induction l as [|x l IH]; [reflexivity|]. cbn [find findIndex].
  destruct (p x); [reflexivity|]. rewrite IH.
  destruct (findIndex p l) as [[i y]|]; reflexivity.
Qed.

Lemma findIndex_Some l i x :
  findIndex p l = Some (i, x) -> l !! i = Some x /\ p x = true /\ find p l = Some x.
Proof.
  intros H. rewrite findIndex_find, H. split; [|split]; [| |reflexivity].
  - revert i H. induction l as [|y l IH]; intros i H; [discriminate|].
    cbn [findIndex] in H. destruct (p y).
    + now injection H as <- <-.
    + destruct (findIndex p l) as [[j z]|]; [|discriminate].
      injection H as <- <-. now apply IH.
  - revert i H. induction l as [|y l IH]; intros i H; [discriminate|].
    cbn [findIndex] in H. destruct (p y) eqn:E.
    + now injection H as <- <-.
    + destruct (findIndex p l) as [[j z]|]; [|discriminate].
      injection H as <- <-. now apply (IH j).
Qed.

Lemma find_Some_findIndex l x :
  find p l = Some x -> exists i, findIndex p l = Some (i, x).
Proof.
  rewrite findIndex_find. destruct (findIndex p l) as [[i y]|]; [|discriminate].
  intros [= <-]. now exists i.
Qed.

Lemma find_None_findIndex l : find p l = None -> findIndex p l = None.
Proof.
  rewrite findIndex_find. now destruct (findIndex p l) as [[i y]|].
Qed.

(** Writing the updated element at the index [findIndex] returned is what
    [findOneAndUpdate] does. *)
Lemma findIndex_update f l i x :
  findIndex p l = Some (i, x) -> findOneAndUpdate p f l = Some (f x, <[i := f x]> l).
Proof.
  revert i. induction l as [|y l IH]; intros i H; [discriminate|].
  cbn [findIndex] in H. cbn [findOneAndUpdate]. destruct (p y).
  - now injection H as <- <-.
  - destruct (findIndex p l) as [[j z]|]; [|discriminate].
    injection H as <- <-. now rewrite (IH j eq_refl).
Qed.

Lemma findIndex_None_update f l :
  findIndex p l = None -> findOneAndUpdate p f l = None.
Proof.
  induction l as [|y l IH]; [reflexivity|]. cbn [findIndex findOneAndUpdate].
  destruct (p y); [discriminate|].
  destruct (findIndex p l) as [[j z]|]; [discriminate|]. intros _. now rewrite IH.
Qed.

Lemma findIndex_None_delete l : findIndex p l = None -> deleteFirst p l = None.
Proof.
  induction l as [|y l IH]; [reflexivity|]. cbn [findIndex deleteFirst].
  destruct (p y); [discriminate|].
  destruct (findIndex p l) as [[j z]|]; [discriminate|]. intros _. now rewrite IH.
Qed.

(** After an update that keeps the filter true, the first match is the
    updated element. *)
Lemma find_insert_found f l i x :
  (forall y, p (f y) = p y) ->
  findIndex p l = Some (i, x) -> find p (<[i := f x]> l) = Some (f x).
Proof.
  intros Hf. revert i. induction l as [|y l IH]; intros i H; [discriminate|].
  cbn [findIndex] in H. destruct (p y) eqn:E.
  - injection H as <- <-. cbn. now rewrite Hf, E.
  - destruct (findIndex p l) as [[j z]|]; [|discriminate].
    injection H as <- <-. cbn. rewrite E. now apply IH.
Qed.

Lemma findIndex_insert_found f l i x :
  (forall y, p (f y) = p y) ->
  findIndex p l = Some (i, x) -> findIndex p (<[i := f x]> l) = Some (i, f x).
Proof.
  intros Hf. revert i. induction l as [|y l IH]; intros i H; [discriminate|].
  cbn [findIndex] in H. destruct (p y) eqn:E.
  - injection H as <- <-. cbn. now rewrite Hf, E.
  - destruct (findIndex p l) as [[j z]|]; [|discriminate].
    injection H as <- <-. specialize (IH j eq_refl).
    change (<[S j := f z]> (y :: l)) with (y :: <[j := f z]> l).
    cbn [findIndex]. now rewrite E, IH.
Qed.

End Lookup.

(** A projection the update leaves alone reads the same on the whole
    array. *)
Lemma map_insert_same {A B} (g : A -> B) (l : list A) i x y :
  l !! i = Some x -> g y = g x -> map g (<[i := y]> l) = map g l.
Proof.
  intros Hl Hg. change (map g) with (fmap (M := list) g).
  rewrite list_fmap_insert, Hg. apply list_insert_id.
  now rewrite list_lookup_fmap, Hl.
Qed.

Lemma filter_length_map {A B} (g : A -> B) (q : B -> bool) (l : list A) :
  length (List.filter (fun a => q (g a)) l) = length (List.filter q (map g l)).
Proof.
  induction l as [|a l IH]; [reflexivity|]. cbn.
  destruct (q (g a)); cbn; now rewrite IH.
Qed.

Lemma putStored_items srv rs its : storedItems (putStored srv rs its) = its.
Proof. destruct srv as [[] db c]; reflexivity. Qed.

Lemma putStored_requests srv rs its : storedRequests (putStored srv rs its) = rs.
Proof. destruct srv as [[] db c]; reflexivity. Qed.

Lemma putStored_same srv : putStored srv (storedRequests srv) (storedItems srv) = srv.
Proof.
  unfold putStored, storedRequests, storedItems.
  destruct srv as [[] [us ms ss rs its] [m c r i u]]; reflexivity.
Qed.

Lemma putStored_mode srv rs its :
  mongoConnected (putStored srv rs its) = mongoConnected srv.
Proof. destruct srv as [[] db c]; reflexivity. Qed.

(** ** Completion *)

(** [completeItem] in either mode, in terms of the answering store. *)
Lemma completeItem_stored id body at_ upd srv :
  completeItem id body at_ upd srv
  = match findIndex (itemById id) (storedItems srv) with
    | None => (Json 404 (BError "Item not found"), srv)
    | Some (i, old) =>
        let item := Item.completed old at_ (completedByOf body) upd in
        (Json 200 (BItem item),
         putStored srv (storedRequests srv) (<[i := item]> (storedItems srv)))
    end.
Proof.
  unfold completeItem, storedItems, storedRequests, putStored.
  fold (itemById id). fold (completedByOf body).
  destruct srv as [[] [us ms ss rs its] [m sd c r it u]]; cbn.
  - destruct (findIndex (itemById id) it) as [[i old]|] eqn:E.
    + now rewrite (findIndex_update _ _ _ _ _ E).
    + now rewrite (findIndex_None_update _ _ _ E).
  - now destruct (findIndex (itemById id) its) as [[i old]|].
Qed.

(** C7.  [complete] answers 404 when no item has the id and leaves the store
    alone; when the item exists it answers 200, sets the status to
    ["completed"] and stamps [completedAt]/[completedBy]; completing the
    same item again succeeds as well and stamps the values of the second
    call over those of the first.  This holds in both modes. *)
Theorem completeItem_restamps :
  forall id body at1 upd1 srv,
    (find (itemById id) (storedItems srv) = None ->
     completeItem id body at1 upd1 srv = (Json 404 (BError "Item not found"), srv))
    /\ (forall old,
          find (itemById id) (storedItems srv) = Some old ->
          let item1 := Item.completed old at1 (completedByOf body) upd1 in
          let srv1 := snd (completeItem id body at1 upd1 srv) in
          fst (completeItem id body at1 upd1 srv) = Json 200 (BItem item1)
          /\ find (itemById id) (storedItems srv1) = Some item1
          /\ Item.status item1 = "completed"
          /\ Item.completedAt item1 = Some at1
          /\ Item.completedBy item1 = Some (completedByOf body)
          /\ forall body2 at2 upd2,
               let item2 := Item.completed old at2 (completedByOf body2) upd2 in
               let srv2 := snd (completeItem id body2 at2 upd2 srv1) in
               fst (completeItem id body2 at2 upd2 srv1) = Json 200 (BItem item2)
               /\ find (itemById id) (storedItems srv2) = Some item2
               /\ Item.completedAt item2 = Some at2
               /\ Item.completedBy item2 = Some (completedByOf body2)).
Proof.
  intros id body at1 upd1 srv. split.
  - intros H. rewrite completeItem_stored, (find_None_findIndex _ _ H). reflexivity.
  - intros old H item1 srv1.
    destruct (find_Some_findIndex _ _ _ H) as [i Hi].
    assert (forall a b u y, itemById id (Item.completed y a b u) = itemById id y) as Hkeep
      by reflexivity.
    assert (srv1 = putStored srv (storedRequests srv) (<[i := item1]> (storedItems srv)))
      as Hsrv1.
    { unfold srv1. rewrite completeItem_stored, Hi. reflexivity. }
    assert (findIndex (itemById id) (storedItems srv1) = Some (i, item1)) as Hi1.
    { rewrite Hsrv1, putStored_items.
      apply (findIndex_insert_found _ (fun y => Item.completed y at1 (completedByOf body) upd1));
        [apply Hkeep|exact Hi]. }
    split. { rewrite completeItem_stored, Hi. reflexivity. }
    split. { now apply findIndex_Some in Hi1. }
    do 3 (split; [reflexivity|]).
    intros body2 at2 upd2 item2 srv2.
    split. { rewrite completeItem_stored, Hi1. reflexivity. }
    split; [|split; reflexivity].
    unfold srv2. rewrite completeItem_stored, Hi1. cbn [snd]. rewrite putStored_items.
    exact (find_insert_found (itemById id)
             (fun y => Item.completed y at2 (completedByOf body2) upd2)
             _ _ _ (Hkeep _ _ _) Hi1).
Qed.

Lemma completeItem_restamps_witness :
  let item := Item.mk "i1" "r1" (JStr "retreat") "active" (JObj [("price", JNum (numZ 120))])
                      (Some 10) (Some (JStr "admin")) None None 11 12 in
  let srv := mkServer false (mkLocalDB [] [] [] [] [item]) (mkCollections [] [] [] [] [] []) in
  find (itemById "i1") (storedItems srv) = Some item
  /\ fst (completeItem "i1" (JObj []) 20 21 srv)
     = Json 200 (BItem (Item.completed item 20 (JStr "admin") 21))
  /\ fst (completeItem "i1" (JObj [("completedBy", JStr "eve")]) 30 31
            (snd (completeItem "i1" (JObj []) 20 21 srv)))
     = Json 200 (BItem (Item.completed item 30 (JStr "eve") 31))
  /\ completeItem "zz" (JObj []) 20 21 srv = (Json 404 (BError "Item not found"), srv).
Proof.
  intros item srv.
  assert (find (itemById "i1") (storedItems srv) = Some item) as H by reflexivity.
  assert (find (itemById "zz") (storedItems srv) = None) as Hz by reflexivity.
  split; [exact H|].
  destruct (completeItem_restamps "i1" (JObj []) 20 21 srv) as [_ Hsome].
  destruct (Hsome item H) as [H1 [_ [_ [_ [_ H2]]]]].
  split; [exact H1|]. split.
  - exact (proj1 (H2 (JObj [("completedBy", JStr "eve")]) 30 31)).
  - exact (proj1 (completeItem_restamps "zz" (JObj []) 20 21 srv) Hz).
Defined.

(** ** Approval *)

Lemma requestById_eq id r : requestById id r = true -> Req.id r = id.
Proof. apply String.eqb_eq. Qed.

(** Approving a request that some item already references: the request is
    stamped in place and the items are not touched, in either mode. *)
Lemma approveRequest_existing id body uuid clk srv i old existing :
  findIndex (requestById id) (storedRequests srv) = Some (i, old) ->
  find (refersTo id) (storedItems srv) = Some existing ->
  approveRequest id body uuid clk srv
  = (Json 200 (BRequest (Req.approved old (atApproved clk) (approvedByOf body)
                                      (atRequestUpdated clk))),
     putStored srv
       (<[i := Req.approved old (atApproved clk) (approvedByOf body) (atRequestUpdated clk)]>
          (storedRequests srv))
       (storedItems srv)).
Proof.
  intros Hi Hex. unfold approveRequest, storedItems, storedRequests, putStored in *.
  fold (requestById id). fold (approvedByOf body). fold (refersTo id).
  destruct srv as [[] [us ms ss rs its] [m sd c r it u]]; cbn in *.
  - rewrite (findIndex_update _ _ _ _ _ Hi). cbn.
    apply findIndex_Some in Hi as [_ [Hp _]]. apply requestById_eq in Hp.
    rewrite Hp. fold (refersTo id). now rewrite Hex.
  - now rewrite Hi, Hex.
Qed.

Lemma approveRequest_missing id body uuid clk srv :
  find (requestById id) (storedRequests srv) = None ->
  approveRequest id body uuid clk srv = (Json 404 (BError "Request not found"), srv).
Proof.
  intros H. apply find_None_findIndex in H.
  unfold approveRequest, storedRequests in *. fold (requestById id).
  destruct srv as [[] [us ms ss rs its] [m sd c r it u]]; cbn in *.
  - now rewrite (findIndex_None_update _ _ _ H).
  - now rewrite H.
Qed.

(** What an approval does to the items: nothing, or one new item for the
    approved request when none referenced it. *)
Lemma approveRequest_items id body uuid clk srv :
  storedItems (snd (approveRequest id body uuid clk srv)) = storedItems srv
  \/ (find (refersTo id) (storedItems srv) = None
      /\ exists new, Item.requestId new = id
                     /\ Item.createdAt new = atItemCreated clk
                     /\ (storedItems (snd (approveRequest id body uuid clk srv))
                         = new :: storedItems srv /\ mongoConnected srv = false
                         \/ storedItems (snd (approveRequest id body uuid clk srv))
                            = app (storedItems srv) [new] /\ mongoConnected srv = true)).
Proof.
  unfold approveRequest, storedItems.
  fold (requestById id). fold (approvedByOf body). fold (refersTo id).
  destruct srv as [[] [us ms ss rs its] [m sd c r it u]]; cbn.
  - destruct (findOneAndUpdate _ _ r) as [[request requests]|] eqn:Hu; cbn; [|now left].
    assert (Req.id request = id) as Hid.
    { destruct (findIndex (requestById id) r) as [[i old]|] eqn:Hi.
      - rewrite (findIndex_update _ _ _ _ _ Hi) in Hu. injection Hu as <- _.
        apply findIndex_Some in Hi as [_ [Hp _]]. now apply requestById_eq in Hp.
      - now rewrite (findIndex_None_update _ _ _ Hi) in Hu. }
    rewrite Hid. fold (refersTo id).
    destruct (find (refersTo id) it) eqn:Hex; cbn; [now left|].
    match goal with |- context [saveItem ?x it] => destruct (saveItem x it) eqn:Hs end;
      cbn; [now left|].
    right. split; [reflexivity|]. unfold saveItem in Hs.
    repeat match type of Hs with (if ?b then _ else _) = _ => destruct b end;
      try discriminate.
    injection Hs as <-. eexists. split; [|split; [|right; split; reflexivity]]; reflexivity.
  - destruct (findIndex (requestById id) rs) as [[i old]|] eqn:Hi; cbn; [|now left].
    destruct (find (refersTo id) its) eqn:Hex; cbn; [now left|].
    right. split; [reflexivity|].
    eexists. split; [|split; [|left; split; reflexivity]]; reflexivity.
Qed.

Lemma find_None_filter {A} (p : A -> bool) l : find p l = None -> List.filter p l = [].
Proof.
  induction l as [|x l IH]; [reflexivity|]. cbn.
  destruct (p x); [discriminate|]. exact IH.
Qed.

Lemma find_app {A} (p : A -> bool) l1 l2 :
  find p (app l1 l2) = match find p l1 with Some x => Some x | None => find p l2 end.
Proof.
  induction l1 as [|x l1 IH]; [reflexivity|]. cbn. now destruct (p x).
Qed.

Lemma find_Some_filter {A} (p : A -> bool) l x :
  find p l = Some x -> (1 <= length (List.filter p l))%nat.
Proof.
  induction l as [|y l IH]; [discriminate|]. cbn.
  destruct (p y); cbn; [lia|]. exact IH.
Qed.

(** One approval never takes the number of items that reference a request
    above one. *)
Lemma approveRequest_referencing rid id body uuid clk srv :
  (length (referencing rid srv) <= 1)%nat ->
  (length (referencing rid (snd (approveRequest id body uuid clk srv))) <= 1)%nat.
Proof.
  intros H. unfold referencing in *. fold (refersTo rid) in *.
  destruct (approveRequest_items id body uuid clk srv)
    as [->|[Hnone [new [Hid [_ [[-> _]|[-> _]]]]]]]; [exact H| |].
  - cbn. unfold refersTo at 1. rewrite Hid.
    destruct (String.eqb_spec id rid) as [->|Hne]; [|exact H].
    fold (refersTo rid). rewrite (find_None_filter _ _ Hnone). cbn. lia.
  - rewrite List.filter_app, length_app. cbn. unfold refersTo at 2. rewrite Hid.
    destruct (String.eqb_spec id rid) as [->|Hne]; cbn; [|lia].
    fold (refersTo rid). rewrite (find_None_filter _ _ Hnone). cbn. lia.
Qed.

(** The marketplace calls other than an approval leave every projection of
    the items that a completion does not write as it is. *)
Lemma handle_keeps {B} (g : Item.t -> B) c srv :
  (forall y a b u, g (Item.completed y a b u) = g y) ->
  (forall id body uuid clk, c <> Approve id body uuid clk) ->
  map g (storedItems (snd (handle c srv))) = map g (storedItems srv).
Proof.
  intros Hg Hc.
  destruct c as [body uuid n1 n2|id body uuid clk|id|id body a u]; cbn [handle].
  - unfold postRequest, storedItems.
    destruct (negb (truthy (jsGet body "type")) || negb (truthy (jsGet body "data")));
      [reflexivity|].
    destruct srv as [[] [us ms ss rs its] [m sd cn r it us']]; cbn; [|reflexivity].
    match goal with |- context [saveRequest ?x ?l] => destruct (saveRequest x l) end;
      reflexivity.
  - now destruct (Hc id body uuid clk).
  - unfold deleteRequest, storedItems.
    destruct srv as [[] [us ms ss rs its] [m sd cn r it us']]; cbn.
    + destruct (deleteFirst _ r) as [[y l]|]; reflexivity.
    + destruct (findIndex _ rs) as [[i y]|]; reflexivity.
  - rewrite completeItem_stored.
    destruct (findIndex (itemById id) (storedItems srv)) as [[i old]|] eqn:Hi;
      [|reflexivity].
    cbn [snd]. rewrite putStored_items.
    apply findIndex_Some in Hi as [Hl _].
    now apply (map_insert_same g _ _ old).
Qed.

Lemma handle_requestIds c srv :
  (forall id body uuid clk, c <> Approve id body uuid clk) ->
  map Item.requestId (storedItems (snd (handle c srv)))
  = map Item.requestId (storedItems srv).
Proof. now apply handle_keeps. Qed.

Lemma handle_referencing rid c srv :
  (length (referencing rid srv) <= 1)%nat ->
  (length (referencing rid (snd (handle c srv))) <= 1)%nat.
Proof.
  intros H. destruct c as [body uuid n1 n2|id body uuid clk|id|id body a u].
  - unfold referencing in *.
    rewrite (filter_length_map Item.requestId (fun r => String.eqb r rid)) in *.
    now rewrite handle_requestIds.
  - now apply approveRequest_referencing.
  - unfold referencing in *.
    rewrite (filter_length_map Item.requestId (fun r => String.eqb r rid)) in *.
    now rewrite handle_requestIds.
  - unfold referencing in *.
    rewrite (filter_length_map Item.requestId (fun r => String.eqb r rid)) in *.
    now rewrite handle_requestIds.
Qed.

Lemma run_referencing rid calls : forall srv,
  (length (referencing rid srv) <= 1)%nat ->
  (length (referencing rid (run calls srv)) <= 1)%nat.
Proof.
  induction calls as [|c calls IH]; intros srv H; [exact H|].
  cbn [run fold_left]. apply IH. now apply handle_referencing.
Qed.

(** An approval that answers 200 leaves an item that references the
    request. *)
Lemma approveRequest_ok_item id body uuid clk srv r :
  fst (approveRequest id body uuid clk srv) = Json 200 (BRequest r) ->
  exists item, find (refersTo id) (storedItems (snd (approveRequest id body uuid clk srv)))
               = Some item.
Proof.
  unfold approveRequest, storedItems.
  fold (requestById id). fold (approvedByOf body). fold (refersTo id).
  destruct srv as [[] [us ms ss rs its] [m sd c rq it u]]; cbn.
  - destruct (findOneAndUpdate _ _ rq) as [[request requests]|] eqn:Hu; cbn;
      [|discriminate].
    assert (Req.id request = id) as Hid.
    { destruct (findIndex (requestById id) rq) as [[i old]|] eqn:Hi.
      - rewrite (findIndex_update _ _ _ _ _ Hi) in Hu. injection Hu as <- _.
        apply findIndex_Some in Hi as [_ [Hp _]]. now apply requestById_eq in Hp.
      - now rewrite (findIndex_None_update _ _ _ Hi) in Hu. }
    rewrite Hid. fold (refersTo id).
    destruct (find (refersTo id) it) eqn:Hex; cbn; [intros _; eauto|].
    match goal with |- context [saveItem ?x it] => destruct (saveItem x it) eqn:Hs end;
      cbn; [discriminate|].
    intros _. unfold saveItem in Hs.
    repeat match type of Hs with (if ?b then _ else _) = _ => destruct b end;
      try discriminate.
    injection Hs as <-. eexists.
    rewrite find_app, Hex. cbn. now rewrite String.eqb_refl.
  - destruct (findIndex (requestById id) rs) as [[i old]|] eqn:Hi; cbn; [|discriminate].
    intros _. destruct (find (refersTo id) its) eqn:Hex; cbn; [eauto|].
    unfold refersTo at 1. cbn. rewrite String.eqb_refl. eauto.
Qed.

(** C1.  In either mode, from a store in which at most one item references
    a request, any sequence of marketplace calls served one after the other
    (approvals of that request among them) leaves at most one item that
    references it; and once an approval of the request has succeeded,
    exactly one item references it and a further approval adds none. *)
Theorem approve_materializes_once :
  forall rid srv,
    (length (referencing rid srv) <= 1)%nat ->
    (forall calls, (length (referencing rid (run calls srv)) <= 1)%nat)
    /\ (forall body1 uuid1 clk1 r,
          fst (approveRequest rid body1 uuid1 clk1 srv) = Json 200 (BRequest r) ->
          let srv1 := snd (approveRequest rid body1 uuid1 clk1 srv) in
          length (referencing rid srv1) = 1%nat
          /\ forall body2 uuid2 clk2,
               storedItems (snd (approveRequest rid body2 uuid2 clk2 srv1))
               = storedItems srv1).
Proof.
  intros rid srv H. split; [intros calls; now apply run_referencing|].
  intros body1 uuid1 clk1 r Hok srv1.
  destruct (approveRequest_ok_item _ _ _ _ _ _ Hok) as [item Hitem]. fold srv1 in Hitem.
  split.
  - pose proof (approveRequest_referencing rid rid body1 uuid1 clk1 srv H) as Hle.
    fold srv1 in Hle. pose proof (find_Some_filter _ _ _ Hitem) as Hge.
    unfold referencing in *. fold (refersTo rid) in *. lia.
  - intros body2 uuid2 clk2.
    destruct (approveRequest_items rid body2 uuid2 clk2 srv1) as [E|[Hnone _]];
      [exact E|congruence].
Qed.

Lemma approve_materializes_once_witness :
  let request := Req.mk "r1" (JStr "retreat") "pending" (JStr "")
                        (JObj [("price", JNum (numZ 120))]) None None 90 90 in
  let srv := mkServer false (mkLocalDB [] [] [] [request] []) (mkCollections [] [] [] [] [] []) in
  (length (referencing "r1" srv) <= 1)%nat
  /\ (length (referencing "r1"
                (run [Approve "r1" (JObj []) "i1" (mkApproveClock 100 101 102 103);
                      Approve "r1" (JObj []) "i2" (mkApproveClock 200 201 202 203)] srv))
      <= 1)%nat.
Proof.
  intros request srv.
  assert (length (referencing "r1" srv) <= 1)%nat as H by (vm_compute; lia).
  split; [exact H|].
  exact (proj1 (approve_materializes_once "r1" srv H) _).
Defined.

(** C9, counterexample.  Approving a request again also overwrites its
    [updatedAt]: the other fields of the request do not all stay as they
    were. *)
Lemma approve_again_touches_updatedAt :
  let old := Req.mk "r1" (JStr "retreat") "approved" (JStr "")
                    (JObj [("price", JNum (numZ 120))]) (Some 100) (Some (JStr "admin"))
                    90 101 in
  let item := Item.mk "i1" "r1" (JStr "retreat") "active"
                      (JObj [("price", JNum (numZ 120))]) (Some 100) (Some (JStr "admin"))
                      None None 102 103 in
  let srv := mkServer false (mkLocalDB [] [] [] [old] [item])
                      (mkCollections [] [] [] [] [] []) in
  let srv' := snd (approveRequest "r1" (JObj []) "i2" (mkApproveClock 200 201 202 203) srv) in
  find (requestById "r1") (storedRequests srv) = Some old
  /\ Req.status old = "approved"
  /\ exists new, find (requestById "r1") (storedRequests srv') = Some new
                 /\ Req.updatedAt new <> Req.updatedAt old.
Proof.
  intros old item srv srv'. split; [reflexivity|]. split; [reflexivity|].
  eexists. split; [vm_compute; reflexivity|]. cbn. lia.
Qed.

(** C9 (amended).  Approving a request that is already approved and already
    has its item succeeds in either mode; it overwrites [approvedAt] and
    [approvedBy] with the values of the new call and refreshes [updatedAt];
    the request's [id], [type], [status], [userId], [data] and [createdAt],
    every other request and all items stay as they were. *)
Theorem approve_again_restamps :
  forall id body uuid clk srv old existing,
    find (requestById id) (storedRequests srv) = Some old ->
    Req.status old = "approved" ->
    find (refersTo id) (storedItems srv) = Some existing ->
    let r := Req.approved old (atApproved clk) (approvedByOf body) (atRequestUpdated clk) in
    let srv' := snd (approveRequest id body uuid clk srv) in
    fst (approveRequest id body uuid clk srv) = Json 200 (BRequest r)
    /\ Req.approvedAt r = Some (atApproved clk)
    /\ Req.approvedBy r = Some (approvedByOf body)
    /\ Req.updatedAt r = atRequestUpdated clk
    /\ (Req.id r, Req.type r, Req.status r, Req.userId r, Req.data r, Req.createdAt r)
       = (Req.id old, Req.type old, Req.status old, Req.userId old, Req.data old,
          Req.createdAt old)
    /\ (exists i, storedRequests srv !! i = Some old
                  /\ storedRequests srv' = <[i := r]> (storedRequests srv))
    /\ find (requestById id) (storedRequests srv') = Some r
    /\ storedItems srv' = storedItems srv.
Proof.
  intros id body uuid clk srv old existing Hreq Hst Hitem r srv'.
  destruct (find_Some_findIndex _ _ _ Hreq) as [i Hi].
  pose proof (approveRequest_existing id body uuid clk srv i old existing Hi Hitem) as E.
  fold r in E. unfold srv'. rewrite E. cbn [fst snd].
  rewrite putStored_requests, putStored_items.
  split; [reflexivity|]. do 3 (split; [reflexivity|]).
  split. { cbn. now rewrite Hst. }
  split. { exists i. split; [now apply findIndex_Some in Hi|reflexivity]. }
  split; [|reflexivity].
  exact (find_insert_found (requestById id)
           (fun y => Req.approved y (atApproved clk) (approvedByOf body) (atRequestUpdated clk))
           _ _ _ (fun y => eq_refl) Hi).
Qed.

Lemma approve_again_restamps_witness :
  let old := Req.mk "r1" (JStr "retreat") "approved" (JStr "")
                    (JObj [("price", JNum (numZ 120))]) (Some 100) (Some (JStr "admin"))
                    90 101 in
  let item := Item.mk "i1" "r1" (JStr "retreat") "active"
                      (JObj [("price", JNum (numZ 120))]) (Some 100) (Some (JStr "admin"))
                      None None 102 103 in
  let srv := mkServer true (mkLocalDB [] [] [] [] []) (mkCollections [] [] [] [old] [item] []) in
  let clk := mkApproveClock 200 201 202 203 in
  let body := JObj [("approvedBy", JStr "eve")] in
  find (requestById "r1") (storedRequests srv) = Some old
  /\ Req.status old = "approved"
  /\ find (refersTo "r1") (storedItems srv) = Some item
  /\ fst (approveRequest "r1" body "i2" clk srv)
     = Json 200 (BRequest (Req.approved old 200 (JStr "eve") 201))
  /\ storedItems (snd (approveRequest "r1" body "i2" clk srv)) = [item].
Proof.
  intros old item srv clk body.
  assert (find (requestById "r1") (storedRequests srv) = Some old) as H1 by reflexivity.
  assert (Req.status old = "approved") as H2 by reflexivity.
  assert (find (refersTo "r1") (storedItems srv) = Some item) as H3 by reflexivity.
  split; [exact H1|]. split; [exact H2|]. split; [exact H3|].
  destruct (approve_again_restamps "r1" body "i2" clk srv old item H1 H2 H3)
    as [Ha [_ [_ [_ [_ [_ [_ Hb]]]]]]].
  split; [exact Ha|exact Hb].
Defined.

(** ** Listing items *)

Lemma dbInsertDescBy_perm {A} (tie : A -> A -> bool) (stamp : A -> Z) x l :
  Permutation (dbInsertDescBy tie stamp x l) (x :: l).
Proof.
  induction l as [|y l IH]; [reflexivity|]. cbn [dbInsertDescBy].
  destruct ((stamp y <? stamp x) || ((stamp y =? stamp x) && tie x y)); [reflexivity|].
  rewrite IH. apply perm_swap.
Qed.

Lemma dbSortDescBy_perm {A} (tie : A -> A -> bool) (stamp : A -> Z) l :
  Permutation (dbSortDescBy tie stamp l) l.
Proof.
  induction l as [|x l IH]; [reflexivity|]. cbn.
  rewrite dbInsertDescBy_perm. now constructor.
Qed.

Lemma dbInsertDescBy_descending {A} (tie : A -> A -> bool) (stamp : A -> Z) x l :
  descendingBy stamp l -> descendingBy stamp (dbInsertDescBy tie stamp x l).
Proof.
  unfold descendingBy. induction l as [|y l IH]; intros H.
  - cbn. repeat constructor.
  - cbn [dbInsertDescBy]. cbn [map] in H. apply StronglySorted_inv in H as [Hs Hall].
    destruct ((stamp y <? stamp x) || ((stamp y =? stamp x) && tie x y)) eqn:E.
    + assert (stamp y <= stamp x) as Hle.
      { apply orb_true_iff in E as [E|E]; [apply Z.ltb_lt in E; lia|].
        apply andb_true_iff in E as [E _]. apply Z.eqb_eq in E. lia. }
      cbn [map]. constructor; [now constructor|].
      constructor; [lia|]. eapply List.Forall_impl; [|exact Hall]. cbn. intros z Hz. lia.
    + assert (stamp x <= stamp y) as Hle.
      { apply orb_false_iff in E as [E _]. apply Z.ltb_ge in E. lia. }
      cbn [map]. constructor; [now apply IH|].
      assert (Forall (fun z => stamp y >= z) (map stamp (x :: l))) as Hx
        by (cbn [map]; constructor; [lia|exact Hall]).
      eapply Permutation_Forall; [|exact Hx].
      apply Permutation_map. symmetry. apply dbInsertDescBy_perm.
Qed.

Lemma dbSortDescBy_descending {A} (tie : A -> A -> bool) (stamp : A -> Z) l :
  descendingBy stamp (dbSortDescBy tie stamp l).
Proof.
  induction l as [|x l IH]; [constructor|]. cbn. now apply dbInsertDescBy_descending.
Qed.

Lemma filter_descending p l : descending l -> descending (List.filter p l).
Proof.
  unfold descending. induction l as [|x l IH]; intros H; [constructor|].
  cbn [map] in H. apply StronglySorted_inv in H as [Hs Hall]. cbn [List.filter].
  destruct (p x); [|now apply IH].
  cbn [map]. constructor; [now apply IH|].
  rewrite List.Forall_forall in *. intros z Hz. apply Hall.
  apply in_map_iff in Hz as [it [<- Hin]]. apply in_map.
  now apply List.filter_In in Hin.
Qed.

Lemma descending_newestFirst l : descending l -> newestFirst l.
Proof.
  unfold descending, newestFirst. induction l as [|x l IH]; intros H i j a b Hij Ha Hb.
  - discriminate.
  - cbn [map] in H. apply StronglySorted_inv in H as [Hs Hall].
    destruct j as [|j]; [lia|]. cbn in Hb. destruct i as [|i].
    + cbn in Ha. injection Ha as <-.
      rewrite List.Forall_forall in Hall.
      assert (Item.createdAt x >= Item.createdAt b); [|lia].
      apply Hall. apply in_map. apply list_elem_of_In. now apply list_elem_of_lookup_2 in Hb.
    + cbn in Ha. apply (IH Hs i j); [lia|exact Ha|exact Hb].
Qed.

Lemma nondecreasing_cons a l :
  nondecreasing (a :: l) = true ->
  nondecreasing l = true /\ Forall (fun c => a <= c) l.
Proof.
  revert a. induction l as [|b l IH]; intros a H; [now split|].
  cbn [nondecreasing] in H. apply andb_true_iff in H as [Hab H]. apply Z.leb_le in Hab.
  split; [exact H|]. constructor; [exact Hab|].
  destruct (IH b H) as [_ Hall]. eapply List.Forall_impl; [|exact Hall]. cbn. intros; lia.
Qed.

Lemma nondecreasing_from a b l :
  a <= b -> nondecreasing (b :: l) = true -> nondecreasing (a :: b :: l) = true.
Proof.
  intros Hab H. cbn [nondecreasing]. apply andb_true_iff.
  split; [now apply Z.leb_le|exact H].
Qed.

Lemma settled_later T T' srv : T <= T' -> settled T srv -> settled T' srv.
Proof.
  intros Hle [Hd Hall]. split; [exact Hd|].
  eapply List.Forall_impl; [|exact Hall]. cbn. intros; lia.
Qed.

Lemma handle_mode c srv : mongoConnected (snd (handle c srv)) = mongoConnected srv.
Proof.
  destruct c as [body uuid n1 n2|id body uuid clk|id|id body a u]; cbn [handle].
  - unfold postRequest.
    destruct (negb (truthy (jsGet body "type")) || negb (truthy (jsGet body "data")));
      [reflexivity|].
    destruct srv as [[] db c]; cbn; [|reflexivity].
    match goal with |- context [saveRequest ?x ?l] => destruct (saveRequest x l) end;
      reflexivity.
  - unfold approveRequest. destruct srv as [[] db c]; cbn.
    + destruct (findOneAndUpdate _ _ _) as [[request requests]|]; [|reflexivity].
      cbn. destruct (find _ _); [reflexivity|].
      match goal with |- context [saveItem ?x ?l] => destruct (saveItem x l) end;
        reflexivity.
    + destruct (findIndex _ _) as [[i old]|]; reflexivity.
  - unfold deleteRequest. destruct srv as [[] db c]; cbn.
    + destruct (deleteFirst _ _) as [[y l]|]; reflexivity.
    + destruct (findIndex _ _) as [[i y]|]; reflexivity.
  - rewrite completeItem_stored. destruct (findIndex _ _) as [[i old]|]; [|reflexivity].
    apply putStored_mode.
Qed.

Lemma run_mode calls : forall srv, mongoConnected (run calls srv) = mongoConnected srv.
Proof.
  induction calls as [|c calls IH]; intros srv; [reflexivity|].
  cbn [run fold_left]. fold (run calls (snd (handle c srv))). now rewrite IH, handle_mode.
Qed.

(** One call of the local store, its readings not before [T]: the items stay
    in descending order of creation. *)
Lemma handle_settled c srv T rest :
  mongoConnected srv = false ->
  nondecreasing (T :: app (readings c) rest) = true ->
  settled T srv ->
  exists T', settled T' (snd (handle c srv)) /\ nondecreasing (T' :: rest) = true.
Proof.
  intros Hmode Hclock Hset.
  destruct c as [body uuid n1 n2|id body uuid clk|id|id body a u].
  - cbn [readings app] in Hclock.
    pose proof (nondecreasing_cons _ _ Hclock) as [H1 Hall1].
    pose proof (nondecreasing_cons _ _ H1) as [H2 Hall2].
    exists n2. split; [|exact H2].
    apply Forall_inv in Hall1, Hall2.
    destruct Hset as [Hd Hall]. unfold settled, descending.
    rewrite (handle_keeps Item.createdAt) by (reflexivity || discriminate).
    split; [exact Hd|]. eapply List.Forall_impl; [|exact Hall]. cbn. intros; lia.
  - cbn [readings app] in Hclock.
    pose proof (nondecreasing_cons _ _ Hclock) as [H1 Hall1].
    pose proof (nondecreasing_cons _ _ H1) as [H2 Hall2].
    pose proof (nondecreasing_cons _ _ H2) as [H3 Hall3].
    pose proof (nondecreasing_cons _ _ H3) as [H4 Hall4].
    apply Forall_inv in Hall1, Hall2, Hall3, Hall4.
    exists (atItemUpdated clk). split; [|exact H4].
    destruct Hset as [Hd Hall]. unfold settled, descending. cbn [handle].
    destruct (approveRequest_items id body uuid clk srv)
      as [->|[_ [new [_ [Hc [[-> _]|[_ Hm]]]]]]]; [| |congruence].
    + split; [exact Hd|]. eapply List.Forall_impl; [|exact Hall]. cbn. intros; lia.
    + cbn [map]. rewrite Hc. split.
      * constructor; [exact Hd|]. eapply List.Forall_impl; [|exact Hall]. cbn. intros; lia.
      * constructor; [lia|]. eapply List.Forall_impl; [|exact Hall]. cbn. intros; lia.
  - cbn [readings app] in Hclock. exists T. split; [|exact Hclock].
    destruct Hset as [Hd Hall]. unfold settled, descending.
    rewrite (handle_keeps Item.createdAt) by (reflexivity || discriminate). now split.
  - cbn [readings app] in Hclock.
    pose proof (nondecreasing_cons _ _ Hclock) as [H1 Hall1].
    pose proof (nondecreasing_cons _ _ H1) as [H2 Hall2].
    exists u. split; [|exact H2].
    apply Forall_inv in Hall1, Hall2.
    destruct Hset as [Hd Hall]. unfold settled, descending.
    rewrite (handle_keeps Item.createdAt) by (reflexivity || discriminate).
    split; [exact Hd|]. eapply List.Forall_impl; [|exact Hall]. cbn. intros; lia.
Qed.

Lemma run_settled calls : forall srv T,
  mongoConnected srv = false ->
  nondecreasing (T :: concat (map readings calls)) = true ->
  settled T srv ->
  exists T', settled T' (run calls srv).
Proof.
  induction calls as [|c calls IH]; intros srv T Hmode Hclock Hset; [now exists T|].
  cbn [map concat] in Hclock.
  destruct (handle_settled c srv T _ Hmode Hclock Hset) as [T' [Hset' Hclock']].
  cbn [run fold_left]. fold (run calls (snd (handle c srv))).
  apply (IH _ T'); [now rewrite handle_mode|exact Hclock'|exact Hset'].
Qed.

(** C8, counterexample.  The two modes do not list the items in the same
    order.  The connected branch sorts by creation time; the local branch
    filters the array as it stands, newest insertion first.  When the clock
    steps back between two approvals the local listing is not newest first
    by creation time: the item created at 52 comes before the item created
    at 101, where the connected listing of the same calls has them the other
    way round, whatever order the database gives to equal stamps. *)
Theorem listItems_order_differs :
  let calls :=
    [Submit (JObj [("type", JStr "retreat"); ("data", JObj [("price", JNum (numZ 120))])])
            "r1" 10 10;
     Submit (JObj [("type", JStr "session"); ("data", JObj [("price", JNum (numZ 30))])])
            "r2" 11 11;
     Approve "r1" (JObj []) "i1" (mkApproveClock 100 100 101 101);
     Approve "r2" (JObj []) "i2" (mkApproveClock 50 51 52 52)] in
  let none := mkCollections [] [] [] [] [] [] in
  let degraded := run calls (boot false "a0" "hash" none) in
  let connected := run calls (boot true "a0" "hash" none) in
  let stamps items := map (fun item => (Item.id item, Item.createdAt item)) items in
  (forall tie,
   exists items,
     listItems tie None degraded = (Json 200 (BItems items), degraded)
     /\ stamps items = [("i2", 52); ("i1", 101)]
     /\ ~ newestFirst items)
  /\ (forall tie,
      exists items,
        listItems tie None connected = (Json 200 (BItems items), connected)
        /\ stamps items = [("i1", 101); ("i2", 52)]
        /\ newestFirst items).
Proof.
  cbv zeta. split; intros tie; eexists; (split; [vm_compute; reflexivity|]);
    (split; [vm_compute; reflexivity|]).
  - intros H. specialize (H 0%nat 1%nat _ _ ltac:(lia) eq_refl eq_refl).
    vm_compute in H. now apply H.
  - intros i j x y Hij Hi Hj.
    destruct i as [|[|i]]; destruct j as [|[|j]]; try lia; cbn in Hi, Hj;
      try discriminate.
    injection Hi as <-. injection Hj as <-. vm_compute. discriminate.
Qed.

(** C8, amended.  In either mode, after any sequence of marketplace calls
    served from start-up, the item listing returns exactly the stored items
    whose status is the one asked for, ["active"] when none or an empty one
    is given.  A connected server returns them newest first by creation
    time, whatever order the database gives to equal stamps.  A degraded
    server returns them in the order of the local array, and this is newest
    first by creation time when the clock readings taken by the calls never
    go back. *)
Theorem listItems_newest_first :
  forall connected uuid hashed db0 calls query tie,
    let srv := run calls (boot connected uuid hashed db0) in
    let status := match query with
                  | None | Some "" => "active"
                  | Some given => given
                  end in
    let wanted :=
      List.filter (fun item => String.eqb (Item.status item) status) (storedItems srv) in
    exists items,
      listItems tie query srv = (Json 200 (BItems items), srv)
      /\ Permutation items wanted
      /\ (connected = false -> items = wanted)
      /\ (connected = true \/ chronological calls = true -> newestFirst items).
Proof.
  intros connected uuid hashed db0 calls query tie srv status wanted.
  assert (statusOrActive query = status) as Hstatus.
  { unfold statusOrActive, status. destruct query as [[|a s]|]; reflexivity. }
  assert (mongoConnected srv = connected) as Hmode by (unfold srv; now rewrite run_mode).
  unfold wanted, listItems, storedItems. rewrite Hmode, Hstatus.
  destruct connected; cbn [negb].
  - eexists. split; [reflexivity|]. split; [apply dbSortDescBy_perm|].
    split; [discriminate|]. intros _.
    apply descending_newestFirst, dbSortDescBy_descending.
  - eexists. split; [reflexivity|]. split; [reflexivity|]. split; [reflexivity|].
    intros [Hc|Hclock]; [discriminate|].
    apply descending_newestFirst, filter_descending.
    assert (exists T, settled T srv) as [T [Hd _]].
    { unfold srv. unfold chronological in Hclock.
      apply (run_settled calls _ (hd 0 (concat (map readings calls)))); [reflexivity| |].
      - destruct (concat (map readings calls)) as [|t l]; [reflexivity|].
        cbn [hd]. apply nondecreasing_from; [lia|exact Hclock].
      - split; constructor. }
    unfold storedItems in Hd. now rewrite Hmode in Hd.
Qed.

Lemma listItems_newest_first_witness :
  let calls :=
    [Submit (JObj [("type", JStr "retreat"); ("data", JObj [("price", JNum (numZ 120))])])
            "r1" 10 10;
     Submit (JObj [("type", JStr "session"); ("data", JObj [("price", JNum (numZ 30))])])
            "r2" 11 12;
     Submit (JObj [("type", JStr "product"); ("data", JObj [("price", JNum (numZ 5))])])
            "r3" 13 14;
     Approve "r1" (JObj []) "i1" (mkApproveClock 20 20 21 21);
     Approve "r2" (JObj []) "i2" (mkApproveClock 30 31 32 33);
     Approve "r3" (JObj []) "i3" (mkApproveClock 34 35 36 37);
     Complete "i1" (JObj []) 40 41] in
  let srv := run calls (boot false "a0" "hash" (mkCollections [] [] [] [] [] [])) in
  let tie := fun _ _ : Item.t => true in
  chronological calls = true
  /\ map (fun item => (Item.id item, Item.status item)) (storedItems srv)
     = [("i3", "active"); ("i2", "active"); ("i1", "completed")]
  /\ (exists items,
        listItems tie None srv = (Json 200 (BItems items), srv)
        /\ map Item.id items = ["i3"; "i2"] /\ newestFirst items)
  /\ (exists items,
        listItems tie (Some "completed") srv = (Json 200 (BItems items), srv)
        /\ map Item.id items = ["i1"] /\ newestFirst items).
Proof.
  intros calls srv tie.
  assert (chronological calls = true) as Hc by reflexivity.
  split; [exact Hc|]. split; [reflexivity|]. split.
  - destruct (listItems_newest_first false "a0" "hash" (mkCollections [] [] [] [] [] [])
                calls None tie) as [items [Hl [_ [_ Hn]]]].
    exists items. split; [exact Hl|]. split; [|exact (Hn (or_intror Hc))].
    fold srv in Hl. vm_compute in Hl. injection Hl as <-. reflexivity.
  - destruct (listItems_newest_first false "a0" "hash" (mkCollections [] [] [] [] [] [])
                calls (Some "completed") tie) as [items [Hl [_ [_ Hn]]]].
    exists items. split; [exact Hl|]. split; [|exact (Hn (or_intror Hc))].
    fold srv in Hl. vm_compute in Hl. injection Hl as <-. reflexivity.
Defined.

(** ** Absent identifiers *)

Lemma find_None_update {A} (p : A -> bool) f l :
  find p l = None -> findOneAndUpdate p f l = None.
Proof. intros H. now apply findIndex_None_update, find_None_findIndex. Qed.

Lemma find_None_delete {A} (p : A -> bool) l :
  find p l = None -> deleteFirst p l = None.
Proof. intros H. now apply findIndex_None_delete, find_None_findIndex. Qed.

Lemma orEmpty_Some s : orEmpty (Some s) = s.
Proof. unfold orEmpty, orDefault. now destruct (String.eqb_spec s ""). Qed.

(** C2, counterexample.  On identifiers that the store does not hold, a
    route may answer something else than not-found: updating a content
    entry creates it and answers 200; an update whose patch the validators
    refuse, and a status update without a status, are refused before the
    store is asked; and on a degraded server the routes of meditations,
    sounds, companion applications and content entries, which have no local
    branch, fail for want of a connection. *)
Lemma absent_id_counterexample :
  let none := mkCollections [] [] [] [] [] [] in
  let connected := mkServer true (mkLocalDB [] [] [] [] []) none in
  let degraded := mkServer false (mkLocalDB [] [] [] [] []) none in
  let patch := Med.mkPatch (Some "Calm") None None None None None None None None in
  let untitled := Med.mkPatch (Some "") None None None None None None None None in
  let sound := Snd.mkPatch (Some "Rain") None None None None None None None None None None in
  let renamed :=
    App.mkPatch (Some "Asha") None None None None None None None None None None None None
                None None None None None None None None None None in
  (find (fun c => String.eqb (Cont.key c) "hero") (Content (mongo connected)) = None
   /\ fst (putContent "hero" (JStr "Hi") None None JUndefined 5 connected)
      = Json 200 (BContent (Cont.mk "hero" "text" (JStr "Hi") "general" JUndefined 5 5))
   /\ Content (mongo (snd (putContent "hero" (JStr "Hi") None None JUndefined 5 connected)))
      = [Cont.mk "hero" "text" (JStr "Hi") "general" JUndefined 5 5])
  /\ (find (fun m => String.eqb (Med.id m) "m1") (Meditation (mongo connected)) = None
      /\ putMeditation "m1" untitled 5 connected = (Rejected ValidationError, connected)
      /\ patchApplicationStatus "a1" None 5 connected []
         = (AppError 400 "status is required", []))
  /\ (find (fun m => String.eqb (Med.id m) "m1") (meditations (localDB degraded)) = None
      /\ putMeditation "m1" patch 5 degraded = (Rejected BufferTimeout, degraded)
      /\ deleteMeditation "m1" degraded = (Rejected BufferTimeout, degraded)
      /\ putSound "s1" sound 5 degraded = (Rejected BufferTimeout, degraded)
      /\ deleteSound "s1" degraded = (Rejected BufferTimeout, degraded)
      /\ getContent "hero" degraded = (Json 500 (BThrown BufferTimeout), degraded)
      /\ deleteContent "hero" degraded = (Json 500 (BThrown BufferTimeout), degraded)
      /\ getApplication "a1" degraded [] = (AppRejected BufferTimeout, [])
      /\ putApplication "a1" renamed 5 degraded [] = (AppRejected BufferTimeout, [])
      /\ patchApplicationStatus "a1" (Some "approved") 5 degraded []
         = (AppRejected BufferTimeout, [])
      /\ deleteApplication "a1" degraded [] = (AppRejected BufferTimeout, [])).
Proof. cbv zeta. repeat split. Qed.

(** C2 (amended).  On an identifier the answering store does not hold:
    on a connected server, updating (with a patch the schema validators
    accept) or deleting a meditation or a sound, reading, updating (with
    such a patch), re-statusing (with a status) or deleting a companion
    application, and reading or deleting a content entry, answer 404 and
    change nothing; in both modes, reading, deleting or approving a
    marketplace request and completing a marketplace item answer 404 and
    change nothing.  Updating a content entry under an absent key inserts
    the entry and answers 200.  On a degraded server the routes of
    meditations, sounds, companion applications and content entries answer
    no 404: an update is rejected by the validators when its patch is
    invalid, and every other call fails for want of a connection, changing
    nothing. *)
Theorem absent_id_not_found :
  forall id srv apps,
    (mongoConnected srv = true ->
     find (fun m => String.eqb (Med.id m) id) (Meditation (mongo srv)) = None ->
     (forall p now, Med.valid p = true ->
        putMeditation id p now srv = (Json 404 (BError "meditation not found"), srv))
     /\ deleteMeditation id srv = (Json 404 (BError "meditation not found"), srv))
    /\ (mongoConnected srv = true ->
        find (fun m => String.eqb (Snd.id m) id) (Sound (mongo srv)) = None ->
        (forall p now, Snd.valid p = true ->
           putSound id p now srv = (Json 404 (BError "sound not found"), srv))
        /\ deleteSound id srv = (Json 404 (BError "sound not found"), srv))
    /\ (mongoConnected srv = true ->
        find (appById id) apps = None ->
        getApplication id srv apps = (AppError 404 "application not found", apps)
        /\ (forall p now, App.valid p = true ->
              putApplication id p now srv apps = (AppError 404 "application not found", apps))
        /\ (forall status now, status <> "" ->
              patchApplicationStatus id (Some status) now srv apps
              = (AppError 404 "application not found", apps))
        /\ deleteApplication id srv apps = (AppError 404 "application not found", apps))
    /\ (mongoConnected srv = true ->
        find (fun c => String.eqb (Cont.key c) id) (Content (mongo srv)) = None ->
        getContent id srv = (Json 404 (BError "Content not found"), srv)
        /\ deleteContent id srv = (Json 404 (BError "Content not found"), srv)
        /\ forall value type section description now,
             let content :=
               Cont.mk id (orDefault type "text") value (orDefault section "general")
                       description now now in
             putContent id value type section description now srv
             = (Json 200 (BContent content),
                withMongo srv (withContent (mongo srv) (app (Content (mongo srv)) [content]))))
    /\ (find (requestById id) (storedRequests srv) = None ->
        getRequest id srv = (Json 404 (BError "Request not found"), srv)
        /\ deleteRequest id srv = (Json 404 (BError "Request not found"), srv)
        /\ forall body uuid clk,
             approveRequest id body uuid clk srv
             = (Json 404 (BError "Request not found"), srv))
    /\ (find (itemById id) (storedItems srv) = None ->
        forall body atCompleted atUpdated,
          completeItem id body atCompleted atUpdated srv
          = (Json 404 (BError "Item not found"), srv))
    /\ (mongoConnected srv = false ->
        (forall p now,
           putMeditation id p now srv
           = (Rejected (if Med.valid p then BufferTimeout else ValidationError), srv))
        /\ deleteMeditation id srv = (Rejected BufferTimeout, srv)
        /\ (forall p now,
              putSound id p now srv
              = (Rejected (if Snd.valid p then BufferTimeout else ValidationError), srv))
        /\ deleteSound id srv = (Rejected BufferTimeout, srv)
        /\ getApplication id srv apps = (AppRejected BufferTimeout, apps)
        /\ (forall p now,
              putApplication id p now srv apps
              = (AppRejected (if App.valid p then BufferTimeout else ValidationError), apps))
        /\ (forall status now, status <> "" ->
              patchApplicationStatus id (Some status) now srv apps
              = (AppRejected BufferTimeout, apps))
        /\ deleteApplication id srv apps = (AppRejected BufferTimeout, apps)
        /\ getContent id srv = (Json 500 (BThrown BufferTimeout), srv)
        /\ (forall value type section description now,
              putContent id value type section description now srv
              = (Json 500 (BThrown BufferTimeout), srv))
        /\ deleteContent id srv = (Json 500 (BThrown BufferTimeout), srv)).
Proof.
  intros id srv apps.
  assert (forall status : string, status <> "" ->
            exists a t, orEmpty (Some status) = String a t) as Hstatus.
  { intros status Hs. rewrite orEmpty_Some. destruct status as [|a t]; [contradiction|].
    now exists a, t. }
  repeat apply conj.
  - intros Hm H. split.
    + intros p now Hv. unfold putMeditation, mongoose.
      now rewrite Hm, Hv, (find_None_update _ _ _ H).
    + unfold deleteMeditation, mongoose. now rewrite Hm, (find_None_delete _ _ H).
  - intros Hm H. split.
    + intros p now Hv. unfold putSound, mongoose.
      now rewrite Hm, Hv, (find_None_update _ _ _ H).
    + unfold deleteSound, mongoose. now rewrite Hm, (find_None_delete _ _ H).
  - intros Hm H. split; [|split; [|split]].
    + unfold getApplication, mongoose. now rewrite Hm, H.
    + intros p now Hv. unfold putApplication, mongoose.
      now rewrite Hm, Hv, (find_None_update _ _ _ H).
    + intros status now Hs. destruct (Hstatus status Hs) as (a & t & E).
      unfold patchApplicationStatus, mongoose. rewrite E, Hm.
      now rewrite (find_None_update _ _ _ H).
    + unfold deleteApplication, mongoose. now rewrite Hm, (find_None_delete _ _ H).
  - intros Hm H. split; [|split].
    + unfold getContent, mongoose. now rewrite Hm, H.
    + unfold deleteContent, mongoose. now rewrite Hm, (find_None_delete _ _ H).
    + intros value type section description now content.
      unfold putContent, mongoose. now rewrite Hm, (find_None_update _ _ _ H).
  - intros H. split; [|split].
    + unfold getRequest, storedRequests in *. fold (requestById id).
      destruct (mongoConnected srv); cbn; now rewrite H.
    + unfold deleteRequest, storedRequests in *. fold (requestById id).
      destruct (mongoConnected srv); cbn.
      * now rewrite (find_None_delete _ _ H).
      * now rewrite (find_None_findIndex _ _ H).
    + intros body uuid clk. now apply approveRequest_missing.
  - intros H body a u. now rewrite completeItem_stored, (find_None_findIndex _ _ H).
  - intros Hm. repeat apply conj.
    + intros p now. unfold putMeditation, mongoose. rewrite Hm. now destruct (Med.valid p).
    + unfold deleteMeditation, mongoose. now rewrite Hm.
    + intros p now. unfold putSound, mongoose. rewrite Hm. now destruct (Snd.valid p).
    + unfold deleteSound, mongoose. now rewrite Hm.
    + unfold getApplication, mongoose. now rewrite Hm.
    + intros p now. unfold putApplication, mongoose. rewrite Hm. now destruct (App.valid p).
    + intros status now Hs. destruct (Hstatus status Hs) as (a & t & E).
      unfold patchApplicationStatus, mongoose. now rewrite E, Hm.
    + unfold deleteApplication, mongoose. now rewrite Hm.
    + unfold getContent, mongoose. now rewrite Hm.
    + intros value type section description now. unfold putContent, mongoose.
      now rewrite Hm.
    + unfold deleteContent, mongoose. now rewrite Hm.
Qed.

Lemma absent_id_not_found_witness :
  let srv := mkServer true (mkLocalDB [] [] [] [] []) (mkCollections [] [] [] [] [] []) in
  let patch := Med.mkPatch (Some "Calm") None None None None None None None None in
  let renamed :=
    App.mkPatch (Some "Asha") None None None None None None None None None None None None
                None None None None None None None None None None in
  mongoConnected srv = true
  /\ find (fun m => String.eqb (Med.id m) "m1") (Meditation (mongo srv)) = None
  /\ Med.valid patch = true
  /\ find (appById "a1") [] = None
  /\ App.valid renamed = true
  /\ find (requestById "r9") (storedRequests srv) = None
  /\ putMeditation "m1" patch 5 srv = (Json 404 (BError "meditation not found"), srv)
  /\ putApplication "a1" renamed 5 srv [] = (AppError 404 "application not found", [])
  /\ getRequest "r9" srv = (Json 404 (BError "Request not found"), srv).
Proof.
  intros srv patch renamed.
  assert (mongoConnected srv = true) as H1 by reflexivity.
  assert (find (fun m => String.eqb (Med.id m) "m1") (Meditation (mongo srv)) = None) as H2
    by reflexivity.
  assert (Med.valid patch = true) as H3 by reflexivity.
  assert (find (appById "a1") [] = None) as H4 by reflexivity.
  assert (App.valid renamed = true) as H5 by reflexivity.
  assert (find (requestById "r9") (storedRequests srv) = None) as H6 by reflexivity.
  do 6 (split; [assumption|]).
  pose proof (absent_id_not_found "m1" srv []) as Hm.
  pose proof (absent_id_not_found "a1" srv []) as Ha.
  pose proof (absent_id_not_found "r9" srv []) as Hr.
  split; [|split].
  - exact (proj1 (proj1 Hm H1 H2) patch 5 H3).
  - exact (proj1 (proj2 (proj1 (proj2 (proj2 Ha)) H1 H4)) renamed 5 H5).
  - exact (proj1 (proj1 (proj2 (proj2 (proj2 (proj2 Hr)))) H6)).
Defined.

(** ** Revenue selection *)

(** C6, divergence.  The two modes do not select the same items: an item
    approved just before the window opens and created inside it is selected
    by the connected query and left out by the local filter. *)
Lemma revenue_selection_differs :
  let now := 1704861000000 in
  let start := now - 6 * msPerDay in
  let item := Item.mk "i1" "r1" (JStr "retreat") "active"
                      (JObj [("price", JNum (numZ 120))])
                      (Some (start - 1)) (Some (JStr "admin")) None None start start in
  let clk := mkAnalyticsClock now now (fun _ => now) in
  let connected := mkServer true (mkLocalDB [] [] [] [] [])
                            (mkCollections [] [] [] [] [item] []) in
  let degraded := mkServer false (mkLocalDB [] [] [] [] [item])
                           (mkCollections [] [] [] [] [] []) in
  rangeStart 0 (parseRangeDays (queryRange (JStr "7d"))) clk = start
  /\ option_map itemsForRange (getAnalytics 0 8 (JStr "7d") clk connected) = Some [item]
  /\ option_map itemsForRange (getAnalytics 0 8 (JStr "7d") clk degraded) = Some [].
Proof. cbv zeta. split; [|split]; vm_compute; reflexivity. Qed.

(** Where the two selections agree: on an item that carries no [approvedAt],
    or whose [approvedAt] and [createdAt] are both inside or both outside
    the window, the two rules decide alike. *)
Lemma revenue_selection_agrees lo hi later item :
  Item.createdAt item <> 0 ->
  (forall a, Item.approvedAt item = Some a ->
             within lo hi a = within lo hi (Item.createdAt item)) ->
  within lo hi (itemDate later item)
  = (match Item.approvedAt item with
     | Some a => within lo hi a
     | None => false
     end || within lo hi (Item.createdAt item)).
Proof.
  intros Hc Ha. unfold itemDate, stampOr.
  destruct (Item.approvedAt item) as [a|].
  - rewrite (Ha a eq_refl). now destruct (within lo hi (Item.createdAt item)).
  - destruct (Z.eqb_spec (Item.createdAt item) 0); [contradiction|reflexivity].
Qed.

(** * Further properties of the marketplace routes *)

Lemma existsb_false_find {A} (p : A -> bool) l : existsb p l = false -> find p l = None.
Proof.
  induction l as [|x l IH]; [reflexivity|]. cbn. destruct (p x); [discriminate|exact IH].
Qed.

Lemma jsOr_truthy a b : truthy b = true -> truthy (jsOr a b) = true.
Proof. intros Hb. unfold jsOr. destruct (truthy a) eqn:E; [exact E|exact Hb]. Qed.

Lemma jsOr_again a b : truthy b = true -> jsOr (jsOr a b) b = jsOr a b.
Proof. intros Hb. unfold jsOr at 1. now rewrite (jsOr_truthy a b Hb). Qed.

(** [splice(index, 1)] at the index [findIndex] returned is what
    [deleteOne] / [findOneAndDelete] do. *)
Lemma findIndex_delete {A} (p : A -> bool) l i x :
  findIndex p l = Some (i, x) -> deleteFirst p l = Some (x, splice1 i l).
Proof.
  revert i. induction l as [|y l IH]; intros i H; [discriminate|].
  cbn [findIndex] in H. cbn [deleteFirst]. destruct (p y).
  - now injection H as <- <-.
  - destruct (findIndex p l) as [[j z]|]; [|discriminate].
    injection H as <- <-. now rewrite (IH j eq_refl).
Qed.

Lemma splice1_length {A} (l : list A) i x :
  l !! i = Some x -> S (length (splice1 i l)) = length l.
Proof.
  revert i. induction l as [|y l IH]; intros i H; [discriminate|].
  destruct i as [|i]; [reflexivity|]. cbn in H. specialize (IH i H).
  unfold splice1 in *. cbn. now rewrite IH.
Qed.

(** With a projection that is unique over the array, removing the first
    element whose projection is [k] leaves none with that projection. *)
Lemma find_splice_unique {A} (g : A -> string) (k : string) (l : list A) : forall i x,
  NoDup (map g l) ->
  findIndex (fun y => String.eqb (g y) k) l = Some (i, x) ->
  find (fun y => String.eqb (g y) k) (splice1 i l) = None.
Proof.
  induction l as [|y l IH]; intros i x Hnd H; [discriminate|].
  cbn [map] in Hnd. apply NoDup_cons in Hnd as [Hnotin Hnd].
  cbn [findIndex] in H. destruct (String.eqb_spec (g y) k) as [Hy|Hy].
  - injection H as <- <-. change (splice1 0 (y :: l)) with l.
    destruct (find (fun z => String.eqb (g z) k) l) as [z|] eqn:Hz; [|reflexivity].
    apply find_some in Hz as [Hin Hk]. apply String.eqb_eq in Hk.
    exfalso. apply Hnotin. rewrite Hy, <- Hk. apply list_elem_of_In. now apply in_map.
  - destruct (findIndex _ l) as [[j z]|] eqn:Hj; [|discriminate].
    injection H as <- <-. change (splice1 (S j) (y :: l)) with (y :: splice1 j l).
    cbn [find]. destruct (String.eqb_spec (g y) k); [contradiction|].
    now apply (IH j z).
Qed.

(** [deleteRequest] in either mode, in terms of the answering store. *)
Lemma deleteRequest_stored id srv :
  deleteRequest id srv
  = match findIndex (requestById id) (storedRequests srv) with
    | None => (Json 404 (BError "Request not found"), srv)
    | Some (i, _) =>
        (Json 200 (BMessage "Request deleted successfully"),
         putStored srv (splice1 i (storedRequests srv)) (storedItems srv))
    end.
Proof.
  unfold deleteRequest, storedItems, storedRequests, putStored. fold (requestById id).
  destruct srv as [[] [us ms ss rs its] [m sd c r it u]]; cbn.
  - destruct (findIndex (requestById id) r) as [[i old]|] eqn:E.
    + now rewrite (findIndex_delete _ _ _ _ E).
    + now rewrite (findIndex_None_delete _ _ E).
  - now destruct (findIndex (requestById id) rs) as [[i old]|].
Qed.

(** X1.  A request that was accepted can be read back: when the submission
    answers 201 with a request, that request carries the identifier drawn,
    the status ["pending"], the submitted [type], no approval stamp, and the
    submitted [data]: as it is on a degraded server, and as Mongoose writes
    it on a connected one, with empty objects removed (an empty [data]
    object is answered and stored as no [data] at all).  Reading the request
    by its identifier right after answers 200 with the same request; one
    request was added and no item was touched. *)
Theorem submit_then_get :
  forall body uuid now1 now2 srv r,
    fst (postRequest body uuid now1 now2 srv) = Json 201 (BRequest r) ->
    let srv' := snd (postRequest body uuid now1 now2 srv) in
    Req.id r = uuid /\ Req.status r = "pending"
    /\ Req.type r = jsGet body "type"
    /\ Req.data r = (if mongoConnected srv then minimize (jsGet body "data")
                     else jsGet body "data")
    /\ Req.approvedAt r = None /\ Req.approvedBy r = None
    /\ getRequest uuid srv' = (Json 200 (BRequest r), srv')
    /\ storedItems srv' = storedItems srv
    /\ length (storedRequests srv') = S (length (storedRequests srv)).
Proof.
  intros body uuid now1 now2 srv r. unfold postRequest.
  destruct (negb (truthy (jsGet body "type")) || negb (truthy (jsGet body "data")));
    [discriminate|].
  destruct srv as [[] [us ms ss rs its] [m sd c rq it u]]; cbn [negb mongoConnected].
  - unfold saveRequest. cbn [Req.type Req.data Req.id mongo MarketplaceRequest].
    destruct (negb (typeInEnum (jsGet body "type") && present (jsGet body "data")));
      [discriminate|].
    destruct (existsb _ rq) eqn:Hex; [discriminate|]. cbn [fst snd]. intros [= <-].
    cbv zeta. unfold minimizedRequest at 1 2 3 4 5 6.
    cbn [Req.id Req.status Req.type Req.data Req.approvedAt Req.approvedBy].
    do 6 (split; [reflexivity|]). split; [|split; [reflexivity|]].
    + unfold getRequest.
      cbn [mongoConnected negb withMongo mongo withMarketplaceRequest MarketplaceRequest].
      rewrite find_app, (existsb_false_find _ _ Hex). cbn [find minimizedRequest Req.id].
      now rewrite String.eqb_refl.
    + unfold storedRequests.
      cbn [mongoConnected withMongo mongo withMarketplaceRequest MarketplaceRequest].
      now rewrite length_app, Nat.add_comm.
  - cbn [fst snd]. intros [= <-]. repeat split.
    unfold getRequest. cbn. now rewrite String.eqb_refl.
Qed.

Lemma submit_then_get_witness :
  let body := JObj [("type", JStr "retreat");
                    ("data", JObj [("price", JNum (numZ 120)); ("notes", JObj [])])] in
  let srv := mkServer true (mkLocalDB [] [] [] [] []) (mkCollections [] [] [] [] [] []) in
  let r := Req.mk "r1" (JStr "retreat") "pending" (JStr "")
                  (JObj [("price", JNum (numZ 120))]) None None 10 10 in
  fst (postRequest body "r1" 10 11 srv) = Json 201 (BRequest r)
  /\ getRequest "r1" (snd (postRequest body "r1" 10 11 srv))
     = (Json 200 (BRequest r), snd (postRequest body "r1" 10 11 srv)).
Proof.
  intros body srv r.
  assert (fst (postRequest body "r1" 10 11 srv) = Json 201 (BRequest r)) as H
    by reflexivity.
  split; [exact H|].
  exact (proj1 (proj2 (proj2 (proj2 (proj2 (proj2 (proj2
           (submit_then_get body "r1" 10 11 srv r H)))))))).
Defined.

(** X2.  What a submission is checked for depends on the mode.  A missing
    or falsy [type] or [data] is refused with 400 in both.  Past that check
    the local store accepts any [type]; the connected store accepts only
    ["session"], ["retreat"] and ["product"]: any other [type] makes the
    save throw, the route answers 500 and nothing is stored; an accepted
    [type] with an identifier not yet in the collection is stored. *)
Theorem submit_checks_by_mode :
  forall body uuid now1 now2 srv,
    (truthy (jsGet body "type") = false \/ truthy (jsGet body "data") = false ->
     postRequest body uuid now1 now2 srv
     = (Json 400 (BError "Type and data are required"), srv))
    /\ (truthy (jsGet body "type") = true -> truthy (jsGet body "data") = true ->
        (mongoConnected srv = false ->
         exists r, fst (postRequest body uuid now1 now2 srv) = Json 201 (BRequest r))
        /\ (mongoConnected srv = true -> typeInEnum (jsGet body "type") = false ->
            postRequest body uuid now1 now2 srv = (Json 500 (BThrown ValidationError), srv))
        /\ (mongoConnected srv = true -> typeInEnum (jsGet body "type") = true ->
            find (requestById uuid) (storedRequests srv) = None ->
            exists r, fst (postRequest body uuid now1 now2 srv) = Json 201 (BRequest r))
        /\ (mongoConnected srv = true -> typeInEnum (jsGet body "type") = true ->
            forall other, find (requestById uuid) (storedRequests srv) = Some other ->
            postRequest body uuid now1 now2 srv = (Json 500 (BThrown DuplicateKey), srv))).
Proof.
  intros body uuid now1 now2 srv. split.
  - intros [H|H]; unfold postRequest; rewrite H; [reflexivity|].
    now rewrite orb_true_r.
  - intros Ht Hd. unfold postRequest, storedRequests. rewrite Ht, Hd. cbn [negb orb].
    assert (present (jsGet body "data") = true) as Hp
      by (destruct (jsGet body "data"); (discriminate || reflexivity)).
    destruct srv as [[] [us ms ss rs its] [m sd c rq it u]]; cbn;
      (split; [|split; [|split]]); try discriminate.
    + intros _ He. unfold saveRequest. cbn. now rewrite He.
    + intros _ He Hnone. unfold saveRequest. cbn. rewrite He, Hp. cbn.
      destruct (existsb _ rq) eqn:Hex; [|eauto].
      apply existsb_exists in Hex as [x [Hin Hx]].
      pose proof (find_none _ _ Hnone x Hin) as Hf. unfold requestById in Hf. congruence.
    + intros _ He other Hsome. unfold saveRequest. cbn. rewrite He, Hp. cbn.
      destruct (existsb _ rq) eqn:Hex; [reflexivity|].
      apply existsb_false_find in Hex. unfold requestById in Hsome. congruence.
    + intros _. eauto.
Qed.

Lemma submit_checks_by_mode_witness :
  let body := JObj [("type", JStr "workshop"); ("data", JObj [])] in
  let none := mkCollections [] [] [] [] [] [] in
  truthy (jsGet body "type") = true /\ truthy (jsGet body "data") = true
  /\ typeInEnum (jsGet body "type") = false
  /\ postRequest body "r1" 10 11 (mkServer true (mkLocalDB [] [] [] [] []) none)
     = (Json 500 (BThrown ValidationError), mkServer true (mkLocalDB [] [] [] [] []) none)
  /\ exists r, fst (postRequest body "r1" 10 11 (mkServer false (mkLocalDB [] [] [] [] []) none))
               = Json 201 (BRequest r).
Proof.
  intros body none.
  assert (truthy (jsGet body "type") = true) as H1 by reflexivity.
  assert (truthy (jsGet body "data") = true) as H2 by reflexivity.
  assert (typeInEnum (jsGet body "type") = false) as H3 by reflexivity.
  split; [exact H1|]. split; [exact H2|]. split; [exact H3|]. split.
  - exact (proj1 (proj2 (proj2 (submit_checks_by_mode body "r1" 10 11
             (mkServer true (mkLocalDB [] [] [] [] []) none)) H1 H2)) eq_refl H3).
  - exact (proj1 (proj2 (submit_checks_by_mode body "r1" 10 11
             (mkServer false (mkLocalDB [] [] [] [] []) none)) H1 H2) eq_refl).
Defined.

Lemma getRequest_stored id srv :
  getRequest id srv
  = match find (requestById id) (storedRequests srv) with
    | None => (Json 404 (BError "Request not found"), srv)
    | Some request => (Json 200 (BRequest request), srv)
    end.
Proof.
  unfold getRequest, storedRequests. fold (requestById id).
  now destruct (mongoConnected srv).
Qed.

(** X3.  Deleting a request removes that request and nothing else: the
    route answers 200, the first request with the identifier is taken out
    of the store, the items stay as they are (the item made from the
    request is not deleted with it), and, identifiers being unique, the
    request can then neither be read nor deleted again (404).  This holds in
    both modes. *)
Theorem delete_request_no_cascade :
  forall id srv old,
    find (requestById id) (storedRequests srv) = Some old ->
    let srv' := snd (deleteRequest id srv) in
    fst (deleteRequest id srv) = Json 200 (BMessage "Request deleted successfully")
    /\ storedItems srv' = storedItems srv
    /\ S (length (storedRequests srv')) = length (storedRequests srv)
    /\ (exists i, storedRequests srv !! i = Some old
                  /\ storedRequests srv' = splice1 i (storedRequests srv))
    /\ (NoDup (map Req.id (storedRequests srv)) ->
        getRequest id srv' = (Json 404 (BError "Request not found"), srv')
        /\ deleteRequest id srv' = (Json 404 (BError "Request not found"), srv')).
Proof.
  intros id srv old H srv'.
  destruct (find_Some_findIndex _ _ _ H) as [i Hi].
  assert (srv' = putStored srv (splice1 i (storedRequests srv)) (storedItems srv)) as E.
  { unfold srv'. now rewrite deleteRequest_stored, Hi. }
  pose proof (findIndex_Some _ _ _ _ Hi) as [Hl _].
  split. { now rewrite deleteRequest_stored, Hi. }
  rewrite E, putStored_items, putStored_requests.
  split; [reflexivity|]. split; [now apply (splice1_length _ _ old)|].
  split; [now exists i|].
  intros Hnd.
  assert (find (requestById id) (splice1 i (storedRequests srv)) = None) as Hgone
    by exact (find_splice_unique Req.id id _ i old Hnd Hi).
  split.
  - now rewrite getRequest_stored, putStored_requests, Hgone.
  - now rewrite deleteRequest_stored, putStored_requests, (find_None_findIndex _ _ Hgone).
Qed.

Lemma delete_request_no_cascade_witness :
  let r1 := Req.mk "r1" (JStr "retreat") "approved" (JStr "") (JObj []) (Some 20)
                   (Some (JStr "admin")) 10 21 in
  let r2 := Req.mk "r2" (JStr "session") "pending" (JStr "") (JObj []) None None 11 11 in
  let item := Item.mk "i1" "r1" (JStr "retreat") "active" (JObj []) (Some 20)
                      (Some (JStr "admin")) None None 22 22 in
  let srv := mkServer false (mkLocalDB [] [] [] [r2; r1] [item])
                      (mkCollections [] [] [] [] [] []) in
  find (requestById "r1") (storedRequests srv) = Some r1
  /\ NoDup (map Req.id (storedRequests srv))
  /\ storedItems (snd (deleteRequest "r1" srv)) = [item]
  /\ storedRequests (snd (deleteRequest "r1" srv)) = [r2]
  /\ getRequest "r1" (snd (deleteRequest "r1" srv))
     = (Json 404 (BError "Request not found"), snd (deleteRequest "r1" srv)).
Proof.
  intros r1 r2 item srv.
  assert (find (requestById "r1") (storedRequests srv) = Some r1) as H by reflexivity.
  assert (NoDup (map Req.id (storedRequests srv))) as Hnd
    by (apply (bool_decide_unpack (NoDup (map Req.id (storedRequests srv))));
        vm_compute; exact I).
  split; [exact H|]. split; [exact Hnd|].
  destruct (delete_request_no_cascade "r1" srv r1 H) as [_ [Hi [_ [_ Hg]]]].
  split; [exact Hi|]. split; [reflexivity|]. exact (proj1 (Hg Hnd)).
Defined.

Lemma find_None_existsb {A} (p : A -> bool) l : find p l = None -> existsb p l = false.
Proof.
  induction l as [|x l IH]; [reflexivity|]. cbn. destruct (p x); [discriminate|exact IH].
Qed.

(** [approveRequest] on a request no item references yet, in terms of the
    answering store. *)
Lemma approveRequest_fresh id body uuid clk srv i old :
  findIndex (requestById id) (storedRequests srv) = Some (i, old) ->
  find (refersTo id) (storedItems srv) = None ->
  let r := Req.approved old (atApproved clk) (approvedByOf body) (atRequestUpdated clk) in
  let requests := <[i := r]> (storedRequests srv) in
  let mk stamp :=
    Item.mk uuid id (Req.type old) "active" (Req.data old) (Some (atApproved clk))
            (Some (approvedByOf body)) None None (atItemCreated clk) stamp in
  approveRequest id body uuid clk srv
  = if mongoConnected srv then
      match saveItem (mk (atItemCreated clk)) (storedItems srv) with
      | inl e => (Json 500 (BThrown e), putStored srv requests (storedItems srv))
      | inr items => (Json 200 (BRequest r), putStored srv requests items)
      end
    else
      (Json 200 (BRequest r),
       putStored srv requests (mk (atItemUpdated clk) :: storedItems srv)).
Proof.
  intros Hi Hnone r requests mk.
  unfold approveRequest, storedItems, storedRequests, putStored in *.
  fold (requestById id). fold (approvedByOf body). fold (refersTo id).
  destruct srv as [[] [us ms ss rs its] [m sd c rq it u]]; cbn in *.
  - rewrite (findIndex_update _ _ _ _ _ Hi). cbn.
    apply findIndex_Some in Hi as [_ [Hp _]]. apply requestById_eq in Hp.
    rewrite Hp. fold (refersTo id). rewrite Hnone.
    subst mk r requests. unfold approvedByOf. cbv beta.
    rewrite (jsOr_again (jsGet body "approvedBy") (JStr "admin") eq_refl).
    now destruct (saveItem _ it).
  - now rewrite Hi, Hnone.
Qed.

(** X4.  Approving a request that has no item yet makes its item from it,
    on a degraded server always, and on a connected server when the item
    passes the schema (the request's [type] is in the enum and its [data] is
    present) and the identifier drawn is not in use: the route answers 200
    with the request stamped approved, and afterwards exactly one item
    references the request; that item carries the identifier drawn, the
    request's [type] and [data] (minimized as Mongoose writes it, on a
    connected server), the status ["active"], the approval stamps of the
    request and no completion stamp. *)
Theorem approve_materializes_item :
  forall id body uuid clk srv old,
    find (requestById id) (storedRequests srv) = Some old ->
    find (refersTo id) (storedItems srv) = None ->
    (mongoConnected srv = true ->
     typeInEnum (Req.type old) = true /\ present (Req.data old) = true
     /\ find (itemById uuid) (storedItems srv) = None) ->
    let r := Req.approved old (atApproved clk) (approvedByOf body) (atRequestUpdated clk) in
    let srv' := snd (approveRequest id body uuid clk srv) in
    exists item,
      fst (approveRequest id body uuid clk srv) = Json 200 (BRequest r)
      /\ find (requestById id) (storedRequests srv') = Some r
      /\ referencing id srv' = [item]
      /\ length (storedItems srv') = S (length (storedItems srv))
      /\ Item.id item = uuid /\ Item.requestId item = id
      /\ Item.type item = Req.type old
      /\ Item.data item = (if mongoConnected srv then minimize (Req.data old)
                           else Req.data old)
      /\ Item.status item = "active"
      /\ Item.approvedAt item = Req.approvedAt r /\ Item.approvedBy item = Req.approvedBy r
      /\ Item.completedAt item = None /\ Item.completedBy item = None.
Proof.
  intros id body uuid clk srv old Hreq Hnone Hconn r srv'.
  destruct (find_Some_findIndex _ _ _ Hreq) as [i Hi].
  pose proof (approveRequest_fresh id body uuid clk srv i old Hi Hnone) as E.
  cbv zeta in E. fold r in E.
  assert (find (requestById id) (<[i := r]> (storedRequests srv)) = Some r) as Hr.
  { exact (find_insert_found (requestById id)
             (fun y => Req.approved y (atApproved clk) (approvedByOf body)
                                    (atRequestUpdated clk))
             _ _ _ (fun y => eq_refl) Hi). }
  unfold srv', referencing. fold (refersTo id). rewrite E.
  destruct (mongoConnected srv) eqn:Hm.
  - destruct (Hconn eq_refl) as [Ht [Hd Hfresh]].
    unfold saveItem. cbn [Item.type Item.data Item.id]. rewrite Ht, Hd. cbn [andb negb].
    fold (itemById uuid). rewrite (find_None_existsb _ _ Hfresh).
    unfold minimizedItem.
    cbn [Item.id Item.requestId Item.type Item.status Item.data Item.approvedAt
         Item.approvedBy Item.completedAt Item.completedBy Item.createdAt Item.updatedAt].
    eexists. cbn [fst snd]. rewrite putStored_items, putStored_requests.
    split; [reflexivity|]. split; [exact Hr|]. split.
    { rewrite List.filter_app, (find_None_filter _ _ Hnone). cbn.
      now rewrite String.eqb_refl. }
    split; [rewrite length_app; cbn; lia|]. repeat split.
  - eexists. cbn [fst snd]. rewrite putStored_items, putStored_requests.
    split; [reflexivity|]. split; [exact Hr|]. split.
    { cbn [List.filter]. unfold refersTo at 1. cbn. rewrite String.eqb_refl.
      now rewrite (find_None_filter _ _ Hnone). }
    split; [reflexivity|]. repeat split.
Qed.

Lemma approve_materializes_item_witness :
  let old := Req.mk "r1" (JStr "retreat") "pending" (JStr "")
                    (JObj [("price", JNum (numZ 120))]) None None 10 10 in
  let srv := mkServer true (mkLocalDB [] [] [] [] []) (mkCollections [] [] [] [old] [] []) in
  let clk := mkApproveClock 20 21 22 23 in
  find (requestById "r1") (storedRequests srv) = Some old
  /\ find (refersTo "r1") (storedItems srv) = None
  /\ exists item,
      referencing "r1" (snd (approveRequest "r1" (JObj []) "i1" clk srv)) = [item]
      /\ Item.data item = JObj [("price", JNum (numZ 120))]
      /\ Item.status item = "active".
Proof.
  intros old srv clk.
  assert (find (requestById "r1") (storedRequests srv) = Some old) as H1 by reflexivity.
  assert (find (refersTo "r1") (storedItems srv) = None) as H2 by reflexivity.
  assert (mongoConnected srv = true ->
          typeInEnum (Req.type old) = true /\ present (Req.data old) = true
          /\ find (itemById "i1") (storedItems srv) = None) as H3
    by (intros _; repeat split).
  split; [exact H1|]. split; [exact H2|].
  destruct (approve_materializes_item "r1" (JObj []) "i1" clk srv old H1 H2 H3)
    as [item [_ [_ [Hr [_ [_ [_ [_ [Hd [Hs _]]]]]]]]]].
  exists item. split; [exact Hr|]. split; [exact Hd|exact Hs].
Defined.

(** X5.  In connected mode an approval is not undone when the item cannot
    be saved: if the request's [type] is outside the enum or its [data] is
    missing, the route answers 500, no item is created, and the request is
    left stamped approved all the same. *)
Theorem approve_keeps_stamp_on_failure :
  forall id body uuid clk srv old,
    mongoConnected srv = true ->
    find (requestById id) (storedRequests srv) = Some old ->
    find (refersTo id) (storedItems srv) = None ->
    typeInEnum (Req.type old) = false \/ present (Req.data old) = false ->
    let r := Req.approved old (atApproved clk) (approvedByOf body) (atRequestUpdated clk) in
    let srv' := snd (approveRequest id body uuid clk srv) in
    fst (approveRequest id body uuid clk srv) = Json 500 (BThrown ValidationError)
    /\ storedItems srv' = storedItems srv
    /\ find (requestById id) (storedRequests srv') = Some r
    /\ Req.status r = "approved".
Proof.
  intros id body uuid clk srv old Hm Hreq Hnone Hbad r srv'.
  destruct (find_Some_findIndex _ _ _ Hreq) as [i Hi].
  pose proof (approveRequest_fresh id body uuid clk srv i old Hi Hnone) as E.
  cbv zeta in E. fold r in E. rewrite Hm in E.
  unfold saveItem in E. cbn [Item.type Item.data Item.id] in E.
  assert (negb (typeInEnum (Req.type old) && present (Req.data old)) = true) as Hv.
  { destruct Hbad as [-> | ->]; [reflexivity|]. now rewrite andb_false_r. }
  rewrite Hv in E. unfold srv'. rewrite E. cbn [fst snd].
  rewrite putStored_items, putStored_requests.
  split; [reflexivity|]. split; [reflexivity|]. split; [|reflexivity].
  exact (find_insert_found (requestById id)
           (fun y => Req.approved y (atApproved clk) (approvedByOf body)
                                  (atRequestUpdated clk))
           _ _ _ (fun y => eq_refl) Hi).
Qed.

Lemma approve_keeps_stamp_on_failure_witness :
  let old := Req.mk "r1" (JStr "workshop") "pending" (JStr "") (JObj []) None None 10 10 in
  let srv := mkServer true (mkLocalDB [] [] [] [] []) (mkCollections [] [] [] [old] [] []) in
  let clk := mkApproveClock 20 21 22 23 in
  mongoConnected srv = true
  /\ find (requestById "r1") (storedRequests srv) = Some old
  /\ find (refersTo "r1") (storedItems srv) = None
  /\ (typeInEnum (Req.type old) = false \/ present (Req.data old) = false)
  /\ fst (approveRequest "r1" (JObj []) "i1" clk srv) = Json 500 (BThrown ValidationError)
  /\ find (requestById "r1") (storedRequests (snd (approveRequest "r1" (JObj []) "i1" clk srv)))
     = Some (Req.approved old 20 (JStr "admin") 21).
Proof.
  intros old srv clk.
  assert (mongoConnected srv = true) as H0 by reflexivity.
  assert (find (requestById "r1") (storedRequests srv) = Some old) as H1 by reflexivity.
  assert (find (refersTo "r1") (storedItems srv) = None) as H2 by reflexivity.
  assert (typeInEnum (Req.type old) = false \/ present (Req.data old) = false) as H3
    by (left; reflexivity).
  split; [exact H0|]. split; [exact H1|]. split; [exact H2|]. split; [exact H3|].
  destruct (approve_keeps_stamp_on_failure "r1" (JObj []) "i1" clk srv old H0 H1 H2 H3)
    as [Ha [_ [Hb _]]].
  split; [exact Ha|exact Hb].
Defined.

(** Membership after the write [l[i] = y], when [y] keeps the projection of
    the element it replaces and the projection is unique over the array. *)
Lemma in_insert_unique {A} (g : A -> string) (l : list A) : forall i x y z,
  NoDup (map g l) -> l !! i = Some x -> g y = g x ->
  (In z (<[i := y]> l) <-> z = y \/ (In z l /\ g z <> g x)).
Proof.
  induction l as [|h l IH]; intros i x y z Hnd Hl Hg; [discriminate|].
  cbn [map] in Hnd. apply NoDup_cons in Hnd as [Hnotin Hnd].
  destruct i as [|i].
  - cbn in Hl. injection Hl as ->. change (<[0%nat := y]> (x :: l)) with (y :: l).
    cbn [In]. split.
    + intros [<-|Hin]; [now left|]. right. split; [now right|].
      intros E. apply Hnotin. rewrite <- E. apply list_elem_of_In. now apply in_map.
    + intros [->|[[<-|Hin] Hne]]; [now left|contradiction|now right].
  - cbn in Hl. change (<[S i := y]> (h :: l)) with (h :: <[i := y]> l).
    cbn [In]. rewrite (IH i x y z Hnd Hl Hg). split.
    + intros [<-|[->|[Hin Hne]]].
      * right. split; [now left|]. intros E. apply Hnotin. rewrite E.
        apply list_elem_of_In. apply in_map. apply list_elem_of_In.
        now apply list_elem_of_lookup_2 in Hl.
      * now left.
      * right. split; [now right|exact Hne].
    + intros [->|[[<-|Hin] Hne]]; [right; now left|now left|right; right; now split].
Qed.

(** The stored items a listing returns, in either mode. *)
Lemma listItems_members tie query srv :
  exists items,
    listItems tie query srv = (Json 200 (BItems items), srv)
    /\ forall item, In item items
                    <-> In item (storedItems srv)
                        /\ Item.status item = statusOrActive query.
Proof.
  unfold listItems, storedItems. destruct (mongoConnected srv); cbn [negb].
  - eexists. split; [reflexivity|]. intros item. split.
    + intros H. apply (Permutation_in _ (dbSortDescBy_perm _ _ _)) in H.
      apply List.filter_In in H as [H1 H2]. apply String.eqb_eq in H2. now split.
    + intros [H1 H2].
      apply (Permutation_in _ (Permutation_sym (dbSortDescBy_perm _ _ _))).
      apply List.filter_In. split; [exact H1|]. now apply String.eqb_eq.
  - eexists. split; [reflexivity|]. intros item. split.
    + intros H. apply List.filter_In in H as [H1 H2]. apply String.eqb_eq in H2. now split.
    + intros [H1 H2]. apply List.filter_In. split; [exact H1|]. now apply String.eqb_eq.
Qed.

(** X6.  Completing an item moves it from the active listing to the
    completed one.  With item identifiers unique, after a successful
    completion the listing of ["completed"] items contains the completed
    item, and the listing of ["active"] items holds exactly the items that
    were stored as active before, the one with that identifier left out.
    This holds in both modes. *)
Theorem complete_moves_listing :
  forall tie id body at_ upd srv old,
    NoDup (map Item.id (storedItems srv)) ->
    find (itemById id) (storedItems srv) = Some old ->
    let srv' := snd (completeItem id body at_ upd srv) in
    let done := Item.completed old at_ (completedByOf body) upd in
    exists active completed,
      listItems tie (Some "active") srv' = (Json 200 (BItems active), srv')
      /\ listItems tie (Some "completed") srv' = (Json 200 (BItems completed), srv')
      /\ In done completed
      /\ (forall item, In item active
                       <-> In item (storedItems srv) /\ Item.status item = "active"
                           /\ Item.id item <> id).
Proof.
  intros tie id body at_ upd srv old Hnd Hfind srv' done.
  destruct (find_Some_findIndex _ _ _ Hfind) as [i Hi].
  pose proof (findIndex_Some _ _ _ _ Hi) as [Hl [Hp _]].
  unfold itemById in Hp. apply String.eqb_eq in Hp.
  assert (storedItems srv' = <[i := done]> (storedItems srv)) as E.
  { unfold srv'. rewrite completeItem_stored, Hi. cbn [snd]. apply putStored_items. }
  assert (forall z, In z (storedItems srv')
                    <-> z = done \/ (In z (storedItems srv) /\ Item.id z <> id)) as Hin.
  { intros z. rewrite E, <- Hp.
    now apply (in_insert_unique Item.id _ i old done z Hnd Hl). }
  destruct (listItems_members tie (Some "active") srv') as [active [Ha Hma]].
  destruct (listItems_members tie (Some "completed") srv') as [completed [Hc Hmc]].
  exists active, completed. split; [exact Ha|]. split; [exact Hc|]. split.
  - apply Hmc. split; [|reflexivity]. apply Hin. now left.
  - intros item. rewrite Hma, Hin. cbn. split.
    + intros [[->|[H1 H2]] H3]; [discriminate|now repeat split].
    + intros [H1 [H2 H3]]. split; [right; now split|exact H2].
Qed.

Lemma complete_moves_listing_witness :
  let i1 := Item.mk "i1" "r1" (JStr "retreat") "active" (JObj []) (Some 20)
                    (Some (JStr "admin")) None None 22 22 in
  let i2 := Item.mk "i2" "r2" (JStr "session") "active" (JObj []) (Some 30)
                    (Some (JStr "admin")) None None 32 32 in
  let srv := mkServer false (mkLocalDB [] [] [] [] [i2; i1]) (mkCollections [] [] [] [] [] []) in
  let tie := fun _ _ : Item.t => true in
  NoDup (map Item.id (storedItems srv))
  /\ find (itemById "i1") (storedItems srv) = Some i1
  /\ exists active completed,
      listItems tie (Some "active") (snd (completeItem "i1" (JObj []) 40 41 srv))
      = (Json 200 (BItems active), snd (completeItem "i1" (JObj []) 40 41 srv))
      /\ listItems tie (Some "completed") (snd (completeItem "i1" (JObj []) 40 41 srv))
         = (Json 200 (BItems completed), snd (completeItem "i1" (JObj []) 40 41 srv))
      /\ In (Item.completed i1 40 (JStr "admin") 41) completed.
Proof.
  intros i1 i2 srv tie.
  assert (NoDup (map Item.id (storedItems srv))) as Hnd
    by (apply (bool_decide_unpack (NoDup (map Item.id (storedItems srv))));
        vm_compute; exact I).
  assert (find (itemById "i1") (storedItems srv) = Some i1) as H by reflexivity.
  split; [exact Hnd|]. split; [exact H|].
  destruct (complete_moves_listing tie "i1" (JObj []) 40 41 srv i1 Hnd H)
    as [active [completed [Ha [Hc [Hin _]]]]].
  exists active, completed. split; [exact Ha|]. split; [exact Hc|exact Hin].
Defined.

Lemma filter_insert_grows {A} (q : A -> bool) (l : list A) : forall i y,
  q y = true ->
  (length (List.filter q l) <= length (List.filter q (<[i := y]> l)))%nat.
Proof.
  induction l as [|h l IH]; intros i y Hy; [cbn; lia|].
  destruct i as [|i].
  - change (<[0%nat := y]> (h :: l)) with (y :: l). cbn. rewrite Hy.
    destruct (q h); cbn; lia.
  - change (<[S i := y]> (h :: l)) with (h :: <[i := y]> l). cbn.
    specialize (IH i y Hy). destruct (q h); cbn; lia.
Qed.

Lemma completed_count_map : forall l l' : list Item.t,
  map Item.status l = map Item.status l' ->
  length (List.filter isCompleted l) = length (List.filter isCompleted l').
Proof.
  induction l as [|x l IH]; intros [|y l'] H; try discriminate; [reflexivity|].
  cbn [map] in H. injection H as Hxy H. specialize (IH l' H). cbn [List.filter].
  assert (isCompleted x = isCompleted y) as -> by (unfold isCompleted; now rewrite Hxy).
  destruct (isCompleted y); cbn [length]; lia.
Qed.

(** One call never removes an item and never takes an item out of the
    completed ones. *)
Lemma handle_items_grow c srv :
  (forall id, In id (map Item.id (storedItems srv)) ->
              In id (map Item.id (storedItems (snd (handle c srv)))))
  /\ (length (storedItems srv) <= length (storedItems (snd (handle c srv))))%nat
  /\ (length (List.filter isCompleted (storedItems srv))
      <= length (List.filter isCompleted (storedItems (snd (handle c srv)))))%nat.
Proof.
  assert (forall c', (forall id body uuid clk, c' <> Approve id body uuid clk) ->
            (forall id body a u, c' <> Complete id body a u) ->
            (forall id, In id (map Item.id (storedItems srv)) ->
                        In id (map Item.id (storedItems (snd (handle c' srv)))))
            /\ (length (storedItems srv) <= length (storedItems (snd (handle c' srv))))%nat
            /\ (length (List.filter isCompleted (storedItems srv))
                <= length (List.filter isCompleted (storedItems (snd (handle c' srv)))))%nat)
    as Hplain.
  { intros c' Ha Hc.
    pose proof (handle_keeps Item.id c' srv (fun _ _ _ _ => eq_refl) Ha) as Hid.
    assert (map Item.status (storedItems (snd (handle c' srv)))
            = map Item.status (storedItems srv)) as Hst.
    { destruct c' as [body uuid n1 n2|id body uuid clk|id|id body a u].
      - cbn [handle]. unfold postRequest, storedItems.
        destruct (negb (truthy (jsGet body "type")) || negb (truthy (jsGet body "data")));
          [reflexivity|].
        destruct srv as [[] [us ms ss rs its] [m sd cn r it us']]; cbn; [|reflexivity].
        match goal with |- context [saveRequest ?x ?l] => destruct (saveRequest x l) end;
          reflexivity.
      - now destruct (Ha id body uuid clk).
      - cbn [handle]. rewrite deleteRequest_stored.
        destruct (findIndex _ _) as [[i y]|]; [|reflexivity].
        cbn [snd]. now rewrite putStored_items.
      - now destruct (Hc id body a u). }
    rewrite Hid. split; [tauto|]. split.
    - apply (f_equal (@length _)) in Hid. rewrite !length_map in Hid. lia.
    - rewrite (completed_count_map _ _ Hst). lia. }
  destruct c as [body uuid n1 n2|id body uuid clk|id|id body a u].
  - apply Hplain; discriminate.
  - cbn [handle].
    destruct (approveRequest_items id body uuid clk srv)
      as [->|[_ [new [_ [_ [[-> _]|[-> _]]]]]]].
    + now repeat split.
    + cbn [map length List.filter]. repeat split; [intros; now right|lia|].
      destruct (isCompleted new); cbn; lia.
    + rewrite map_app, length_app, List.filter_app, length_app.
      repeat split; [intros; apply in_or_app; now left|lia|lia].
  - apply Hplain; discriminate.
  - pose proof (handle_keeps Item.id (Complete id body a u) srv
                  (fun _ _ _ _ => eq_refl) ltac:(discriminate)) as Hid.
    rewrite Hid. split; [tauto|]. split.
    + apply (f_equal (@length _)) in Hid. rewrite !length_map in Hid. lia.
    + cbn [handle]. rewrite completeItem_stored.
      destruct (findIndex (itemById id) (storedItems srv)) as [[i old]|]; [|cbn; lia].
      cbn [snd]. rewrite putStored_items. now apply filter_insert_grows.
Qed.

(** X7.  Items are never deleted and a completed item never leaves the
    completed state: over any sequence of marketplace calls, in either
    mode, every item identifier stored before is still stored after, the
    number of items does not decrease, and neither does the number of
    completed items. *)
Theorem items_never_removed :
  forall calls srv,
    (forall id, In id (map Item.id (storedItems srv)) ->
                In id (map Item.id (storedItems (run calls srv))))
    /\ (length (storedItems srv) <= length (storedItems (run calls srv)))%nat
    /\ (length (List.filter isCompleted (storedItems srv))
        <= length (List.filter isCompleted (storedItems (run calls srv))))%nat.
Proof.
  induction calls as [|c calls IH]; intros srv; [now repeat split|].
  cbn [run fold_left]. fold (run calls (snd (handle c srv))).
  destruct (handle_items_grow c srv) as [H1 [H2 H3]].
  destruct (IH (snd (handle c srv))) as [G1 [G2 G3]].
  split; [intros id Hid; apply G1, H1, Hid|]. split; lia.
Qed.

(** * Further properties of the analytics route *)

(** The response of the analytics route, written out: with the two clock
    readings in one local month and enough iterations for the loop. *)
Lemma getAnalytics_shape tza fuel query clk srv :
  sameMonth tza clk ->
  parseRangeDays (queryRange query) < Z.of_nat fuel ->
  let days := parseRangeDays (queryRange query) in
  let start := rangeStart tza days clk in
  let end_ := nowEnd clk in
  let today := localDay tza end_ in
  let bs := map (localMidnight tza) (seqZ (today - (days - 1)) days) in
  getAnalytics tza fuel query clk srv
  = Some (mkAnalytics (queryRange query) bs
            (growth (countByDay (snd (userStamps clk start end_ srv)))
                    (fst (userStamps clk start end_ srv)) (map toDateKey bs))
            (perDay (countByDay (snd (requestStamps clk start end_ srv)))
                    (map toDateKey bs))
            (fst (requestStamps clk start end_ srv))
            (itemsIn clk start end_ srv)
            (itemsIn clk (newDateYM1 tza (getFullYear tza end_) (getMonth tza end_))
                     end_ srv)).
Proof.
  intros Hsame Hfuel days start end_ today bs.
  assert (0 < days) as Hpos by apply parseRangeDays_pos.
  assert (days < Z.of_nat fuel) as Hfuel' by exact Hfuel.
  assert (localDay tza start = today - (days - 1)) as Hstart
    by exact (rangeStart_day tza days clk Hsame).
  unfold getAnalytics. fold days. fold start. fold end_.
  rewrite buildDateBuckets_midnights; rewrite Hstart; fold today; [|lia].
  replace (today - (today - (days - 1)) + 1) with days by lia. fold bs.
  destruct (userStamps clk start end_ srv) as [base inRange].
  destruct (requestStamps clk start end_ srv) as [total reqs]. reflexivity.
Qed.

(** The date keys of the buckets of a request made between the epoch and the
    last time value of [Date] are pairwise distinct. *)
Lemma analytics_keys_distinct tza days today :
  0 < days <= 365 -> -1 <= today <= 100000001 -> - msPerDay <= tza <= msPerDay ->
  NoDup (map toDateKey (map (localMidnight tza) (seqZ (today - (days - 1)) days))).
Proof.
  intros Hd Ht Htza. apply bucket_keys_distinct. intros d Hdr.
  unfold Day, localMidnight, msPerDay in *. Z.to_euclidean_division_equations; lia.
Qed.

Lemma today_range tza t :
  0 <= t <= maxTime -> - msPerDay <= tza <= msPerDay -> -1 <= localDay tza t <= 100000001.
Proof.
  intros Ht Htza. unfold localDay, Day, LocalTime, maxTime, msPerDay in *. fixed_zone.
  Z.to_euclidean_division_equations; lia.
Qed.

(** The number of days of a request, read off its query parameter. *)
Lemma days_of_query query :
  parseRangeDays (queryRange query)
  = match query with JStr "30d" => 30 | JStr "90d" => 90 | JStr "1y" => 365 | _ => 7 end.
Proof.
  destruct query as [| | | |s| |]; try reflexivity. cbn [queryRange]. unfold parseRangeDays.
  destruct (String.eqb_spec s "30d") as [->|H1]; [reflexivity|].
  destruct (String.eqb_spec s "90d") as [->|H2]; [reflexivity|].
  destruct (String.eqb_spec s "1y") as [->|H3]; [reflexivity|].
  repeat match goal with
         | |- context [match ?x with _ => _ end] => is_var x; destruct x
         end; try reflexivity; congruence.
Qed.

(** X28.  Where the day buckets are the calendar days the specification
    asks for.  On a host whose offset from UTC never changes (and lies
    within a day), for a request made between the epoch and the last time
    value of [Date] whose two clock readings fall in one local month, the
    bucket loop being given more steps ([fuel]) than [days]: both series
    have exactly [days] entries, where [days] is 30, 90 or 365 for
    the query values ["30d"], ["90d"], ["1y"] and 7 for anything else; the
    buckets are the local midnights of the local days today - (days - 1) to
    today; and the keys returned are consecutive calendar dates in ascending
    order, none twice: the dates of those very days on a host at or behind
    UTC, and the dates of the days before them on a host ahead of UTC. *)
Theorem analytics_day_buckets :
  forall tza fuel query clk srv,
    let days := match query with
                | JStr "30d" => 30 | JStr "90d" => 90 | JStr "1y" => 365 | _ => 7
                end in
    let today := localDay (fixed tza) (nowEnd clk) in
    let ahead := if 0 <? tza then 1 else 0 in
    sameMonth (fixed tza) clk ->
    days < Z.of_nat fuel ->
    0 <= nowEnd clk <= maxTime ->
    - msPerDay < tza <= msPerDay ->
    exists a,
      getAnalytics (fixed tza) fuel query clk srv = Some a
      /\ buckets a = map (localMidnight tza) (seqZ (today - (days - 1)) days)
      /\ Z.of_nat (length (userGrowth a)) = days
      /\ Z.of_nat (length (bookings a)) = days
      /\ map fst (userGrowth a)
         = map (fun d => toDateKey (d * msPerDay)) (seqZ (today - (days - 1) - ahead) days)
      /\ map fst (bookings a) = map fst (userGrowth a)
      /\ NoDup (map fst (userGrowth a)).
Proof.
  intros tza fuel query clk srv days today ahead Hsame Hfuel Hnow Htza.
  assert (parseRangeDays (queryRange query) = days) as Hdays by apply days_of_query.
  assert (0 < days <= 365) as Hrange.
  { rewrite <- Hdays. split; [apply parseRangeDays_pos|apply parseRangeDays_le]. }
  rewrite (getAnalytics_shape tza fuel query clk srv Hsame) by (rewrite Hdays; exact Hfuel).
  rewrite Hdays. fold today.
  set (bs := map (localMidnight tza) (seqZ (today - (days - 1)) days)).
  eexists. split; [reflexivity|]. cbn [buckets userGrowth bookings].
  split; [reflexivity|].
  assert (length bs = Z.to_nat days) as Hlen
    by (unfold bs; rewrite length_map, length_seqZ; reflexivity).
  assert (map toDateKey bs
          = map (fun d => toDateKey (d * msPerDay)) (seqZ (today - (days - 1) - ahead) days))
    as Hkeys.
  { unfold bs. rewrite map_map.
    replace (today - (days - 1) - ahead) with (- ahead + (today - (days - 1))) by lia.
    rewrite <- (fmap_add_seqZ (- ahead) (today - (days - 1)) days).
    change (Z.add (- ahead) <$> seqZ (today - (days - 1)) days)
      with (map (Z.add (- ahead)) (seqZ (today - (days - 1)) days)).
    rewrite map_map. apply map_ext. intros d. unfold ahead.
    destruct (Z.ltb_spec 0 tza) as [Hpos|Hneg].
    - rewrite (proj2 (bucket_date_key tza d)) by lia.
      now replace (- (1) + d) with (d - 1) by lia.
    - rewrite (proj1 (bucket_date_key tza d)) by lia.
      now replace (- 0 + d) with d by lia. }
  split; [rewrite <- (length_map fst), growth_keys, length_map, Hlen; lia|].
  split; [rewrite <- (length_map fst), perDay_keys, length_map, Hlen; lia|].
  rewrite growth_keys, perDay_keys. split; [exact Hkeys|]. split; [reflexivity|].
  apply analytics_keys_distinct; [exact Hrange| |lia].
  apply today_range; [exact Hnow|lia].
Qed.

Lemma analytics_day_buckets_witness :
  let clk := mkAnalyticsClock 1704861000000 1704861000001 (fun _ => 1704861000002) in
  let srv := boot false "a0" "hash" (mkCollections [] [] [] [] [] []) in
  sameMonth (fixed 0) clk
  /\ 30 < Z.of_nat 31
  /\ 0 <= nowEnd clk <= maxTime
  /\ - msPerDay < 0 <= msPerDay
  /\ exists a,
      getAnalytics (fixed 0) 31 (JStr "30d") clk srv = Some a
      /\ Z.of_nat (length (userGrowth a)) = 30
      /\ map fst (userGrowth a)
         = map (fun d => toDateKey (d * msPerDay)) (seqZ (19732 - 29) 30).
Proof.
  intros clk srv.
  assert (sameMonth (fixed 0) clk) as H1 by (split; vm_compute; reflexivity).
  assert (30 < Z.of_nat 31) as H2 by (vm_compute; reflexivity).
  assert (0 <= nowEnd clk <= maxTime) as H3 by (vm_compute; split; discriminate).
  assert (- msPerDay < 0 <= msPerDay) as H4 by (vm_compute; split; [reflexivity|discriminate]).
  split; [exact H1|]. split; [exact H2|]. split; [exact H3|]. split; [exact H4|].
  destruct (analytics_day_buckets 0 31 (JStr "30d") clk srv H1 H2 H3 H4)
    as (a & Ha & _ & Hl & _ & Hk & _).
  exists a. split; [exact Ha|]. split; [exact Hl|exact Hk].
Defined.

Lemma sumZ_app l1 l2 : sumZ (app l1 l2) = sumZ l1 + sumZ l2.
Proof. induction l1 as [|x l1 IH]; cbn; [reflexivity|]. unfold sumZ in *. cbn. lia. Qed.

(** Over pairwise distinct date keys, the stamps counted per key are at most
    the stamps there are. *)
Lemma onDay_sum_le stamps : forall keys,
  NoDup keys -> sumZ (map (onDay stamps) keys) <= Z.of_nat (length stamps).
Proof.
  induction stamps as [|c stamps IH]; intros keys Hnd.
  - induction keys as [|k keys IHk]; [cbn; lia|].
    apply NoDup_cons in Hnd as [_ Hnd]. specialize (IHk Hnd).
    cbn [map]. unfold sumZ in *. cbn [fold_right length] in *.
    change (onDay [] k) with 0. lia.
  - specialize (IH keys Hnd).
    assert (sumZ (map (onDay (c :: stamps)) keys)
            = sumZ (map (fun k => if String.eqb (toDateKey c) k then 1 else 0) keys)
              + sumZ (map (onDay stamps) keys)) as ->.
    { clear. induction keys as [|k keys IHk]; [reflexivity|].
      cbn [map sumZ fold_right]. unfold sumZ in IHk. rewrite IHk, onDay_cons. lia. }
    assert (sumZ (map (fun k => if String.eqb (toDateKey c) k then 1 else 0) keys) <= 1).
    { clear IH. induction keys as [|k keys IHk]; [cbn; lia|].
      apply NoDup_cons in Hnd as [Hnotin Hnd]. specialize (IHk Hnd).
      cbn [map sumZ fold_right]. unfold sumZ in IHk.
      destruct (String.eqb_spec (toDateKey c) k) as [->|Hne]; [|lia].
      assert (fold_right Z.add 0
                (map (fun k0 => if String.eqb k k0 then 1 else 0) keys) = 0) as ->; [|lia].
      clear IHk Hnd. induction keys as [|k' keys IHk']; [reflexivity|].
      cbn [map fold_right].
      destruct (String.eqb_spec k k') as [->|Hne'];
        [exfalso; apply Hnotin; now left|].
      rewrite IHk'; [lia|]. intros Hin. apply Hnotin. now right. }
    cbn [length]. lia.
Qed.

Lemma filter_length_le {A} (p : A -> bool) l : (length (List.filter p l) <= length l)%nat.
Proof. induction l as [|x l IH]; cbn; [lia|]. destruct (p x); cbn; lia. Qed.

Lemma filter_disjoint_length {A} (p q : A -> bool) l :
  (forall x, p x = true -> q x = false) ->
  (length (List.filter p l) + length (List.filter q l) <= length l)%nat.
Proof.
  intros H. induction l as [|x l IH]; cbn; [lia|].
  destruct (p x) eqn:Hp; [rewrite (H x Hp)|destruct (q x)]; cbn; lia.
Qed.

Lemma userCreated_length clk srv :
  Z.of_nat (length (userCreated clk srv)) <= totalUsers srv.
Proof.
  unfold userCreated, totalUsers. destruct (mongoConnected srv).
  - assert (length (omap Usr.createdAt (User (mongo srv))) <= length (User (mongo srv)))%nat;
      [|lia].
    induction (User (mongo srv)) as [|u l IH]; [cbn; lia|].
    change (omap Usr.createdAt (u :: l))
      with (match Usr.createdAt u with
            | Some c => c :: omap Usr.createdAt l
            | None => omap Usr.createdAt l
            end).
    destruct (Usr.createdAt u); cbn [length]; lia.
  - rewrite length_imap. lia.
Qed.

Lemma take_NoDup {A} (l : list A) n : NoDup l -> NoDup (take n l).
Proof.
  intros H. rewrite <- (take_drop n l) in H. now apply NoDup_app in H as [H _].
Qed.

(** X8.  The user-growth series never exceeds the number of users: on a
    host whose offset from UTC never changes and lies within a day, for a
    request made between the epoch and the last time value of [Date] whose
    two clock readings fall in one local month, every value of the series
    lies between the baseline and [metrics.totalUsers], in both modes; the
    bucket loop is given more steps ([fuel]) than the range has days.  (On a
    host that changes its offset a date key can label two buckets, and a
    user be counted twice.) *)
Theorem userGrowth_within_total :
  forall tza fuel query clk srv,
    sameMonth (fixed tza) clk ->
    parseRangeDays (queryRange query) < Z.of_nat fuel ->
    0 <= nowEnd clk <= maxTime ->
    - msPerDay <= tza <= msPerDay ->
    exists a,
      getAnalytics (fixed tza) fuel query clk srv = Some a
      /\ forall i key v,
           userGrowth a !! i = Some (key, v) ->
           let start := rangeStart (fixed tza) (parseRangeDays (queryRange query)) clk in
           Z.of_nat (length (List.filter (fun c => c <? start) (userCreated clk srv))) <= v
           /\ v <= totalUsers srv.
Proof.
  intros tza fuel query clk srv Hsame Hfuel Hnow Htza.
  rewrite (getAnalytics_shape tza fuel query clk srv Hsame Hfuel).
  eexists. split; [reflexivity|]. cbn [userGrowth].
  intros i key v H.
  set (start := rangeStart (fixed tza) (parseRangeDays (queryRange query)) clk) in *.
  rewrite userStamps_spec in H. cbn [fst snd] in H.
  apply growth_lookup in H as [_ ->].
  set (created := userCreated clk srv).
  set (inRange := List.filter (within start (nowEnd clk)) created).
  set (keys := map toDateKey _).
  assert (map (fun k => default 0 (countByDay inRange !! k)) (take (S i) keys)
          = map (onDay inRange) (take (S i) keys)) as ->
    by (apply map_ext; intros k; apply countByDay_lookup).
  assert (NoDup keys) as Hnd.
  { apply analytics_keys_distinct; [|now apply today_range|exact Htza].
    split; [apply parseRangeDays_pos|apply parseRangeDays_le]. }
  pose proof (onDay_sum_le inRange (take (S i) keys) (take_NoDup _ _ Hnd)) as Hsum.
  assert (0 <= sumZ (map (onDay inRange) (take (S i) keys))) as Hpos.
  { clear. induction (take (S i) keys) as [|k l IH]; [cbn; lia|].
    cbn [map sumZ fold_right]. unfold sumZ in IH. pose proof (onDay_nonneg inRange k). lia. }
  pose proof (filter_disjoint_length (fun c => c <? start) (within start (nowEnd clk)) created)
    as Hdis.
  pose proof (userCreated_length clk srv) as Htot. fold created in Htot.
  split; [lia|].
  assert (length (List.filter (fun c => Z.ltb c start) created)
          + length (List.filter (within start (nowEnd clk)) created) <= length created)%nat.
  { apply Hdis. intros x Hx. unfold within. apply Z.ltb_lt in Hx.
    destruct (Z.leb_spec start x); [lia|reflexivity]. }
  fold inRange in H. lia.
Qed.

Lemma userGrowth_within_total_witness :
  let clk := mkAnalyticsClock 1704861000000 1704861000000 (fun _ => 1704861000000) in
  let srv := boot false "a0" "hash" (mkCollections [] [] [] [] [] []) in
  sameMonth (fixed 0) clk
  /\ parseRangeDays (queryRange (JStr "30d")) < Z.of_nat 31
  /\ 0 <= nowEnd clk <= maxTime
  /\ - msPerDay <= 0 <= msPerDay
  /\ exists a,
      getAnalytics (fixed 0) 31 (JStr "30d") clk srv = Some a
      /\ forall i key v, userGrowth a !! i = Some (key, v) -> v <= totalUsers srv.
Proof.
  intros clk srv.
  assert (sameMonth (fixed 0) clk) as H1 by (split; reflexivity).
  assert (parseRangeDays (queryRange (JStr "30d")) < Z.of_nat 31) as H2
    by (vm_compute; reflexivity).
  assert (0 <= nowEnd clk <= maxTime) as H3 by (vm_compute; split; discriminate).
  assert (- msPerDay <= 0 <= msPerDay) as H4 by (vm_compute; split; discriminate).
  split; [exact H1|]. split; [exact H2|]. split; [exact H3|]. split; [exact H4|].
  destruct (userGrowth_within_total 0 31 (JStr "30d") clk srv H1 H2 H3 H4) as [a [Ha Hv]].
  exists a. split; [exact Ha|]. intros i key v H. exact (proj2 (Hv i key v H)).
Defined.

Lemma requestStamps_spec clk start end_ srv :
  requestStamps clk start end_ srv
  = (Z.of_nat (length (storedRequests srv)),
     List.filter (within start end_) (requestCreated clk srv)).
Proof.
  unfold requestStamps, storedRequests, requestCreated.
  destruct (mongoConnected srv); reflexivity.
Qed.

(** X9.  The bookings series counts, per bucket, the stored requests created
    inside the window on the day of that bucket's date key (it is not
    cumulative), and the counts of all buckets together never exceed
    [totalBookings], the number of stored requests.  This holds in both
    modes, on a host whose offset from UTC never changes and lies within a
    day, for a request made between the epoch and the last time value of
    [Date] whose two clock readings fall in one local month; the bucket loop
    is given more steps ([fuel]) than the range has days.  (On a host that
    changes its offset a date key can label two buckets, and a request be
    counted twice.) *)
Theorem bookings_daily_counts :
  forall tza fuel query clk srv,
    sameMonth (fixed tza) clk ->
    parseRangeDays (queryRange query) < Z.of_nat fuel ->
    0 <= nowEnd clk <= maxTime ->
    - msPerDay <= tza <= msPerDay ->
    exists a,
      getAnalytics (fixed tza) fuel query clk srv = Some a
      /\ totalBookings a = Z.of_nat (length (storedRequests srv))
      /\ (forall i key n,
            bookings a !! i = Some (key, n) ->
            let start := rangeStart (fixed tza) (parseRangeDays (queryRange query)) clk in
            (toDateKey <$> buckets a !! i) = Some key
            /\ n = onDay (List.filter (within start (nowEnd clk)) (requestCreated clk srv)) key)
      /\ 0 <= sumZ (map snd (bookings a)) <= totalBookings a.
Proof.
  intros tza fuel query clk srv Hsame Hfuel Hnow Htza.
  rewrite (getAnalytics_shape tza fuel query clk srv Hsame Hfuel).
  eexists. split; [reflexivity|]. cbn [totalBookings bookings buckets].
  set (start := rangeStart (fixed tza) (parseRangeDays (queryRange query)) clk).
  rewrite requestStamps_spec. cbn [fst snd].
  set (inRange := List.filter (within start (nowEnd clk)) (requestCreated clk srv)).
  set (bs := map (localMidnight tza) _).
  assert (perDay (countByDay inRange) (map toDateKey bs)
          = map (fun key => (key, onDay inRange key)) (map toDateKey bs)) as ->.
  { unfold perDay. apply map_ext. intros k. now rewrite countByDay_lookup. }
  split; [reflexivity|]. split.
  - intros i key n H. rewrite map_map in H.
    change (map (fun x => (toDateKey x, onDay inRange (toDateKey x))) bs)
      with ((fun x => (toDateKey x, onDay inRange (toDateKey x))) <$> bs) in H.
    rewrite list_lookup_fmap in H.
    destruct (bs !! i) as [b|]; [|discriminate]. cbn in H. injection H as <- <-.
    split; reflexivity.
  - rewrite map_map. cbn [snd].
    change (map (fun x => onDay inRange x) (map toDateKey bs))
      with (map (onDay inRange) (map toDateKey bs)).
    assert (NoDup (map toDateKey bs)) as Hnd.
    { apply analytics_keys_distinct; [|now apply today_range|exact Htza].
      split; [apply parseRangeDays_pos|apply parseRangeDays_le]. }
    pose proof (onDay_sum_le inRange _ Hnd) as Hsum.
    assert (length inRange <= length (requestCreated clk srv))%nat as Hlen
      by apply filter_length_le.
    assert (length (requestCreated clk srv) = length (storedRequests srv)) as Hsame'.
    { unfold requestCreated, storedRequests. destruct (mongoConnected srv).
      - apply length_map.
      - apply length_imap. }
    split; [|lia].
    clear. induction (map toDateKey bs) as [|k l IH]; [cbn; lia|].
    cbn [map sumZ fold_right]. unfold sumZ in IH. pose proof (onDay_nonneg inRange k). lia.
Qed.

Lemma bookings_daily_counts_witness :
  let clk := mkAnalyticsClock 1704861000000 1704861000000 (fun _ => 1704861000000) in
  let srv := boot false "a0" "hash" (mkCollections [] [] [] [] [] []) in
  sameMonth (fixed 0) clk
  /\ parseRangeDays (queryRange (JStr "7d")) < Z.of_nat 8
  /\ 0 <= nowEnd clk <= maxTime
  /\ - msPerDay <= 0 <= msPerDay
  /\ exists a,
      getAnalytics (fixed 0) 8 (JStr "7d") clk srv = Some a
      /\ 0 <= sumZ (map snd (bookings a)) <= totalBookings a.
Proof.
  intros clk srv.
  assert (sameMonth (fixed 0) clk) as H1 by (split; reflexivity).
  assert (parseRangeDays (queryRange (JStr "7d")) < Z.of_nat 8) as H2
    by (vm_compute; reflexivity).
  assert (0 <= nowEnd clk <= maxTime) as H3 by (vm_compute; split; discriminate).
  assert (- msPerDay <= 0 <= msPerDay) as H4 by (vm_compute; split; discriminate).
  split; [exact H1|]. split; [exact H2|]. split; [exact H3|]. split; [exact H4|].
  destruct (bookings_daily_counts 0 8 (JStr "7d") clk srv H1 H2 H3 H4)
    as [a [Ha [_ [_ Hs]]]].
  exists a. split; [exact Ha|exact Hs].
Defined.

Lemma candidateAmount_finite v n : candidateAmount v = Some n -> isFinite n = true.
Proof.
  destruct v; cbn; try discriminate.
  all: match goal with
       | |- (if isFinite ?x then _ else _) = _ -> _ =>
           destruct (isFinite x) eqn:E; [intros [= <-]; exact E|discriminate]
       end.
Qed.

Lemma firstAmount_finite candidates : isFinite (firstAmount candidates) = true.
Proof.
  induction candidates as [|v rest IH]; [reflexivity|]. cbn [firstAmount].
  destruct (candidateAmount v) as [n|] eqn:E; [exact (candidateAmount_finite v n E)|exact IH].
Qed.

Lemma firstAmount_none candidates :
  Forall (fun v => candidateAmount v = None) candidates ->
  firstAmount candidates = numZ 0.
Proof.
  induction 1 as [|v rest Hv _ IH]; [reflexivity|]. cbn [firstAmount]. now rewrite Hv.
Qed.

(** X10.  The amount read from an item is always a finite number, never
    [NaN] or an infinity, so the revenue sums stay finite; an item whose
    [data] is not an object (missing, [null], a string, a number, an array)
    counts for 0. *)
Theorem getItemAmount_finite :
  forall item,
    isFinite (getItemAmount item) = true
    /\ ((forall fields, Item.data item <> JObj fields) -> getItemAmount item = numZ 0).
Proof.
  intros item. split; [apply firstAmount_finite|].
  intros Hobj. unfold getItemAmount. apply firstAmount_none.
  assert (forall k, jsGet (jsOr (Item.data item) (JObj [])) k = JUndefined) as Hget.
  { intros k. unfold jsOr. destruct (truthy (Item.data item)); [|reflexivity].
    destruct (Item.data item) as [| | | | | |fs]; try reflexivity.
    now destruct (Hobj fs). }
  cbv zeta. rewrite !Hget. repeat constructor.
Qed.

Lemma getItemAmount_finite_witness :
  let item := Item.mk "i1" "r1" (JStr "retreat") "active" (JStr "free") None None None None 0 0 in
  (forall fields, Item.data item <> JObj fields) /\ getItemAmount item = numZ 0.
Proof.
  intros item.
  assert (forall fields, Item.data item <> JObj fields) as H by (intros fields; discriminate).
  split; [exact H|]. exact (proj2 (getItemAmount_finite item) H).
Defined.

(** X11.  [buildDateBuckets] for any two dates, on a host whose offset from
    UTC never changes: one bucket per local calendar day from the day of
    [start] to the day of [end], each a local midnight a whole number of
    days after the midnight of [start]'s day and never after [end]; when
    [start] falls on a later day than [end] there is no bucket at all; the
    loop is given more steps ([fuel]) than there are days.  (On a host that
    changes its offset the step from a midnight to the next is an hour short
    or long on the day of the change.) *)
Theorem buildDateBuckets_days :
  forall tza fuel start end_,
    Z.max 0 (localDay (fixed tza) end_ - localDay (fixed tza) start + 1) < Z.of_nat fuel ->
    exists bs,
      buildDateBuckets (fixed tza) fuel start end_ = Some bs
      /\ Z.of_nat (length bs)
         = Z.max 0 (localDay (fixed tza) end_ - localDay (fixed tza) start + 1)
      /\ (forall i b,
            bs !! i = Some b ->
            b = setHours (fixed tza) start 0 0 0 0 + Z.of_nat i * msPerDay
            /\ b <= end_
            /\ TimeWithinDay (LocalTime (fixed tza) b) = 0)
      /\ (localDay (fixed tza) end_ < localDay (fixed tza) start -> bs = []).
Proof.
  intros tza fuel start end_ Hfuel.
  rewrite (buildDateBuckets_midnights tza fuel start end_ Hfuel).
  eexists. split; [reflexivity|].
  set (ds := localDay (fixed tza) start). set (de := localDay (fixed tza) end_).
  assert (Z.of_nat (length (map (localMidnight tza) (seqZ ds (de - ds + 1))))
          = Z.max 0 (de - ds + 1)) as Hlen.
  { rewrite length_map, length_seqZ. lia. }
  split; [exact Hlen|]. split.
  - intros i b H.
    change (map (localMidnight tza) (seqZ ds (de - ds + 1)))
      with (localMidnight tza <$> seqZ ds (de - ds + 1)) in H.
    rewrite list_lookup_fmap in H.
    destruct (seqZ ds (de - ds + 1) !! i) as [d|] eqn:Hd; [|discriminate].
    cbn in H. injection H as <-. apply lookup_seqZ in Hd as [-> Hi].
    rewrite setHours_midnight. fold ds.
    split; [unfold localMidnight; lia|]. split.
    + pose proof (Day_split (LocalTime (fixed tza) end_)) as Hs.
      pose proof (TimeWithinDay_range (LocalTime (fixed tza) end_)) as Hr.
      change (Day (LocalTime (fixed tza) end_)) with de in Hs.
      unfold localMidnight, LocalTime, msPerDay in *. fixed_zone. nia.
    + unfold TimeWithinDay, LocalTime, localMidnight. fixed_zone.
      replace ((ds + Z.of_nat i) * msPerDay - tza + tza)
        with ((ds + Z.of_nat i) * msPerDay) by lia.
      apply Z.mod_mul. unfold msPerDay. lia.
  - intros Hlt. destruct (map (localMidnight tza) (seqZ ds (de - ds + 1))); [reflexivity|].
    cbn [length] in Hlen. lia.
Qed.

Lemma buildDateBuckets_days_witness :
  exists bs,
    buildDateBuckets (fixed 19800000) 5 1704861000000 1704700000000 = Some bs /\ bs = [].
Proof.
  assert (Z.max 0 (localDay (fixed 19800000) 1704700000000 - localDay (fixed 19800000) 1704861000000 + 1)
          < Z.of_nat 5) as H by (vm_compute; reflexivity).
  destruct (buildDateBuckets_days 19800000 5 1704861000000 1704700000000 H)
    as [bs [Hbs [_ [_ Hempty]]]].
  exists bs. split; [exact Hbs|]. apply Hempty. vm_compute. reflexivity.
Defined.

(** X12.  The date key names the UTC day: between the epoch and the last
    time value of [Date], two instants have the same [toDateKey] exactly
    when they fall on the same UTC day. *)
Theorem toDateKey_same_day :
  forall t1 t2,
    0 <= t1 <= maxTime -> 0 <= t2 <= maxTime ->
    (toDateKey t1 = toDateKey t2 <-> Day t1 = Day t2).
Proof.
  intros t1 t2 H1 H2.
  assert (forall t, 0 <= t <= maxTime -> -367 <= Day t <= 100000002) as Hday.
  { intros t Ht. unfold Day, maxTime, msPerDay in *. Z.to_euclidean_division_equations; lia. }
  split.
  - apply toDateKey_inj; apply YearFromTime_bounds, Hday; assumption.
  - intros H. rewrite (toDateKey_Day t1), (toDateKey_Day t2), H. reflexivity.
Qed.

Lemma toDateKey_same_day_witness :
  toDateKey 1704844800000 = toDateKey 1704931199999
  /\ toDateKey 1704931199999 <> toDateKey 1704931200000.
Proof.
  assert (0 <= 1704844800000 <= maxTime) as H1 by (vm_compute; split; discriminate).
  assert (0 <= 1704931199999 <= maxTime) as H2 by (vm_compute; split; discriminate).
  assert (0 <= 1704931200000 <= maxTime) as H3 by (vm_compute; split; discriminate).
  split.
  - apply (proj2 (toDateKey_same_day _ _ H1 H2)). vm_compute. reflexivity.
  - intros H. apply (proj1 (toDateKey_same_day _ _ H2 H3)) in H. vm_compute in H.
    discriminate H.
Defined.

Lemma DayFromYear_mono a b : a <= b -> DayFromYear a <= DayFromYear b.
Proof. intros H. unfold DayFromYear. Z.to_euclidean_division_equations; lia. Qed.

Lemma YearFromTime_unique t y :
  DayFromYear y <= Day t < DayFromYear (y + 1) -> YearFromTime t = y.
Proof.
  intros H. pose proof (YearFromTime_spec t) as Hs.
  destruct (Z.lt_trichotomy (YearFromTime t) y) as [Hlt|[Heq|Hgt]]; [|exact Heq|].
  - pose proof (DayFromYear_mono (YearFromTime t + 1) y ltac:(lia)). lia.
  - pose proof (DayFromYear_mono (y + 1) (YearFromTime t) ltac:(lia)). lia.
Qed.

Lemma monthStart_nonneg m l : 0 <= m <= 11 -> 0 <= l <= 1 -> 0 <= monthStart m l.
Proof.
  intros Hm Hl.
  assert (m = 0 \/ m = 1 \/ m = 2 \/ m = 3 \/ m = 4 \/ m = 5 \/ m = 6 \/ m = 7
          \/ m = 8 \/ m = 9 \/ m = 10 \/ m = 11) as HM by lia.
  repeat (destruct HM as [->|HM]); try rewrite HM; cbn; lia.
Qed.

(** The first day of the month of [t]: same year, same month, date 1. *)
Lemma first_of_month t :
  let t0 := (Day t - (DateFromTime t - 1)) * msPerDay in
  YearFromTime t0 = YearFromTime t
  /\ MonthFromTime t0 = MonthFromTime t
  /\ DateFromTime t0 = 1.
Proof.
  intros t0.
  assert (Day t0 = Day t - (DateFromTime t - 1)) as Hday.
  { unfold t0. rewrite <- (Z.add_0_r (_ * msPerDay)). apply Day_unique.
    unfold msPerDay. lia. }
  pose proof (Day_from_date t) as Hd.
  pose proof (MonthFromTime_range t) as Hm.
  pose proof (DateFromTime_range t) as Hdt.
  pose proof (YearFromTime_spec t) as Hy.
  unfold MakeDay in Hd.
  rewrite (Z.div_small (MonthFromTime t) 12), (Z.mod_small (MonthFromTime t) 12), Z.add_0_r
    in Hd by lia.
  remember (YearFromTime t) as Y eqn:EY. remember (MonthFromTime t) as M eqn:EM.
  assert (0 <= leapOf Y <= 1) as Hl
    by (unfold leapOf; destruct (Z.eqb (DaysInYear Y) 366); lia).
  pose proof (monthStart_nonneg M (leapOf Y) Hm Hl) as Hms.
  assert (Day t0 = DayFromYear Y + monthStart M (leapOf Y)) as Hday0 by lia.
  assert (YearFromTime t0 = Y) as HY by (apply YearFromTime_unique; lia).
  assert (DayWithinYear t0 = monthStart M (leapOf Y)) as Hdw
    by (unfold DayWithinYear; rewrite HY; lia).
  assert (InLeapYear t0 = leapOf Y) as Hil by (unfold InLeapYear; now rewrite HY).
  split; [exact HY|].
  assert (MonthFromTime t0 = M) as HM0.
  { unfold MonthFromTime. rewrite Hdw, Hil. clear - Hm Hl.
    remember (leapOf Y) as l eqn:El. clear El.
    assert (M = 0 \/ M = 1 \/ M = 2 \/ M = 3 \/ M = 4 \/ M = 5 \/ M = 6 \/ M = 7
            \/ M = 8 \/ M = 9 \/ M = 10 \/ M = 11) as HM by lia.
    assert (l = 0 \/ l = 1) as [->| ->] by lia;
      repeat (destruct HM as [->|HM]); try rewrite HM; reflexivity. }
  split; [exact HM0|].
  unfold DateFromTime. rewrite HM0, Hdw, Hil. clear - Hm Hl.
  remember (leapOf Y) as l eqn:El. clear El.
  assert (M = 0 \/ M = 1 \/ M = 2 \/ M = 3 \/ M = 4 \/ M = 5 \/ M = 6 \/ M = 7
          \/ M = 8 \/ M = 9 \/ M = 10 \/ M = 11) as HM by lia.
  repeat (destruct HM as [->|HM]); try rewrite HM; cbn; lia.
Qed.



(** * Further properties: listings and isolation of the two stores *)

Lemma insertDescBy_perm {A} (stamp : A -> Z) x l :
  Permutation (insertDescBy stamp x l) (x :: l).
Proof.
  induction l as [|y l IH]; [reflexivity|]. cbn [insertDescBy].
  destruct (stamp y <=? stamp x); [reflexivity|].
  rewrite IH. apply perm_swap.
Qed.

Lemma sortDescBy_perm {A} (stamp : A -> Z) l : Permutation (sortDescBy stamp l) l.
Proof.
  induction l as [|x l IH]; [reflexivity|]. cbn.
  rewrite insertDescBy_perm. now constructor.
Qed.

Lemma insertDescBy_descending {A} (stamp : A -> Z) x l :
  descendingBy stamp l -> descendingBy stamp (insertDescBy stamp x l).
Proof.
  unfold descendingBy. induction l as [|y l IH]; intros H.
  - cbn. repeat constructor.
  - cbn [insertDescBy]. cbn [map] in H. apply StronglySorted_inv in H as [Hs Hall].
    destruct (Z.leb_spec (stamp y) (stamp x)) as [Hle|Hgt].
    + cbn [map]. constructor; [now constructor|].
      constructor; [lia|]. eapply List.Forall_impl; [|exact Hall]. cbn. intros z Hz. lia.
    + cbn [map]. constructor; [now apply IH|].
      assert (Forall (fun z => stamp y >= z) (map stamp (x :: l))) as Hx
        by (cbn [map]; constructor; [lia|exact Hall]).
      eapply Permutation_Forall; [|exact Hx].
      apply Permutation_map. symmetry. apply insertDescBy_perm.
Qed.

Lemma sortDescBy_descending {A} (stamp : A -> Z) l : descendingBy stamp (sortDescBy stamp l).
Proof.
  induction l as [|x l IH]; [constructor|]. cbn. now apply insertDescBy_descending.
Qed.

(** The sort is stable: records with one stamp keep their order. *)
Lemma insertDescBy_stable {A} (stamp : A -> Z) c x l :
  List.filter (fun y => Z.eqb (stamp y) c) (insertDescBy stamp x l)
  = List.filter (fun y => Z.eqb (stamp y) c) (x :: l).
Proof.
  induction l as [|y l IH]; [reflexivity|]. cbn [insertDescBy].
  destruct (Z.leb_spec (stamp y) (stamp x)) as [Hle|Hgt]; [reflexivity|].
  cbn [List.filter] in *. rewrite IH.
  destruct (Z.eqb_spec (stamp y) c) as [Hy|Hy];
    destruct (Z.eqb_spec (stamp x) c) as [Hx|Hx]; try reflexivity. lia.
Qed.

Lemma sortDescBy_stable {A} (stamp : A -> Z) c l :
  List.filter (fun y => Z.eqb (stamp y) c) (sortDescBy stamp l)
  = List.filter (fun y => Z.eqb (stamp y) c) l.
Proof.
  induction l as [|x l IH]; [reflexivity|].
  change (sortDescBy stamp (x :: l)) with (insertDescBy stamp x (sortDescBy stamp l)).
  rewrite insertDescBy_stable. cbn [List.filter]. now rewrite IH.
Qed.

(** X14.  The request listing answers, in both modes, with every stored
    request exactly once, newest first by creation stamp, and it changes
    nothing.  On a degraded server requests of one stamp come in their
    stored order; on a connected server the database fixes no order among
    them, and the listing is newest first whatever order it gives them. *)
Theorem listRequests_newest_first :
  forall tie srv,
    exists l,
      listRequests tie srv = (Listed l, srv)
      /\ Permutation l (storedRequests srv)
      /\ descendingBy Req.createdAt l
      /\ (mongoConnected srv = false ->
          forall c, List.filter (fun r => Z.eqb (Req.createdAt r) c) l
                    = List.filter (fun r => Z.eqb (Req.createdAt r) c) (storedRequests srv)).
Proof.
  intros tie srv. unfold listRequests, mongoose, storedRequests.
  destruct (mongoConnected srv); cbn [negb]; eexists; (split; [reflexivity|]).
  - split; [apply dbSortDescBy_perm|]. split; [apply dbSortDescBy_descending|].
    discriminate.
  - split; [apply sortDescBy_perm|]. split; [apply sortDescBy_descending|].
    intros _ c. apply sortDescBy_stable.
Qed.

(** Every marketplace call leaves the server as it was but for the requests
    and items of the answering store. *)
Ltac stored_by_shape :=
  do 2 eexists; unfold putStored;
  cbv [withMongo withMarketplaceItem withMarketplaceRequest withLocalDB withItems
       withRequests];
  cbn; reflexivity.

Lemma handle_putStored c srv :
  exists rs its, snd (handle c srv) = putStored srv rs its.
Proof.
  destruct srv as [mode [us ms ss rs its] [m sd cn r it us']].
  destruct c as [body uuid now1 now2|id body uuid clk|id|id body a u]; cbn [handle].
  - unfold postRequest.
    destruct (negb (truthy (jsGet body "type")) || negb (truthy (jsGet body "data"))).
    + exists (storedRequests (mkServer mode (mkLocalDB us ms ss rs its)
                                       (mkCollections m sd cn r it us'))),
             (storedItems (mkServer mode (mkLocalDB us ms ss rs its)
                                    (mkCollections m sd cn r it us'))).
      now rewrite putStored_same.
    + destruct mode; cbn.
      * match goal with |- context [saveRequest ?x ?l] => destruct (saveRequest x l) end;
          cbn; stored_by_shape.
      * stored_by_shape.
  - unfold approveRequest. destruct mode; cbn.
    + destruct (findOneAndUpdate _ _ _) as [[request requests]|];
        [|stored_by_shape].
      cbn. destruct (find _ _); [stored_by_shape|].
      match goal with |- context [saveItem ?x ?l] => destruct (saveItem x l) end;
        cbn; stored_by_shape.
    + destruct (findIndex _ _) as [[i old]|]; cbn;
        stored_by_shape.
  - unfold deleteRequest. destruct mode; cbn.
    + destruct (deleteFirst _ _) as [[x l]|]; cbn;
        stored_by_shape.
    + destruct (findIndex _ _) as [[i old]|]; cbn;
        stored_by_shape.
  - rewrite completeItem_stored.
    destruct (findIndex _ _) as [[i old]|]; cbn [snd]; [do 2 eexists; reflexivity|].
    do 2 eexists. symmetry. apply putStored_same.
Qed.

(** X15.  The marketplace routes touch nothing but the requests and items
    of the store that answers: whatever calls are served, the mode, the
    users, the catalogue and the content stay as they were; a connected
    server never writes to [localDB], and a degraded one never writes to
    the database. *)
Theorem marketplace_calls_isolated :
  forall calls srv,
    let srv' := run calls srv in
    mongoConnected srv' = mongoConnected srv
    /\ users (localDB srv') = users (localDB srv)
    /\ meditations (localDB srv') = meditations (localDB srv)
    /\ sounds (localDB srv') = sounds (localDB srv)
    /\ Meditation (mongo srv') = Meditation (mongo srv)
    /\ Sound (mongo srv') = Sound (mongo srv)
    /\ Content (mongo srv') = Content (mongo srv)
    /\ User (mongo srv') = User (mongo srv)
    /\ (if mongoConnected srv then localDB srv' = localDB srv
        else mongo srv' = mongo srv).
Proof.
  intros calls. induction calls as [|c calls IH]; intros srv; cbn zeta.
  - repeat split; try reflexivity. now destruct (mongoConnected srv).
  - change (run (c :: calls) srv) with (run calls (snd (handle c srv))).
    specialize (IH (snd (handle c srv))). cbn zeta in IH.
    destruct IH as (H1 & H2 & H3 & H4 & H5 & H6 & H7 & H8 & H9).
    destruct (handle_putStored c srv) as [rs [its E]]. rewrite E in *.
    rewrite H1, H2, H3, H4, H5, H6, H7, H8.
    unfold putStored in *. destruct (mongoConnected srv) eqn:Hm; cbn in *;
      rewrite ?Hm in *; repeat split; try reflexivity; exact H9.
Qed.

(** * Further properties of the content routes *)

Section FirstMatch.
Context {A : Type} (p : A -> bool).

Lemma update_Some f l y l' :
  findOneAndUpdate p f l = Some (y, l') ->
  exists l1 x l2,
    l = app l1 (x :: l2) /\ l' = app l1 (f x :: l2) /\ y = f x /\ p x = true
    /\ find p l1 = None.
Proof.
  revert l'. induction l as [|z l IH]; intros l' H; [discriminate|].
  cbn [findOneAndUpdate] in H. destruct (p z) eqn:E.
  - injection H as <- <-. exists [], z, l. repeat split; try reflexivity. exact E.
  - destruct (findOneAndUpdate p f l) as [[y' r]|]; [|discriminate].
    injection H as <- <-. destruct (IH r eq_refl) as (l1 & x & l2 & -> & -> & -> & Hp & Hn).
    exists (z :: l1), x, l2. repeat split; try reflexivity; [exact Hp|].
    cbn. now rewrite E.
Qed.

Lemma delete_Some l y l' :
  deleteFirst p l = Some (y, l') ->
  exists l1 l2, l = app l1 (y :: l2) /\ l' = app l1 l2 /\ p y = true /\ find p l1 = None.
Proof.
  revert l'. induction l as [|z l IH]; intros l' H; [discriminate|].
  cbn [deleteFirst] in H. destruct (p z) eqn:E.
  - injection H as <- <-. exists [], l. repeat split; try reflexivity. exact E.
  - destruct (deleteFirst p l) as [[y' r]|]; [|discriminate].
    injection H as <- <-. destruct (IH r eq_refl) as (l1 & l2 & -> & -> & Hp & Hn).
    exists (z :: l1), l2. repeat split; try reflexivity; [exact Hp|].
    cbn. now rewrite E.
Qed.

Lemma update_None f l : findOneAndUpdate p f l = None -> find p l = None.
Proof.
  induction l as [|z l IH]; [reflexivity|]. cbn.
  destruct (p z); [discriminate|].
  destruct (findOneAndUpdate p f l) as [[y r]|]; [discriminate|]. intros _. now apply IH.
Qed.

Lemma delete_None l : deleteFirst p l = None -> find p l = None.
Proof.
  induction l as [|z l IH]; [reflexivity|]. cbn.
  destruct (p z); [discriminate|].
  destruct (deleteFirst p l) as [[y r]|]; [discriminate|]. intros _. now apply IH.
Qed.

Lemma find_skip l1 l2 : find p l1 = None -> find p (app l1 l2) = find p l2.
Proof.
  induction l1 as [|z l1 IH]; [reflexivity|]. cbn.
  destruct (p z); [discriminate|]. exact IH.
Qed.

End FirstMatch.

Lemma find_key_None (key : string) (l : list Cont.t) :
  find (contentByKey key) l = None <-> ~ In key (map Cont.key l).
Proof.
  induction l as [|c l IH]; [cbn; tauto|]. cbn [find map In]. unfold contentByKey at 1.
  destruct (String.eqb_spec (Cont.key c) key) as [E|E].
  - split; [discriminate|]. intros H. destruct H. now left.
  - rewrite IH. tauto.
Qed.

(** What a rewrite of the first match does to the reads by another key. *)
Lemma find_other_key (key k : string) (l1 l2 : list Cont.t) (mid : list Cont.t) :
  Forall (fun c => Cont.key c = key) mid ->
  k <> key ->
  find (contentByKey k) (app l1 (app mid l2)) = find (contentByKey k) (app l1 l2).
Proof.
  intros Hmid Hk. induction l1 as [|z l1 IH]; cbn [app find].
  - induction Hmid as [|c mid Hc _ IHm]; [reflexivity|]. cbn [app find].
    unfold contentByKey at 1. rewrite Hc.
    destruct (String.eqb_spec key k); [congruence|exact IHm].
  - destruct (contentByKey k z); [reflexivity|exact IH].
Qed.

Lemma find_other_entry (key k : string) (l1 l2 : list Cont.t) (c : Cont.t) :
  Cont.key c = key -> k <> key ->
  find (contentByKey k) (app l1 (c :: l2)) = find (contentByKey k) (app l1 l2).
Proof.
  intros Hc Hk. apply (find_other_key key k l1 l2 [c]); [|exact Hk].
  repeat constructor. exact Hc.
Qed.

Lemma putContent_keys key value type section description now srv :
  NoDup (map Cont.key (Content (mongo srv))) ->
  NoDup (map Cont.key
           (Content (mongo (snd (putContent key value type section description now srv))))).
Proof.
  intros Hnd. unfold putContent, mongoose. destruct (mongoConnected srv); [|exact Hnd].
  fold (contentByKey key).
  destruct (findOneAndUpdate _ _ _) as [[c l]|] eqn:E; cbn.
  - apply update_Some in E as (l1 & x & l2 & Hl & -> & _ & _ & _).
    rewrite Hl in Hnd. rewrite map_app in *. exact Hnd.
  - apply update_None, find_key_None in E.
    rewrite map_app. cbn [map Cont.key].
    apply NoDup_app. split; [exact Hnd|]. split.
    + intros k Hin Hin'. apply list_elem_of_singleton in Hin'. subst k.
      apply E. now apply list_elem_of_In.
    + apply NoDup_singleton.
Qed.

Lemma deleteContent_keys key srv :
  NoDup (map Cont.key (Content (mongo srv))) ->
  NoDup (map Cont.key (Content (mongo (snd (deleteContent key srv))))).
Proof.
  intros Hnd. unfold deleteContent, mongoose. destruct (mongoConnected srv); [|exact Hnd].
  destruct (deleteFirst _ _) as [[c l]|] eqn:E; cbn; [|exact Hnd].
  apply delete_Some in E as (l1 & l2 & Hl & -> & _ & _).
  rewrite Hl in Hnd. rewrite map_app in *. cbn [map] in Hnd.
  apply NoDup_app in Hnd as (H1 & H2 & H3). apply NoDup_cons in H3 as [_ H3].
  apply NoDup_app. split; [exact H1|]. split; [|exact H3].
  intros k Hk Hk'. apply (H2 k Hk). now right.
Qed.

(** The catalogue routes leave the content entries alone. *)
Lemma serve_content c srv :
  (forall key value type section description now,
      c <> PutContent key value type section description now) ->
  (forall key, c <> DeleteContent key) ->
  Content (mongo (snd (serve c srv))) = Content (mongo srv).
Proof.
  intros Hput Hdel.
  destruct c as [p uuid now|id p now|id|p uuid now|id p now|id| |key v ty sec d now|key];
    cbn [serve].
  - unfold postMeditation.
    destruct (orEmpty (Med.p_title p)) as [|a t]; [reflexivity|].
    destruct (Med.p_duration p); [|reflexivity].
    destruct (createMeditation _ _); reflexivity.
  - unfold putMeditation, mongoose. destruct (negb (Med.valid p)); [reflexivity|].
    destruct (mongoConnected srv); [|reflexivity].
    destruct (findOneAndUpdate _ _ _) as [[x l]|]; reflexivity.
  - unfold deleteMeditation, mongoose. destruct (mongoConnected srv); [|reflexivity].
    destruct (deleteFirst _ _) as [[x l]|]; reflexivity.
  - unfold postSound.
    destruct (orEmpty (Snd.p_title p)) as [|a t]; [reflexivity|].
    destruct (Snd.p_duration p); [|reflexivity].
    destruct (createSound _ _); reflexivity.
  - unfold putSound, mongoose. destruct (negb (Snd.valid p)); [reflexivity|].
    destruct (mongoConnected srv); [|reflexivity].
    destruct (findOneAndUpdate _ _ _) as [[x l]|]; reflexivity.
  - unfold deleteSound, mongoose. destruct (mongoConnected srv); [|reflexivity].
    destruct (deleteFirst _ _) as [[x l]|]; reflexivity.
  - unfold clearData, mongoose. destruct (mongoConnected srv); reflexivity.
  - now destruct (Hput key v ty sec d now).
  - now destruct (Hdel key).
Qed.

(** X16.  The content keys stay unique: whatever catalogue and content
    calls are served, no two entries ever share a key, so a key names at
    most one entry. *)
Theorem content_keys_stay_unique :
  forall calls srv,
    NoDup (map Cont.key (Content (mongo srv))) ->
    NoDup (map Cont.key (Content (mongo (serveAll calls srv)))).
Proof.
  induction calls as [|c calls IH]; intros srv Hnd; [exact Hnd|].
  change (serveAll (c :: calls) srv) with (serveAll calls (snd (serve c srv))).
  apply IH.
  destruct c as [p uuid now|id p now|id|p uuid now|id p now|id| |key v ty sec d now|key];
    try (rewrite serve_content; [exact Hnd|intros; discriminate|intros; discriminate]).
  - now apply putContent_keys.
  - now apply deleteContent_keys.
Qed.

Lemma content_keys_stay_unique_witness :
  let srv := mkServer true (mkLocalDB [] [] [] [] []) (mkCollections [] [] [] [] [] []) in
  let calls := [PutContent "hero" (JStr "Welcome") None None JUndefined 10;
                PutContent "hero" (JStr "Hello") (Some "html") None JUndefined 20;
                PutContent "footer" (JStr "Bye") None (Some "home") JUndefined 30] in
  NoDup (map Cont.key (Content (mongo srv)))
  /\ NoDup (map Cont.key (Content (mongo (serveAll calls srv))))
  /\ map Cont.key (Content (mongo (serveAll calls srv))) = ["hero"; "footer"].
Proof.
  intros srv calls.
  assert (NoDup (map Cont.key (Content (mongo srv)))) as H by constructor.
  split; [exact H|]. split; [exact (content_keys_stay_unique calls srv H)|reflexivity].
Defined.

Lemma withMongo_mode srv c : mongoConnected (withMongo srv c) = mongoConnected srv.
Proof. reflexivity. Qed.

Lemma withContent_content srv c l : Content (mongo (withMongo srv (withContent c l))) = l.
Proof. reflexivity. Qed.



(** X18.  Deleting a content entry: on a connected server whose keys are
    unique, deleting a stored key answers 200, after which a [GET] of the
    key answers 404, one entry less is stored and the reads of every other
    key are unaffected; deleting a key that is not stored answers 404 and
    changes nothing. *)
Theorem deleteContent_then_get :
  forall key srv,
    mongoConnected srv = true ->
    NoDup (map Cont.key (Content (mongo srv))) ->
    (In key (map Cont.key (Content (mongo srv))) ->
     exists srv',
       deleteContent key srv = (Json 200 (BMessage "Content deleted successfully"), srv')
       /\ getContent key srv' = (Json 404 (BError "Content not found"), srv')
       /\ S (length (Content (mongo srv'))) = length (Content (mongo srv))
       /\ forall k, k <> key -> fst (getContent k srv') = fst (getContent k srv))
    /\ (~ In key (map Cont.key (Content (mongo srv))) ->
        deleteContent key srv = (Json 404 (BError "Content not found"), srv)).
Proof.
  intros key srv Hm Hnd. unfold deleteContent, getContent, mongoose. rewrite Hm.
  fold (contentByKey key). split.
  - intros Hin. destruct (deleteFirst _ _) as [[c l]|] eqn:E.
    + apply delete_Some in E as (l1 & l2 & Hl & -> & Hp & Hn).
      eexists. split; [reflexivity|]. rewrite withMongo_mode, Hm, withContent_content.
      assert (Cont.key c = key) as Hkey by (now apply String.eqb_eq).
      rewrite Hl in Hnd. rewrite map_app in Hnd. cbn [map] in Hnd.
      apply NoDup_app in Hnd as (_ & H2 & H3). apply NoDup_cons in H3 as [H3 _].
      assert (find (contentByKey key) (app l1 l2) = None) as Hgone.
      { apply find_key_None. rewrite map_app. intros Hk. apply in_app_or in Hk as [Hk|Hk].
        - apply (H2 key); [now apply list_elem_of_In|]. rewrite Hkey. now left.
        - apply H3. rewrite Hkey. now apply list_elem_of_In. }
      rewrite Hgone. split; [reflexivity|]. split.
      * rewrite Hl, !length_app. cbn [length]. lia.
      * intros k Hk. fold (contentByKey k). rewrite Hl.
        rewrite (find_other_entry key k l1 l2 c Hkey Hk).
        destruct (find (contentByKey k) _); reflexivity.
    + apply delete_None, find_key_None in E. contradiction.
  - intros Hnot. apply find_key_None in Hnot.
    now rewrite (find_None_delete _ _ Hnot).
Qed.

Lemma deleteContent_then_get_witness :
  let entry := Cont.mk "hero" "text" (JStr "Welcome") "general" JUndefined 10 10 in
  let srv := mkServer true (mkLocalDB [] [] [] [] []) (mkCollections [] [] [entry] [] [] []) in
  mongoConnected srv = true
  /\ NoDup (map Cont.key (Content (mongo srv)))
  /\ In "hero" (map Cont.key (Content (mongo srv)))
  /\ exists srv',
      deleteContent "hero" srv = (Json 200 (BMessage "Content deleted successfully"), srv')
      /\ getContent "hero" srv' = (Json 404 (BError "Content not found"), srv').
Proof.
  intros entry srv.
  assert (mongoConnected srv = true) as H1 by reflexivity.
  assert (NoDup (map Cont.key (Content (mongo srv)))) as H2
    by (apply NoDup_singleton).
  assert (In "hero" (map Cont.key (Content (mongo srv)))) as H3 by (now left).
  split; [exact H1|]. split; [exact H2|]. split; [exact H3|].
  destruct (proj1 (deleteContent_then_get "hero" srv H1 H2) H3) as (srv' & Hd & Hg & _).
  exists srv'. split; [exact Hd|exact Hg].
Defined.

(** * Further properties of the catalogue routes *)

(** One catalogue or content call on a degraded server. *)
Lemma serve_degraded c srv :
  mongoConnected srv = false ->
  match c with
  | ClearData =>
      serve c srv
      = (Json 200 (BMessage "All data cleared successfully"),
         withLocalDB srv
           (mkLocalDB (users (localDB srv)) [] [] (marketplaceRequests (localDB srv))
                      (marketplaceItems (localDB srv))))
  | _ =>
      snd (serve c srv) = srv
      /\ (fst (serve c srv) = Json 400 (BError "title and duration are required")
          \/ fst (serve c srv) = Rejected ValidationError
          \/ fst (serve c srv) = Rejected BufferTimeout
          \/ fst (serve c srv) = Json 500 (BThrown BufferTimeout))
  end.
Proof.
  intros Hm.
  destruct c as [p uuid now|id p now|id|p uuid now|id p now|id| |key v ty sec d now|key];
    cbn [serve].
  - unfold postMeditation, createMeditation, mongoose. rewrite Hm.
    destruct (orEmpty (Med.p_title p)) as [|a t]; [split; [reflexivity|now left]|].
    destruct (Med.p_duration p); [|split; [reflexivity|now left]].
    destruct (negb _); (split; [reflexivity|]); [right; now left|right; right; now left].
  - unfold putMeditation, mongoose. rewrite Hm.
    destruct (negb (Med.valid p)); (split; [reflexivity|]);
      [right; now left|right; right; now left].
  - unfold deleteMeditation, mongoose. rewrite Hm.
    split; [reflexivity|right; right; now left].
  - unfold postSound, createSound, mongoose. rewrite Hm.
    destruct (orEmpty (Snd.p_title p)) as [|a t]; [split; [reflexivity|now left]|].
    destruct (Snd.p_duration p); [|split; [reflexivity|now left]].
    destruct (negb _); (split; [reflexivity|]); [right; now left|right; right; now left].
  - unfold putSound, mongoose. rewrite Hm.
    destruct (negb (Snd.valid p)); (split; [reflexivity|]);
      [right; now left|right; right; now left].
  - unfold deleteSound, mongoose. rewrite Hm. split; [reflexivity|right; right; now left].
  - unfold clearData. now rewrite Hm.
  - unfold putContent, mongoose. rewrite Hm. split; [reflexivity|right; right; now right].
  - unfold deleteContent, mongoose. rewrite Hm. split; [reflexivity|right; right; now right].
Qed.

(** X19.  A degraded server has no writable catalogue: every create, update
    or delete of a meditation, a sound or a content entry changes nothing
    and answers 400 (a creation without title or duration), 500 (content),
    or is left without an answer, rejected by the validators (an update
    with an invalid patch, a creation with a [NaN] duration) or else by the
    missing connection; whatever calls are served, the database is
    untouched and the local arrays of meditations and sounds are as they
    were or emptied by clear-data, so that from an empty start both
    listings stay empty. *)
Theorem degraded_catalogue_read_only :
  forall calls srv,
    mongoConnected srv = false ->
    let srv' := serveAll calls srv in
    mongoConnected srv' = false
    /\ mongo srv' = mongo srv
    /\ users (localDB srv') = users (localDB srv)
    /\ (meditations (localDB srv') = meditations (localDB srv)
        \/ meditations (localDB srv') = [])
    /\ (sounds (localDB srv') = sounds (localDB srv) \/ sounds (localDB srv') = [])
    /\ (meditations (localDB srv) = [] ->
        forall tie, fst (getMeditations tie srv') = Listed [])
    /\ (sounds (localDB srv) = [] -> forall tie, fst (getSounds tie srv') = Listed [])
    /\ (forall c, c <> ClearData ->
          snd (serve c srv') = srv'
          /\ (fst (serve c srv') = Json 400 (BError "title and duration are required")
              \/ fst (serve c srv') = Rejected ValidationError
              \/ fst (serve c srv') = Rejected BufferTimeout
              \/ fst (serve c srv') = Json 500 (BThrown BufferTimeout)))
    /\ (forall id p now,
          fst (putMeditation id p now srv')
          = Rejected (if Med.valid p then BufferTimeout else ValidationError))
    /\ (forall id p now,
          fst (putSound id p now srv')
          = Rejected (if Snd.valid p then BufferTimeout else ValidationError)).
Proof.
  intros calls srv Hm. cbv zeta. remember (serveAll calls srv) as srv' eqn:Hsrv'.
  assert (mongoConnected srv' = false /\ mongo srv' = mongo srv
          /\ users (localDB srv') = users (localDB srv)
          /\ (meditations (localDB srv') = meditations (localDB srv)
              \/ meditations (localDB srv') = [])
          /\ (sounds (localDB srv') = sounds (localDB srv) \/ sounds (localDB srv') = []))
    as (H1 & H2 & H3 & H4 & H5).
  { subst srv'. revert srv Hm. induction calls as [|c calls IH]; intros srv Hm.
    - repeat split; try assumption; try reflexivity; now left.
    - change (serveAll (c :: calls) srv) with (serveAll calls (snd (serve c srv))).
      pose proof (serve_degraded c srv Hm) as Hc.
      assert (mongoConnected (snd (serve c srv)) = false
              /\ mongo (snd (serve c srv)) = mongo srv
              /\ users (localDB (snd (serve c srv))) = users (localDB srv)
              /\ (meditations (localDB (snd (serve c srv))) = meditations (localDB srv)
                  \/ meditations (localDB (snd (serve c srv))) = [])
              /\ (sounds (localDB (snd (serve c srv))) = sounds (localDB srv)
                  \/ sounds (localDB (snd (serve c srv))) = []))
        as (G1 & G2 & G3 & G4 & G5).
      { destruct c;
          [destruct Hc as [Hc _]; rewrite Hc; repeat split; try assumption; now left ..
          |rewrite Hc; cbn; repeat split; try assumption; now right
          |destruct Hc as [Hc _]; rewrite Hc; repeat split; try assumption; now left
          |destruct Hc as [Hc _]; rewrite Hc; repeat split; try assumption; now left]. }
      destruct (IH _ G1) as (I1 & I2 & I3 & I4 & I5).
      split; [exact I1|]. split; [congruence|]. split; [congruence|]. split.
      + destruct I4 as [I4|I4]; [|now right]. rewrite I4. exact G4.
      + destruct I5 as [I5|I5]; [|now right]. rewrite I5. exact G5. }
  do 5 (split; [assumption|]). split; [|split].
  - intros Hempty tie. unfold getMeditations. rewrite H1. cbn.
    destruct H4 as [H4|H4]; rewrite H4; [now rewrite Hempty|reflexivity].
  - intros Hempty tie. unfold getSounds. rewrite H1. cbn.
    destruct H5 as [H5|H5]; rewrite H5; [now rewrite Hempty|reflexivity].
  - split; [|split].
    + intros c Hc. pose proof (serve_degraded c srv' H1) as G.
      destruct c; try exact G. now destruct Hc.
    + intros id p now. unfold putMeditation, mongoose. rewrite H1.
      now destruct (Med.valid p).
    + intros id p now. unfold putSound, mongoose. rewrite H1.
      now destruct (Snd.valid p).
Qed.

Lemma degraded_catalogue_read_only_witness :
  let srv := boot false "a0" "hash" (mkCollections [] [] [] [] [] []) in
  let body := Med.mkPatch (Some "Calm") (Some (numZ 10)) None None None None None None None in
  let calls := [PostMeditation body "m1" 5; ClearData; DeleteMeditation "m1"] in
  mongoConnected srv = false
  /\ fst (getMeditations (fun _ _ => true) (serveAll calls srv)) = Listed []
  /\ fst (serve (PostMeditation body "m1" 5) srv) = Rejected BufferTimeout.
Proof.
  intros srv body calls.
  assert (mongoConnected srv = false) as H by reflexivity.
  split; [exact H|]. split; [|reflexivity].
  destruct (degraded_catalogue_read_only calls srv H) as (_ & _ & _ & _ & _ & Hl & _).
  apply Hl. reflexivity.
Defined.

Lemma orDefault_nonempty o d : d <> "" -> orDefault o d <> "".
Proof.
  intros Hd. unfold orDefault. destruct o as [s|]; [|exact Hd].
  destruct (String.eqb_spec s ""); assumption.
Qed.

Lemma existsb_key_false {A} (key : A -> string) k l :
  existsb (fun x => String.eqb (key x) k) l = false -> ~ In k (map key l).
Proof.
  induction l as [|x l IH]; cbn; [tauto|].
  destruct (String.eqb_spec (key x) k) as [E|E]; [discriminate|].
  cbn. intros H [Hx|Hin]; [contradiction|now apply IH].
Qed.

Lemma existsb_key_true {A} (key : A -> string) k l :
  In k (map key l) -> existsb (fun x => String.eqb (key x) k) l = true.
Proof.
  induction l as [|x l IH]; cbn; [tauto|].
  intros [<-|Hin]; [now rewrite String.eqb_refl|]. rewrite (IH Hin). apply orb_true_r.
Qed.

Lemma medView_createdAt l : map Med.createdAt (map medView l) = map Med.createdAt l.
Proof. rewrite map_map. reflexivity. Qed.

(** X20.  Creating a meditation on a connected server and listing it: a
    body without a title or without a numeric duration answers 400 and
    stores nothing; a body with both, a duration that is not [NaN] and an
    identifier not yet in use answers 201 with the new meditation (status
    ["Draft"] unless one is supplied), after which the listing holds it
    among one more meditation than before, newest first; a [NaN] duration
    or an identifier already in use leaves the call without an answer and
    stores nothing. *)
Theorem postMeditation_then_list :
  forall tie p uuid now srv,
    mongoConnected srv = true ->
    (orEmpty (Med.p_title p) = "" \/ Med.p_duration p = None ->
     postMeditation p uuid now srv
     = (Json 400 (BError "title and duration are required"), srv))
    /\ (forall title d,
          Med.p_title p = Some title -> title <> "" -> Med.p_duration p = Some d ->
          (d = NNaN -> postMeditation p uuid now srv = (Rejected ValidationError, srv))
          /\ (d <> NNaN -> In uuid (map Med.id (Meditation (mongo srv))) ->
              postMeditation p uuid now srv = (Rejected DuplicateKey, srv))
          /\ (d <> NNaN -> ~ In uuid (map Med.id (Meditation (mongo srv))) ->
              exists m srv' l,
                postMeditation p uuid now srv = (Json 201 (BMeditation m), srv')
                /\ Med.id m = uuid /\ Med.title m = title /\ Med.duration m = d
                /\ Med.status m = orDefault (Med.p_status p) "Draft"
                /\ Med.createdAt m = now
                /\ fst (getMeditations tie srv') = Listed l
                /\ In m l
                /\ length l = S (length (Meditation (mongo srv)))
                /\ descendingBy Med.createdAt l)).
Proof.
  intros tie p uuid now srv Hm. split.
  - intros [H|H]; unfold postMeditation.
    + now rewrite H.
    + rewrite H. now destruct (orEmpty (Med.p_title p)).
  - intros title d Ht Hne Hd.
    assert (orEmpty (Med.p_title p) = title) as Htitle.
    { unfold orEmpty, orDefault. rewrite Ht.
      destruct (String.eqb_spec title ""); [contradiction|reflexivity]. }
    assert (String.eqb title "" = false) as Hneb by (now apply String.eqb_neq).
    unfold postMeditation, createMeditation, mongoose. rewrite Htitle, Hd, Hm.
    destruct title as [|a t]; [contradiction|].
    cbn [Med.title Med.duration Med.id]. rewrite Hneb. cbn [negb andb].
    split; [|split].
    + intros ->. reflexivity.
    + intros Hnan Hin. destruct d; try contradiction;
        cbn [negb]; now rewrite (existsb_key_true Med.id uuid _ Hin).
    + intros Hnan Hfresh.
      assert (existsb (fun x => String.eqb (Med.id x) uuid) (Meditation (mongo srv)) = false)
        as Hex.
      { destruct (existsb _ _) eqn:E; [|reflexivity].
        apply existsb_exists in E as [x [Hin Hx]]. apply String.eqb_eq in Hx.
        destruct Hfresh. rewrite <- Hx. now apply in_map. }
      set (created := Med.mk uuid (String a t) d _ _ _ _ _ _ _ now now).
      assert (medView created = created) as Hview.
      { unfold medView, created. cbn [Med.status].
        pose proof (orDefault_nonempty (Med.p_status p) "Draft" ltac:(discriminate)) as Hs.
        apply String.eqb_neq in Hs. now rewrite Hs. }
      exists created, (withMongo srv (withMeditation (mongo srv)
                                  (app (Meditation (mongo srv)) [created]))),
             (map medView
                  (dbSortDescBy tie Med.createdAt (app (Meditation (mongo srv)) [created]))).
      split.
      { destruct d; try contradiction; cbn [negb]; rewrite Hex, Hview; reflexivity. }
      do 5 (split; [reflexivity|]). split; [|split; [|split]].
      * unfold getMeditations, mongoose. rewrite withMongo_mode, Hm. reflexivity.
      * rewrite <- Hview at 1. apply in_map.
        apply (Permutation_in _ (Permutation_sym (dbSortDescBy_perm _ _ _))).
        apply in_or_app. right. now left.
      * rewrite length_map, (Permutation_length (dbSortDescBy_perm _ _ _)), length_app.
        cbn [length]. lia.
      * unfold descendingBy. rewrite medView_createdAt. apply dbSortDescBy_descending.
Qed.

Lemma postMeditation_then_list_witness :
  let srv := mkServer true (mkLocalDB [] [] [] [] []) (mkCollections [] [] [] [] [] []) in
  let body := Med.mkPatch (Some "Calm") (Some (numZ 10)) None None None None None None None in
  mongoConnected srv = true
  /\ Med.p_title body = Some "Calm" /\ "Calm" <> "" /\ Med.p_duration body = Some (numZ 10)
  /\ numZ 10 <> NNaN
  /\ ~ In "m1" (map Med.id (Meditation (mongo srv)))
  /\ exists m srv' l,
      postMeditation body "m1" 5 srv = (Json 201 (BMeditation m), srv')
      /\ Med.status m = "Draft"
      /\ fst (getMeditations (fun _ _ => true) srv') = Listed l /\ In m l.
Proof.
  intros srv body.
  assert (mongoConnected srv = true) as H1 by reflexivity.
  assert (Med.p_title body = Some "Calm") as H2 by reflexivity.
  assert ("Calm" <> "") as H3 by discriminate.
  assert (Med.p_duration body = Some (numZ 10)) as H4 by reflexivity.
  assert (numZ 10 <> NNaN) as H5 by discriminate.
  assert (~ In "m1" (map Med.id (Meditation (mongo srv)))) as H6 by (intros []).
  do 6 (split; [assumption|]).
  destruct (proj2 (proj2 (proj2 (postMeditation_then_list (fun _ _ => true)
                                   body "m1" 5 srv H1)
                            "Calm" (numZ 10) H2 H3 H4)) H5 H6)
    as (m & srv' & l & Hp & _ & _ & _ & Hs & _ & Hl & Hin & _).
  exists m, srv', l. repeat split; assumption.
Defined.

Lemma update_keeps_keys {A K} (key : A -> K) (p : A -> bool) f l y l' :
  (forall x, key (f x) = key x) ->
  findOneAndUpdate p f l = Some (y, l') -> map key l' = map key l.
Proof.
  intros Hk H. apply update_Some in H as (l1 & x & l2 & -> & -> & _ & _ & _).
  rewrite !map_app. cbn [map]. now rewrite Hk.
Qed.

Lemma delete_keeps_NoDup {A K} (key : A -> K) (p : A -> bool) l y l' :
  deleteFirst p l = Some (y, l') -> NoDup (map key l) -> NoDup (map key l').
Proof.
  intros H Hnd. apply delete_Some in H as (l1 & l2 & -> & -> & _ & _).
  rewrite map_app in *. cbn [map] in Hnd.
  apply NoDup_app in Hnd as (H1 & H2 & H3). apply NoDup_cons in H3 as [_ H3].
  apply NoDup_app. split; [exact H1|]. split; [|exact H3].
  intros k Hk Hk'. apply (H2 k Hk). now right.
Qed.

Lemma append_keeps_NoDup (k : string) (keys : list string) :
  ~ In k keys -> NoDup keys -> NoDup (app keys [k]).
Proof.
  intros Hk Hnd. apply NoDup_app. split; [exact Hnd|]. split; [|apply NoDup_singleton].
  intros x Hx Hx'. apply list_elem_of_singleton in Hx'. subst x.
  apply Hk. now apply list_elem_of_In.
Qed.

(** One catalogue call keeps the identifiers of both collections unique. *)
Lemma serve_ids c srv :
  NoDup (map Med.id (Meditation (mongo srv))) /\ NoDup (map Snd.id (Sound (mongo srv))) ->
  NoDup (map Med.id (Meditation (mongo (snd (serve c srv)))))
  /\ NoDup (map Snd.id (Sound (mongo (snd (serve c srv))))).
Proof.
  intros [HM HS].
  destruct c as [p uuid now|id p now|id|p uuid now|id p now|id| |key v ty sec d now|key];
    cbn [serve].
  - unfold postMeditation, createMeditation, mongoose.
    destruct (orEmpty (Med.p_title p)) as [|a t]; [now split|].
    destruct (Med.p_duration p); [|now split].
    destruct (negb _); [now split|].
    destruct (mongoConnected srv); [|now split]. cbn [Med.id].
    destruct (existsb _ _) eqn:E; [now split|]. cbn. split; [|exact HS].
    rewrite map_app. cbn [map Med.id].
    apply append_keeps_NoDup; [|exact HM]. exact (existsb_key_false Med.id uuid _ E).
  - unfold putMeditation, mongoose. destruct (negb (Med.valid p)); [now split|].
    destruct (mongoConnected srv); [|now split].
    destruct (findOneAndUpdate _ _ _) as [[x l]|] eqn:E; [|now split].
    cbn. split; [|exact HS].
    now rewrite (update_keeps_keys Med.id _ (Med.apply p now) _ _ _ (fun x => eq_refl) E).
  - unfold deleteMeditation, mongoose. destruct (mongoConnected srv); [|now split].
    destruct (deleteFirst _ _) as [[x l]|] eqn:E; [|now split].
    cbn. split; [|exact HS]. exact (delete_keeps_NoDup Med.id _ _ _ _ E HM).
  - unfold postSound, createSound, mongoose.
    destruct (orEmpty (Snd.p_title p)) as [|a t]; [now split|].
    destruct (Snd.p_duration p); [|now split].
    destruct (negb _); [now split|].
    destruct (mongoConnected srv); [|now split]. cbn [Snd.id].
    destruct (existsb _ _) eqn:E; [now split|]. cbn. split; [exact HM|].
    rewrite map_app. cbn [map Snd.id].
    apply append_keeps_NoDup; [|exact HS]. exact (existsb_key_false Snd.id uuid _ E).
  - unfold putSound, mongoose. destruct (negb (Snd.valid p)); [now split|].
    destruct (mongoConnected srv); [|now split].
    destruct (findOneAndUpdate _ _ _) as [[x l]|] eqn:E; [|now split].
    cbn. split; [exact HM|].
    now rewrite (update_keeps_keys Snd.id _ (Snd.apply p now) _ _ _ (fun x => eq_refl) E).
  - unfold deleteSound, mongoose. destruct (mongoConnected srv); [|now split].
    destruct (deleteFirst _ _) as [[x l]|] eqn:E; [|now split].
    cbn. split; [exact HM|]. exact (delete_keeps_NoDup Snd.id _ _ _ _ E HS).
  - unfold clearData, mongoose. destruct (mongoConnected srv); cbn; [|now split].
    split; constructor.
  - unfold putContent, mongoose. destruct (mongoConnected srv); [|now split].
    destruct (findOneAndUpdate _ _ _) as [[x l]|]; now split.
  - unfold deleteContent, mongoose. destruct (mongoConnected srv); [|now split].
    destruct (deleteFirst _ _) as [[x l]|]; now split.
Qed.

(** X21.  Identifiers in the catalogue stay unique: whatever meditations
    and sounds are created, updated, deleted or cleared, no two meditations
    and no two sounds ever share an [id]; an update never changes the [id]
    of the document it rewrites. *)
Theorem catalogue_ids_stay_unique :
  forall calls srv,
    NoDup (map Med.id (Meditation (mongo srv))) ->
    NoDup (map Snd.id (Sound (mongo srv))) ->
    NoDup (map Med.id (Meditation (mongo (serveAll calls srv))))
    /\ NoDup (map Snd.id (Sound (mongo (serveAll calls srv)))).
Proof.
  induction calls as [|c calls IH]; intros srv HM HS; [now split|].
  change (serveAll (c :: calls) srv) with (serveAll calls (snd (serve c srv))).
  destruct (serve_ids c srv (conj HM HS)) as [HM' HS']. now apply IH.
Qed.

Lemma catalogue_ids_stay_unique_witness :
  let srv := mkServer true (mkLocalDB [] [] [] [] []) (mkCollections [] [] [] [] [] []) in
  let body := Med.mkPatch (Some "Calm") (Some (numZ 10)) None None None None None None None in
  let calls := [PostMeditation body "m1" 5; PostMeditation body "m1" 6;
                PostMeditation body "m2" 7] in
  NoDup (map Med.id (Meditation (mongo srv)))
  /\ NoDup (map Snd.id (Sound (mongo srv)))
  /\ NoDup (map Med.id (Meditation (mongo (serveAll calls srv))))
  /\ map Med.id (Meditation (mongo (serveAll calls srv))) = ["m1"; "m2"].
Proof.
  intros srv body calls.
  assert (NoDup (map Med.id (Meditation (mongo srv)))) as H1 by constructor.
  assert (NoDup (map Snd.id (Sound (mongo srv)))) as H2 by constructor.
  split; [exact H1|]. split; [exact H2|].
  split; [exact (proj1 (catalogue_ids_stay_unique calls srv H1 H2))|reflexivity].
Defined.

(** X22.  Clear-data empties the catalogue and nothing else: in either mode
    it answers 200, after which the meditation and sound listings are
    empty, while users, content entries, marketplace requests and items are
    as before; clearing again changes nothing more. *)
Theorem clearData_empties_catalogue :
  forall srv,
    exists srv',
      clearData srv = (Json 200 (BMessage "All data cleared successfully"), srv')
      /\ (forall tie, fst (getMeditations tie srv') = Listed [])
      /\ (forall tie, fst (getSounds tie srv') = Listed [])
      /\ mongoConnected srv' = mongoConnected srv
      /\ storedRequests srv' = storedRequests srv
      /\ storedItems srv' = storedItems srv
      /\ users (localDB srv') = users (localDB srv)
      /\ User (mongo srv') = User (mongo srv)
      /\ Content (mongo srv') = Content (mongo srv)
      /\ snd (clearData srv') = srv'.
Proof.
  intros [[] [us ms ss rs its] [m sd cn r it us']]; eexists;
    (split; [reflexivity|]); repeat split; intros; reflexivity.
Qed.

(** * Further properties: authentication and start-up *)

Lemma find_email_None (email : string) (l : list Usr.t) :
  find (userByEmail email) l = None <-> ~ In email (map Usr.email l).
Proof.
  induction l as [|u l IH]; [cbn; tauto|]. cbn [find map In]. unfold userByEmail at 1.
  destruct (String.eqb_spec (Usr.email u) email) as [E|E].
  - split; [discriminate|]. intros H. destruct H. now left.
  - rewrite IH. tauto.
Qed.

Lemma find_email_Some (email : string) (l : list Usr.t) u :
  find (userByEmail email) l = Some u -> In u l /\ Usr.email u = email.
Proof.
  intros H. apply find_some in H as [Hin Hu]. split; [exact Hin|].
  now apply String.eqb_eq.
Qed.

Lemma withUser_users srv l : User (mongo (withMongo srv (withUser (mongo srv) l))) = l.
Proof. reflexivity. Qed.

(** A registration that passes the checks of the route and of the schema,
    on a connected server. *)
Lemma register_accepts h name email password role uuid hashed now srv :
  mongoConnected srv = true ->
  name <> "" -> email <> "" -> (6 <= String.length password)%nat ->
  hashed <> "" -> toLowerCase h email <> "" ->
  orDefault role "user" = "user" \/ orDefault role "user" = "admin" ->
  ~ In uuid (map Usr.id (User (mongo srv))) ->
  ~ In (toLowerCase h email) (map Usr.email (User (mongo srv))) ->
  let u := Usr.mk uuid name (toLowerCase h email) hashed (orDefault role "user")
                  (Usr.mkProfile "" "" "" "" "" "") (Some now) in
  register h (Some name) (Some email) (Some password) role uuid hashed now srv
  = (AuthOk 201 "User registered successfully" (claimsOf u) (viewOf u),
     withMongo srv (withUser (mongo srv) (app (User (mongo srv)) [u]))).
Proof.
  intros Hm Hname Hemail Hlen Hhash Hlow Hrole Hid Hfresh u.
  unfold register, mongoose. rewrite !orEmpty_Some, Hm.
  assert (password <> "") as Hpw by (intros ->; cbn in Hlen; lia).
  apply String.eqb_neq in Hname, Hemail, Hpw. rewrite Hname, Hemail, Hpw. cbn [orb].
  destruct (Nat.ltb_spec (String.length password) 6) as [Hlt|_]; [lia|].
  apply find_email_None in Hfresh. rewrite Hfresh.
  unfold saveUser. cbn [Usr.name Usr.email Usr.password Usr.role Usr.id].
  apply String.eqb_neq in Hhash, Hlow. rewrite Hname, Hlow, Hhash.
  assert (String.eqb (orDefault role "user") "user"
          || String.eqb (orDefault role "user") "admin" = true) as ->.
  { destruct Hrole as [-> | ->]; reflexivity. }
  cbn [negb andb].
  assert (existsb (fun x => String.eqb (Usr.id x) uuid) (User (mongo srv)) = false) as ->.
  { destruct (existsb _ _) eqn:E; [|reflexivity].
    apply existsb_exists in E as [x [Hin Hx]]. apply String.eqb_eq in Hx.
    destruct Hid. rewrite <- Hx. now apply in_map. }
  assert (existsb (userByEmail (toLowerCase h email)) (User (mongo srv)) = false) as ->.
  { destruct (existsb _ _) eqn:E; [|reflexivity].
    apply existsb_exists in E as [x [Hin Hx]].
    pose proof (find_none _ _ Hfresh x Hin). congruence. }
  reflexivity.
Qed.

(** A registration whose role the schema refuses, on a connected server. *)
Lemma register_refuses_role h name email password role uuid hashed now srv :
  mongoConnected srv = true ->
  name <> "" -> email <> "" -> (6 <= String.length password)%nat ->
  ~ In (toLowerCase h email) (map Usr.email (User (mongo srv))) ->
  orDefault role "user" <> "user" -> orDefault role "user" <> "admin" ->
  register h (Some name) (Some email) (Some password) role uuid hashed now srv
  = (AuthError 500 "Server error during registration", srv).
Proof.
  intros Hm Hname Hemail Hlen Hfresh Hu Ha.
  unfold register, mongoose. rewrite !orEmpty_Some, Hm.
  assert (password <> "") as Hpw by (intros ->; cbn in Hlen; lia).
  apply String.eqb_neq in Hname, Hemail, Hpw. rewrite Hname, Hemail, Hpw. cbn [orb].
  destruct (Nat.ltb_spec (String.length password) 6) as [Hlt|_]; [lia|].
  apply find_email_None in Hfresh. rewrite Hfresh.
  unfold saveUser. cbn [Usr.name Usr.email Usr.password Usr.role Usr.id].
  apply String.eqb_neq in Hu, Ha. rewrite Hu, Ha.
  now rewrite !andb_false_r.
Qed.

(** X23.  Registering and logging in on a connected server.  Take a
    registration with a name, an email and a password of at least six
    characters, whose lower-cased email is not empty and not registered
    yet, for which the route draws an identifier not in use and a hash that
    is not empty.  If
    its role is missing, empty, ["user"] or ["admin"], it answers 201 and
    stores one new user under the lower-cased email, with that role
    (["user"] when missing or empty); from then on a login with that email
    succeeds, for that user, exactly when [bcrypt.compare] accepts the
    password against the stored hash, and registering the email again, in
    any capitalisation, answers 400.  With any other role the schema
    refuses the user: the route answers 500 and stores nothing. *)
Theorem register_then_login :
  forall h name email password role uuid hashed now srv,
    mongoConnected srv = true ->
    name <> "" -> email <> "" -> (6 <= String.length password)%nat ->
    hashed <> "" -> toLowerCase h email <> "" ->
    ~ In uuid (map Usr.id (User (mongo srv))) ->
    ~ In (toLowerCase h email) (map Usr.email (User (mongo srv))) ->
    let stored := match role with
                  | None | Some "" => "user"
                  | Some given => given
                  end in
    (stored <> "user" -> stored <> "admin" ->
     register h (Some name) (Some email) (Some password) role uuid hashed now srv
     = (AuthError 500 "Server error during registration", srv))
    /\ (stored = "user" \/ stored = "admin" ->
        exists u srv',
          register h (Some name) (Some email) (Some password) role uuid hashed now srv
          = (AuthOk 201 "User registered successfully" (claimsOf u) (viewOf u), srv')
          /\ Usr.id u = uuid
          /\ Usr.email u = toLowerCase h email
          /\ Usr.password u = hashed
          /\ Usr.role u = stored
          /\ User (mongo srv') = app (User (mongo srv)) [u]
          /\ (forall attempt,
                attempt <> "" ->
                login h (Some email) (Some attempt) srv'
                = if bcryptCompare h attempt hashed
                  then (AuthOk 200 "Login successful" (claimsOf u) (viewOf u), srv')
                  else (AuthError 401 "Invalid email or password", srv'))
          /\ (forall name2 email2 password2 role2 uuid2 hashed2 now2,
                toLowerCase h email2 = toLowerCase h email ->
                name2 <> "" -> email2 <> "" -> (6 <= String.length password2)%nat ->
                register h (Some name2) (Some email2) (Some password2) role2 uuid2 hashed2
                         now2 srv'
                = (AuthError 400 "User with this email already exists", srv'))).
Proof.
  intros h name email password role uuid hashed now srv
         Hm Hname Hemail Hlen Hhash Hlow Hid Hfresh stored.
  assert (orDefault role "user" = stored) as Hstored.
  { unfold orDefault, stored. destruct role as [[|a s]|]; reflexivity. }
  split.
  { intros Hu Ha. apply register_refuses_role; try assumption; now rewrite Hstored. }
  intros Hrole. rewrite <- Hstored in Hrole.
  pose proof (register_accepts h name email password role uuid hashed now srv
                Hm Hname Hemail Hlen Hhash Hlow Hrole Hid Hfresh) as Hreg.
  cbv zeta in Hreg.
  set (u := Usr.mk uuid name (toLowerCase h email) hashed (orDefault role "user")
                   (Usr.mkProfile "" "" "" "" "" "") (Some now)) in *.
  set (srv' := withMongo srv (withUser (mongo srv) (app (User (mongo srv)) [u]))) in *.
  exists u, srv'. split; [exact Hreg|]. do 3 (split; [reflexivity|]).
  split; [exact Hstored|]. split; [reflexivity|].
  assert (find (userByEmail (toLowerCase h email)) (User (mongo srv')) = Some u) as Hfind.
  { unfold srv'. rewrite withUser_users.
    apply find_email_None in Hfresh. rewrite (find_skip _ _ _ Hfresh).
    cbn [find]. unfold userByEmail. cbn [Usr.email u]. now rewrite String.eqb_refl. }
  assert (mongoConnected srv' = true) as Hm' by exact Hm.
  split.
  - intros attempt Hatt. unfold login, mongoose. rewrite !orEmpty_Some, Hm'.
    apply String.eqb_neq in Hemail, Hatt. rewrite Hemail, Hatt. cbn [orb negb].
    rewrite Hfind. cbn [Usr.password u].
    destruct (bcryptCompare h attempt hashed); reflexivity.
  - intros name2 email2 password2 role2 uuid2 hashed2 now2 Hsame Hn2 He2 Hl2.
    unfold register, mongoose. rewrite !orEmpty_Some, Hm'.
    assert (password2 <> "") as Hpw by (intros ->; cbn in Hl2; lia).
    apply String.eqb_neq in Hn2, He2, Hpw. rewrite Hn2, He2, Hpw. cbn [orb].
    destruct (Nat.ltb_spec (String.length password2) 6) as [Hlt|_]; [lia|].
    rewrite Hsame, Hfind. reflexivity.
Qed.

Lemma register_then_login_witness :
  let h := mkHost (fun s => s) String.eqb in
  let srv := mkServer true (mkLocalDB [] [] [] [] []) (mkCollections [] [] [] [] [] []) in
  (exists u srv',
     register h (Some "Asha") (Some "asha@example.com") (Some "secret1") None
              "u1" "secret1" 5 srv
     = (AuthOk 201 "User registered successfully" (claimsOf u) (viewOf u), srv')
     /\ login h (Some "asha@example.com") (Some "secret1") srv'
        = (AuthOk 200 "Login successful" (claimsOf u) (viewOf u), srv')
     /\ login h (Some "asha@example.com") (Some "other") srv'
        = (AuthError 401 "Invalid email or password", srv'))
  /\ register h (Some "Asha") (Some "asha@example.com") (Some "secret1") (Some "owner")
              "u1" "secret1" 5 srv
     = (AuthError 500 "Server error during registration", srv).
Proof.
  intros h srv.
  assert (mongoConnected srv = true) as H1 by reflexivity.
  assert ("Asha" <> "") as H2 by discriminate.
  assert ("asha@example.com" <> "") as H3 by discriminate.
  assert (6 <= String.length "secret1")%nat as H4 by (vm_compute; lia).
  assert ("secret1" <> "") as H5 by discriminate.
  assert (toLowerCase h "asha@example.com" <> "") as H6 by discriminate.
  assert (~ In "u1" (map Usr.id (User (mongo srv)))) as H8 by (intros []).
  assert (~ In (toLowerCase h "asha@example.com") (map Usr.email (User (mongo srv)))) as H9
    by (intros []).
  split.
  - destruct (proj2 (register_then_login h "Asha" "asha@example.com" "secret1" None "u1"
                       "secret1" 5 srv H1 H2 H3 H4 H5 H6 H8 H9) (or_introl eq_refl))
      as (u & srv' & Hreg & _ & _ & _ & _ & _ & Hlogin & _).
    exists u, srv'. split; [exact Hreg|]. split.
    + exact (Hlogin "secret1" ltac:(discriminate)).
    + exact (Hlogin "other" ltac:(discriminate)).
  - apply (proj1 (register_then_login h "Asha" "asha@example.com" "secret1" (Some "owner")
                    "u1" "secret1" 5 srv H1 H2 H3 H4 H5 H6 H8 H9)); discriminate.
Defined.

Ltac unchanged_state :=
  cbn [snd]; split; [reflexivity|split; [first [reflexivity|assumption]|now left]].

Lemma register_users h name email password role uuid hashed now srv :
  let srv' := snd (register h name email password role uuid hashed now srv) in
  localDB srv' = localDB srv
  /\ mongoConnected srv' = mongoConnected srv
  /\ (mongo srv' = mongo srv
      \/ mongoConnected srv = true
         /\ exists u, User (mongo srv') = app (User (mongo srv)) [u]
                      /\ ~ In (Usr.id u) (map Usr.id (User (mongo srv)))
                      /\ ~ In (Usr.email u) (map Usr.email (User (mongo srv)))).
Proof.
  cbv zeta. unfold register, mongoose.
  destruct (String.eqb _ "" || String.eqb _ "" || String.eqb _ "");
    [unchanged_state|].
  destruct (String.length _ <? 6)%nat; [unchanged_state|].
  destruct (mongoConnected srv) eqn:Hm; [|unchanged_state].
  destruct (find _ _); [unchanged_state|].
  unfold saveUser. destruct (negb _); [unchanged_state|].
  cbn [Usr.id Usr.email].
  destruct (existsb _ _) eqn:E1; [unchanged_state|].
  destruct (existsb (userByEmail _) _) eqn:E2; [unchanged_state|].
  cbn. split; [reflexivity|]. split; [exact Hm|]. right. split; [reflexivity|].
  eexists. split; [reflexivity|]. cbn [Usr.id Usr.email]. split.
  - exact (existsb_key_false Usr.id uuid _ E1).
  - exact (existsb_key_false Usr.email _ _ E2).
Qed.

(** X24.  Registrations never produce two accounts with one email or one
    identifier, and never touch an existing account: whatever registrations
    are served, the users stored before are still there, unchanged and in
    front, and emails and identifiers stay pairwise distinct. *)
Theorem registered_users_stay_unique :
  forall h rs srv,
    NoDup (map Usr.email (User (mongo srv))) ->
    NoDup (map Usr.id (User (mongo srv))) ->
    let srv' := registerAll h rs srv in
    NoDup (map Usr.email (User (mongo srv')))
    /\ NoDup (map Usr.id (User (mongo srv')))
    /\ (exists added, User (mongo srv') = app (User (mongo srv)) added)
    /\ localDB srv' = localDB srv.
Proof.
  intros h rs. induction rs as [|r rs IH]; intros srv He Hi; cbv zeta.
  - repeat split; try assumption. exists []. now rewrite app_nil_r.
  - change (registerAll h (r :: rs) srv) with (registerAll h rs (snd (registerOne h r srv))).
    unfold registerOne.
    destruct (register_users h (r_name r) (r_email r) (r_password r) (r_role r) (r_uuid r)
                (r_hashed r) (r_now r) srv) as (Hdb & _ & Hstep).
    set (s1 := snd (register _ _ _ _ _ _ _ _ srv)) in *.
    assert (NoDup (map Usr.email (User (mongo s1))) /\ NoDup (map Usr.id (User (mongo s1)))
            /\ exists added, User (mongo s1) = app (User (mongo srv)) added)
      as (He1 & Hi1 & [a1 Ha1]).
    { destruct Hstep as [-> | [_ [u (Hu & Hid & Hem)]]].
      - repeat split; try assumption. exists []. now rewrite app_nil_r.
      - rewrite Hu, !map_app. cbn [map].
        split; [now apply append_keeps_NoDup|]. split; [now apply append_keeps_NoDup|].
        now exists [u]. }
    destruct (IH s1 He1 Hi1) as (He2 & Hi2 & [a2 Ha2] & Hdb2).
    split; [exact He2|]. split; [exact Hi2|]. split.
    + exists (app a1 a2). now rewrite Ha2, Ha1, <- app_assoc.
    + congruence.
Qed.

Lemma registered_users_stay_unique_witness :
  let h := mkHost (fun s => s) String.eqb in
  let srv := mkServer true (mkLocalDB [] [] [] [] []) (mkCollections [] [] [] [] [] []) in
  let rs := [mkRegistration (Some "Asha") (Some "asha@example.com") (Some "secret1") None
               "u1" "h1" 5;
             mkRegistration (Some "Other") (Some "asha@example.com") (Some "secret2") None
               "u2" "h2" 6] in
  NoDup (map Usr.email (User (mongo srv)))
  /\ NoDup (map Usr.id (User (mongo srv)))
  /\ NoDup (map Usr.email (User (mongo (registerAll h rs srv))))
  /\ map Usr.id (User (mongo (registerAll h rs srv))) = ["u1"].
Proof.
  intros h srv rs.
  assert (NoDup (map Usr.email (User (mongo srv)))) as H1 by constructor.
  assert (NoDup (map Usr.id (User (mongo srv)))) as H2 by constructor.
  split; [exact H1|]. split; [exact H2|].
  split; [exact (proj1 (registered_users_stay_unique h rs srv H1 H2))|reflexivity].
Defined.

(** X25.  A degraded server cannot register anyone: every registration
    answers 400 or 500 and stores nothing, so after start-up the only
    account that can log in is the local administrator; a login succeeds
    exactly when the lower-cased email is the administrator's and
    [bcrypt.compare] accepts the password against the hash drawn at
    start-up. *)
Theorem degraded_only_admin_logs_in :
  forall h rs uuid hashed db0 email password,
    let srv := registerAll h rs (boot false uuid hashed db0) in
    srv = boot false uuid hashed db0
    /\ (forall r s, mongoConnected s = false ->
          snd (registerOne h r s) = s
          /\ exists code error,
               fst (registerOne h r s) = AuthError code error /\ (code = 400 \/ code = 500))
    /\ ((exists code message token user,
           fst (login h email password srv) = AuthOk code message token user)
        <-> orEmpty email <> "" /\ orEmpty password <> ""
            /\ toLowerCase h (orEmpty email) = "admin@nirvaha.com"
            /\ bcryptCompare h (orEmpty password) hashed = true).
Proof.
  intros h rs uuid hashed db0 email password.
  assert (forall r s, mongoConnected s = false ->
            snd (registerOne h r s) = s
            /\ exists code error,
                 fst (registerOne h r s) = AuthError code error /\ (code = 400 \/ code = 500))
    as Hone.
  { intros r s Hs. unfold registerOne, register, mongoose. rewrite Hs.
    destruct (String.eqb _ "" || String.eqb _ "" || String.eqb _ "");
      [split; [reflexivity|]; do 2 eexists; split; [reflexivity|now left]|].
    destruct (String.length _ <? 6)%nat;
      split; try reflexivity; do 2 eexists; (split; [reflexivity|]); [now left|now right]. }
  assert (forall s, mongoConnected s = false -> registerAll h rs s = s) as Hall.
  { induction rs as [|r rs IH]; intros s Hs; [reflexivity|].
    change (registerAll h (r :: rs) s) with (registerAll h rs (snd (registerOne h r s))).
    rewrite (proj1 (Hone r s Hs)). now apply IH. }
  cbv zeta. rewrite (Hall (boot false uuid hashed db0) eq_refl).
  split; [reflexivity|]. split; [exact Hone|].
  unfold login.
  set (admin := Usr.mk uuid "Nirvaha Administrator" "admin@nirvaha.com" hashed "admin"
                  (Usr.mkProfile "+1-ADMIN-001" "" "Not Specified" "Nirvaha Headquarters"
                     "Administrator" "Not Applicable") None).
  change (mongoConnected (boot false uuid hashed db0)) with false.
  change (users (localDB (boot false uuid hashed db0))) with [admin].
  set (e := orEmpty email). set (p := orEmpty password).
  cbn [negb find]. unfold userByEmail. cbn [Usr.email admin].
  destruct (String.eqb_spec e "") as [He|He]; cbn [orb].
  - split; [intros (c & m & t & u & H); discriminate|]. intros [H _]. contradiction.
  - destruct (String.eqb_spec p "") as [Hp|Hp]; cbn [orb].
    + split; [intros (c & m & t & u & H); discriminate|]. intros (_ & H & _). contradiction.
    + destruct (String.eqb_spec "admin@nirvaha.com" (toLowerCase h e)) as [Ha|Ha].
      * change (Usr.password admin) with hashed.
        destruct (bcryptCompare h p hashed) eqn:Hc; cbn [negb fst].
        -- split; [|intros _; do 4 eexists; reflexivity].
           intros _. repeat split; try assumption. now symmetry.
        -- split; [intros (c & m & t & u & H); discriminate|].
           intros (_ & _ & _ & H). discriminate.
      * cbn [fst]. split; [intros (c & m & t & u & H); discriminate|].
        intros (_ & _ & H & _). symmetry in H. contradiction.
Qed.

(** X26.  Logging in never changes the state, and it succeeds only for a
    stored account: a successful answer has status 200 and carries the
    identifier, email and role of the first user of the answering store
    whose email is the lower-cased email supplied, and [bcrypt.compare]
    accepted the password against that user's hash. *)
Theorem login_sound :
  forall h email password srv,
    snd (login h email password srv) = srv
    /\ forall code message token user,
         fst (login h email password srv) = AuthOk code message token user ->
         code = 200
         /\ exists u,
              find (userByEmail (toLowerCase h (orEmpty email))) (storedUsers srv) = Some u
              /\ In u (storedUsers srv)
              /\ Usr.email u = toLowerCase h (orEmpty email)
              /\ bcryptCompare h (orEmpty password) (Usr.password u) = true
              /\ token = claimsOf u /\ user = viewOf u.
Proof.
  intros h email password srv. unfold login, mongoose, storedUsers.
  destruct (String.eqb _ "" || String.eqb _ ""); [split; [reflexivity|discriminate]|].
  destruct (mongoConnected srv); cbn [negb].
  all: destruct (find _ _) as [u|] eqn:E; [|split; [reflexivity|discriminate]].
  all: destruct (bcryptCompare h _ (Usr.password u)) eqn:Hc; cbn [negb];
    [|split; [reflexivity|discriminate]].
  all: split; [reflexivity|]; intros code message token user [= <- _ <- <-];
    split; [reflexivity|]; exists u; destruct (find_email_Some _ _ _ E) as [Hin He];
    repeat split; assumption.
Qed.

(** X27.  Seeding the local administrator is idempotent and additive: it
    keeps every user already present, leaves the other arrays alone, ends
    with a user under the administrator's email, and a second run changes
    nothing. *)
Theorem initLocalAdminUser_idempotent :
  forall uuid hashed uuid2 hashed2 db,
    let db' := initLocalAdminUser uuid hashed db in
    (exists added, users db' = app (users db) added /\ (length added <= 1)%nat)
    /\ In "admin@nirvaha.com" (map Usr.email (users db'))
    /\ meditations db' = meditations db /\ sounds db' = sounds db
    /\ marketplaceRequests db' = marketplaceRequests db
    /\ marketplaceItems db' = marketplaceItems db
    /\ initLocalAdminUser uuid2 hashed2 db' = db'.
Proof.
  intros uuid hashed uuid2 hashed2 db. cbv zeta. unfold initLocalAdminUser.
  fold (userByEmail "admin@nirvaha.com").
  destruct (find (userByEmail "admin@nirvaha.com") (users db)) as [u|] eqn:E.
  - rewrite E. split; [exists []; split; [now rewrite app_nil_r|cbn; lia]|].
    split; [|repeat split; reflexivity].
    apply find_email_Some in E as [Hin He]. rewrite <- He. now apply in_map.
  - cbn [users meditations sounds marketplaceRequests marketplaceItems].
    rewrite (find_skip _ _ _ E). cbn [find]. unfold userByEmail at 1. cbn [Usr.email].
    cbn [String.eqb Ascii.eqb Bool.eqb andb].
    split; [eexists; split; [reflexivity|cbn; lia]|].
    split; [|repeat split; reflexivity].
    rewrite map_app. apply in_or_app. right. now left.
Qed.

(** * Further properties: partial updates *)

(** X29.  A meditation update is partial and keeps the document's
    identity: on a connected server, a valid patch for a stored [id]
    answers 200; the stored document keeps its [id] and [createdAt], takes
    each supplied field, keeps every field not supplied and is stamped with
    the new [updatedAt]; the identifiers and the number of meditations are
    unchanged.  An invalid patch (an empty title or a [NaN] duration) is
    left without an answer and changes nothing. *)
Theorem putMeditation_partial_update :
  forall id p now srv,
    mongoConnected srv = true ->
    (Med.valid p = false -> putMeditation id p now srv = (Rejected ValidationError, srv))
    /\ (Med.valid p = true ->
        forall old,
          find (fun m => String.eqb (Med.id m) id) (Meditation (mongo srv)) = Some old ->
          exists srv',
            putMeditation id p now srv
            = (Json 200 (BMeditation (medView (Med.apply p now old))), srv')
            /\ find (fun m => String.eqb (Med.id m) id) (Meditation (mongo srv'))
               = Some (Med.apply p now old)
            /\ Med.id (Med.apply p now old) = id
            /\ Med.createdAt (Med.apply p now old) = Med.createdAt old
            /\ Med.updatedAt (Med.apply p now old) = now
            /\ Med.title (Med.apply p now old) = Med.orKeep (Med.p_title p) (Med.title old)
            /\ Med.duration (Med.apply p now old)
               = Med.orKeep (Med.p_duration p) (Med.duration old)
            /\ Med.status (Med.apply p now old) = Med.orKeep (Med.p_status p) (Med.status old)
            /\ map Med.id (Meditation (mongo srv')) = map Med.id (Meditation (mongo srv))
            /\ Sound (mongo srv') = Sound (mongo srv)
            /\ Content (mongo srv') = Content (mongo srv)).
Proof.
  intros id p now srv Hm. unfold putMeditation, mongoose. rewrite Hm. split.
  - intros ->. reflexivity.
  - intros -> old Hfind. cbn [negb].
    set (byId := fun m => String.eqb (Med.id m) id) in *.
    destruct (find_Some_findIndex byId _ _ Hfind) as [i Hi].
    rewrite (findIndex_update byId (Med.apply p now) _ _ _ Hi).
    eexists. split; [reflexivity|].
    assert (Med.id old = id) as Hid.
    { apply find_some in Hfind as [_ H]. now apply String.eqb_eq. }
    split.
    + change (Meditation (mongo (withMongo srv (withMeditation (mongo srv)
                (<[i := Med.apply p now old]> (Meditation (mongo srv)))))))
        with (<[i := Med.apply p now old]> (Meditation (mongo srv))).
      apply (find_insert_found byId (Med.apply p now) _ _ _ (fun y => eq_refl) Hi).
    + split; [exact Hid|]. do 5 (split; [reflexivity|]). split; [|split; reflexivity].
      change (Meditation (mongo (withMongo srv (withMeditation (mongo srv)
                (<[i := Med.apply p now old]> (Meditation (mongo srv)))))))
        with (<[i := Med.apply p now old]> (Meditation (mongo srv))).
      apply (update_keeps_keys Med.id byId (Med.apply p now) _ (Med.apply p now old));
        [reflexivity|].
      exact (findIndex_update byId (Med.apply p now) _ _ _ Hi).
Qed.

Lemma putMeditation_partial_update_witness :
  let m := Med.mk "m1" "Calm" (numZ 10) "" "" "" "Draft" "" "" "" 5 5 in
  let srv := mkServer true (mkLocalDB [] [] [] [] []) (mkCollections [m] [] [] [] [] []) in
  let p := Med.mkPatch None None None None None (Some "Published") None None None in
  mongoConnected srv = true
  /\ Med.valid p = true
  /\ find (fun x => String.eqb (Med.id x) "m1") (Meditation (mongo srv)) = Some m
  /\ exists srv',
      putMeditation "m1" p 9 srv
      = (Json 200 (BMeditation (medView (Med.apply p 9 m))), srv')
      /\ Med.title (Med.apply p 9 m) = "Calm"
      /\ Med.status (Med.apply p 9 m) = "Published".
Proof.
  intros m srv p.
  assert (mongoConnected srv = true) as H1 by reflexivity.
  assert (Med.valid p = true) as H2 by reflexivity.
  assert (find (fun x => String.eqb (Med.id x) "m1") (Meditation (mongo srv)) = Some m) as H3
    by reflexivity.
  split; [exact H1|]. split; [exact H2|]. split; [exact H3|].
  destruct (proj2 (putMeditation_partial_update "m1" p 9 srv H1) H2 m H3)
    as (srv' & Hput & _).
  exists srv'. split; [exact Hput|]. split; reflexivity.
Defined.

(** * Further properties: companion lists *)

Lemma splitComma_not_nil s : splitComma s <> [].
Proof.
  destruct s as [|c s]; cbn; [discriminate|].
  destruct (Ascii.eqb c ","); [discriminate|]. destruct (splitComma s); discriminate.
Qed.

Lemma splitComma_commaFree s : Forall (fun e => commaFree e = true) (splitComma s).
Proof.
  induction s as [|c s IH]; cbn [splitComma]; [repeat constructor|].
  destruct (Ascii.eqb c ",") eqn:E; [constructor; [reflexivity|exact IH]|].
  destruct (splitComma s) as [|piece pieces]; [repeat constructor; cbn; now rewrite E|].
  apply Forall_cons in IH as [Hp Hps]. constructor; [|exact Hps].
  cbn. now rewrite E, Hp.
Qed.

Lemma trimEnd_commaFree s : commaFree s = true -> commaFree (trimEnd s) = true.
Proof.
  induction s as [|c s IH]; [reflexivity|]. cbn [commaFree trimEnd].
  intros H. apply andb_true_iff in H as [Hc Hs]. specialize (IH Hs).
  destruct (trimEnd s) as [|c' k].
  - destruct (isWhite c); [reflexivity|]. cbn. now rewrite Hc.
  - cbn [commaFree] in *. now rewrite Hc, IH.
Qed.

Lemma skipWhite_commaFree s : commaFree s = true -> commaFree (skipWhite s) = true.
Proof.
  induction s as [|c s IH]; [reflexivity|]. cbn [commaFree skipWhite].
  intros H. destruct (isWhite c); [|exact H].
  apply andb_true_iff in H as [_ Hs]. now apply IH.
Qed.

Lemma skipWhite_idem s : skipWhite (skipWhite s) = skipWhite s.
Proof.
  induction s as [|c s IH]; [reflexivity|]. cbn [skipWhite].
  destruct (isWhite c) eqn:E; [exact IH|]. cbn [skipWhite]. now rewrite E.
Qed.

Lemma trimEnd_idem s : trimEnd (trimEnd s) = trimEnd s.
Proof.
  induction s as [|c s IH]; [reflexivity|]. cbn [trimEnd].
  destruct (trimEnd s) as [|c' k] eqn:E.
  - destruct (isWhite c) eqn:Hc; [reflexivity|]. cbn [trimEnd]. now rewrite Hc.
  - cbn [trimEnd]. cbn [trimEnd] in IH. rewrite IH. reflexivity.
Qed.

Lemma trimEnd_skipWhite s : trimEnd (skipWhite s) = skipWhite (trimEnd s).
Proof.
  induction s as [|c s IH]; [reflexivity|]. cbn [skipWhite trimEnd].
  destruct (isWhite c) eqn:Hc.
  - rewrite IH. destruct (trimEnd s) as [|c' k]; [reflexivity|].
    cbn [skipWhite]. now rewrite Hc.
  - cbn [trimEnd]. destruct (trimEnd s) as [|c' k]; rewrite ?Hc; cbn [skipWhite];
      now rewrite Hc.
Qed.

Lemma trim_idem s : trim (trim s) = trim s.
Proof.
  unfold trim. now rewrite <- trimEnd_skipWhite, skipWhite_idem, trimEnd_skipWhite,
                            trimEnd_idem.
Qed.

Lemma splitComma_piece x t :
  commaFree x = true -> splitComma (String.append x (String "," t)) = x :: splitComma t.
Proof.
  induction x as [|c x IH]; [reflexivity|]. cbn [commaFree]. intros H.
  apply andb_true_iff in H as [Hc Hx]. apply negb_true_iff in Hc.
  change (String.append (String c x) (String "," t))
    with (String c (String.append x (String "," t))).
  cbn [splitComma]. now rewrite Hc, (IH Hx).
Qed.

Lemma splitComma_whole x : commaFree x = true -> splitComma x = [x].
Proof.
  induction x as [|c x IH]; [reflexivity|]. cbn [commaFree]. intros H.
  apply andb_true_iff in H as [Hc Hx]. apply negb_true_iff in Hc.
  cbn [splitComma]. now rewrite Hc, (IH Hx).
Qed.

Lemma splitComma_join l :
  l <> [] -> Forall (fun e => commaFree e = true) l -> splitComma (joinComma l) = l.
Proof.
  induction l as [|x l IH]; intros Hne Hall; [contradiction|].
  apply Forall_cons in Hall as [Hx Hl]. destruct l as [|y l].
  - now apply splitComma_whole.
  - change (joinComma (x :: y :: l))
      with (String.append x (String "," (joinComma (y :: l)))).
    rewrite (splitComma_piece x _ Hx), IH; [reflexivity|discriminate|exact Hl].
Qed.

(** The entries of a split list. *)
Lemma splitList_entries value :
  Forall (fun e => e <> "" /\ commaFree e = true /\ trim e = e) (splitList value).
Proof.
  unfold splitList. destruct value as [s|]; [|constructor].
  destruct (String.eqb s ""); [constructor|].
  pose proof (splitComma_commaFree s) as Hall.
  induction Hall as [|x l Hx _ IH]; [constructor|].
  cbn [map List.filter]. destruct (String.eqb_spec (trim x) "") as [E|E]; cbn [negb];
    [exact IH|].
  constructor; [|exact IH]. split; [exact E|]. split; [|apply trim_idem].
  unfold trim. now apply skipWhite_commaFree, trimEnd_commaFree.
Qed.

Example splitList_sample :
  splitList (Some " yoga, ,breath work ,,reiki ") = ["yoga"; "breath work"; "reiki"].
Proof. reflexivity. Qed.

(** X30.  [splitList] normalises a comma-separated field: a missing or
    empty value gives the empty list; every entry of the result is
    non-empty, holds no comma and has no white space at either end; and
    the result is stable, in that joining it with commas and splitting
    again gives the same list. *)
Theorem splitList_normalises :
  forall value,
    splitList None = [] /\ splitList (Some "") = []
    /\ Forall (fun e => e <> "" /\ commaFree e = true /\ trim e = e) (splitList value)
    /\ splitList (Some (joinComma (splitList value))) = splitList value.
Proof.
  intros value. split; [reflexivity|]. split; [reflexivity|].
  pose proof (splitList_entries value) as Hall. split; [exact Hall|].
  destruct (splitList value) as [|x l] eqn:E; [reflexivity|].
  assert (joinComma (x :: l) <> "") as Hne.
  { pose proof Hall as Hall'. apply Forall_cons in Hall' as [[Hx _] _].
    destruct l; cbn [joinComma]; [exact Hx|].
    destruct x; [contradiction|discriminate]. }
  unfold splitList at 1. apply String.eqb_neq in Hne. rewrite Hne.
  rewrite splitComma_join; [|discriminate|].
  - clear E Hne. induction Hall as [|e es [He [_ Ht]] _ IH]; [reflexivity|].
    cbn [map List.filter]. rewrite Ht. apply String.eqb_neq in He. rewrite He.
    cbn [negb]. now rewrite IH.
  - eapply List.Forall_impl; [|exact Hall]. cbn. intros e (_ & H & _). exact H.
Qed.
